(** * weblazy/notify: the cryptocurrency price monitor of [main.go]

    A shallow embedding of the price resolution and alert evaluation code of
    [main.go], and the properties of it that the specification states.

    - [float64] is Rocq's primitive binary64 float; arithmetic and
      comparisons are the IEEE 754 ones that Go uses.
    - The process-wide variables [config] and [priceHistory], and the outside
      world behind [httpClient] and [time.Now], are fields of one state
      [Sys] that every function threads (monad [M]).  A run-time panic (an
      index out of range) is an outcome of its own.
    - The pieces of Go's standard library that the code calls ([fmt.Sscanf]
      with the verb [%f], [fmt.Sprintf], [time.Format] and [time.Parse]) are
      the fields of the class [GoRuntime].
    - [log.Printf] lines are not modelled: nothing reads them back. *)

From Stdlib Require Import ZArith Floats Uint63 Ascii Lia.
From stdpp Require Import base option gmap strings list fin_maps pretty.

Local Open Scope string_scope.
Local Open Scope Z_scope.

(** ** Basic types *)

(** [float64]. *)
Abbreviation float64 := PrimFloat.float (only parsing).

(** A Go [error] value, by its [Error()] text. *)
Definition error : Type := string.

(** [time.Time], as nanoseconds since the Unix epoch, and [time.Duration],
    a signed 64-bit count of nanoseconds.  There is one clock: the wall
    clock and the monotonic clock of a [time.Time] read the same. *)
Definition Time : Type := Z.
Definition Duration : Type := Z.

Definition minDuration : Duration := - 2 ^ 63.
Definition maxDuration : Duration := 2 ^ 63 - 1.

(** Wrap-around of Go's 64-bit signed arithmetic. *)
Definition int64_wrap (z : Z) : Z := (z + 2 ^ 63) mod 2 ^ 64 - 2 ^ 63.

Definition Second : Duration := 1000000000.
Definition Minute : Duration := 60 * Second.

(** [time.Time{}], the zero value: January 1, year 1, 00:00 UTC. *)
Definition zeroTime : Time := - 62135596800 * Second.

(** [t.Sub(u)]: the difference, saturated to the range of a [Duration]. *)
Definition Time_Sub (t u : Time) : Duration :=
  if t - u <? minDuration then minDuration
  else if maxDuration <? t - u then maxDuration
  else t - u.

(** ** Go's standard library, as far as the program calls it *)

Class GoRuntime := {
  (** [fmt.Sscanf(s, "%f", &price)]: the scanned number, or the error. *)
  Sscanf_f : string -> float64 + error;
  (** [fmt.Sprintf("%.2f", x)]. *)
  Sprintf_2f : float64 -> string;
  (** [fmt.Sprintf(template, arg)] for a template read from the
      configuration. *)
  Sprintf_template : string -> string -> string;
  (** [t.Format(time.RFC3339)] and [time.Parse(time.RFC3339, s)]. *)
  Format_RFC3339 : Time -> string;
  Parse_RFC3339 : string -> Time + error;
  (** The order in which a [range] statement visits the keys of a map. *)
  range_order : list string -> list string
}.

(** ** Configuration and data structures *)

Record ConfigAPI := {
  BinanceURL : string;
  BinanceKlineURL : string;
  BybitURL : string;
  BybitKlineURL : string;
  CoinbaseURLTemplate : string;
  KrakenURLTemplate : string
}.

Record ConfigNotify := {
  NtfyTopic : string;
  NtfyURL : string
}.

Record ConfigMonitor := {
  CheckIntervalSeconds : Z;
  AlertCooldownMinutes : Z
}.

(** [ComparisonType] is a string type. *)
Definition ComparisonType : Type := string.
Definition Below : ComparisonType := "<".
Definition Above : ComparisonType := ">".

Record PriceAlertRule := {
  par_Symbol : string;
  par_Threshold : float64;
  par_Comparison : ComparisonType
}.

Record ChangeAlertRule := {
  car_Symbol : string;
  car_ChangePercent : float64;
  car_Period : string
}.

Record Config := {
  API : ConfigAPI;
  Notify : ConfigNotify;
  Monitor : ConfigMonitor;
  PriceAlertRules : list PriceAlertRule;
  ChangeAlertRules : list ChangeAlertRule
}.

(** [PriceHistory]: the cooldown map of the change alerts, keyed by symbol
    and period, and a time that the program never uses. *)
Record PriceHistory := {
  lastAlertTime : gmap string string;
  priceAlertTime : Time
}.

(** A decoded JSON value held in an [interface{}]; [IComposite] stands for
    an array or an object, which the program never looks into. *)
Inductive iface :=
| IString (s : string)
| INumber (x : float64)
| IBool (b : bool)
| INil
| IComposite.

(** [BinanceKline] is [[]interface{}]. *)
Definition BinanceKline : Type := list iface.

Record BybitKlineResponse := {
  bkr_List : list (list string);
  bkr_RetCode : Z;
  bkr_RetMsg : string
}.

Record BinanceResponse := {
  bin_Symbol : string;
  bin_Price : string
}.

Record BybitTicker := {
  byb_Symbol : string;
  byb_LastPrice : string
}.

Record BybitResponse := {
  byr_List : list BybitTicker;
  byr_RetCode : Z;
  byr_RetMsg : string
}.

Record CoinbaseResponse := {
  cb_Amount : string
}.

(** [KrakenResponse.Result] is a map; its entries are listed in the order
    in which a [range] over it visits them. *)
Record KrakenResponse := {
  kr_Result : list (string * list string)
}.

Record AlertInfo := {
  Symbol : string;
  AlertType : string;
  CurrentPrice : float64;
  Message : string
}.

(** A Go map value: [None] is the nil map, which reads as an empty one. *)
Definition GoMap (V : Type) : Type := option (gmap string V).

Definition GoMap_len {V} (m : GoMap V) : nat :=
  match m with
  | None => 0%nat
  | Some m' => size m'
  end.

Definition GoMap_index {V} (m : GoMap V) (k : string) : option V :=
  match m with
  | None => None
  | Some m' => m' !! k
  end.

(** ** The outside world *)

(** The target of [SetResult] selects the type a response is decoded to. *)
Inductive ResultTy :=
| TBinanceTickers
| TBybitTickers
| TCoinbase
| TKraken
| TBinanceKlines
| TBybitKlines.

Definition result_of (t : ResultTy) : Type :=
  match t with
  | TBinanceTickers => list BinanceResponse
  | TBybitTickers => BybitResponse
  | TCoinbase => CoinbaseResponse
  | TKraken => KrakenResponse
  | TBinanceKlines => list BinanceKline
  | TBybitKlines => BybitKlineResponse
  end.

(** What the program has asked of the world so far, oldest first. *)
Inductive Event :=
| EvGet (url : string)
| EvPost (url : string) (body : string)
| EvNow.

(** The answer to a GET: the decoded body, or the transport error. *)
Inductive reply (T : Type) :=
| Body (v : T)
| Failed (err : error).
Arguments Body {T} v.
Arguments Failed {T} err.

(** The world answers each request as a function of all earlier ones. *)
Record Env := {
  env_get : forall t : ResultTy, list Event -> string -> reply (result_of t);
  env_post : list Event -> string -> string -> option error;
  env_now : list Event -> Time
}.

Record Sys := {
  config : Config;
  priceHistory : PriceHistory;
  env : Env;
  history : list Event
}.

(** ** The monad of the program: state, and panics *)

Inductive outcome (A : Type) :=
| Returns (a : A)
| Panics (reason : string).
Arguments Returns {A} a.
Arguments Panics {A} reason.

Definition M (A : Type) : Type := Sys -> outcome A * Sys.

Definition ret {A} (a : A) : M A := fun s => (Returns a, s).

Definition bind {A B} (m : M A) (f : A -> M B) : M B :=
  fun s =>
    match m s with
    | (Returns a, s') => f a s'
    | (Panics r, s') => (Panics r, s')
    end.

Definition panic {A} (reason : string) : M A := fun s => (Panics reason, s).

Declare Scope go_scope.
Delimit Scope go_scope with go.
Notation "'let*' x ':=' m 'in' k" := (bind m (fun x => k))
  (at level 10, x pattern, m at level 100, k at level 200) : go_scope.
Local Open Scope go_scope.

Definition gets {A} (f : Sys -> A) : M A := fun s => (Returns (f s), s).

Definition record (e : Event) (s : Sys) : Sys :=
  {| config := config s; priceHistory := priceHistory s; env := env s;
     history := (history s ++ [e])%list |}.

(** [httpClient.R().SetResult(&result).Get(url)]. *)
Definition http_Get (t : ResultTy) (url : string) : M (reply (result_of t)) :=
  fun s => (Returns (env_get (env s) t (history s) url), record (EvGet url) s).

(** [httpClient.R().SetHeader(...).SetBody(body).Post(url)]; the headers
    are the same four at every call. *)
Definition http_Post (url body : string) : M (option error) :=
  fun s => (Returns (env_post (env s) (history s) url body), record (EvPost url body) s).

(** [time.Now()]. *)
Definition time_Now : M Time :=
  fun s => (Returns (env_now (env s) (history s)), record EvNow s).

(** [time.Since(t)] is [time.Now().Sub(t)]. *)
Definition time_Since (t : Time) : M Duration :=
  let* now := time_Now in ret (Time_Sub now t).

(** [s[i]] on a slice: a panic when [i] is out of range. *)
Definition index {A} (l : list A) (i : nat) : M A :=
  match l !! i with
  | Some x => ret x
  | None => panic "index out of range"
  end.

(** A [for _, x := range l] loop whose body updates one local variable. *)
Fixpoint forM {A B} (l : list A) (body : A -> B -> M B) (acc : B) : M B :=
  match l with
  | [] => ret acc
  | x :: rest => let* acc' := body x acc in forM rest body acc'
  end.

(** ** Price sources *)

Section Program.
Context {rt : GoRuntime}.

(** [getPricesFromBinance]. *)
Definition getPricesFromBinance : M (GoMap float64 * option error) :=
  let* cfg := gets config in
  let* r := http_Get TBinanceTickers (BinanceURL (API cfg)) in
  match r with
  | Failed err => ret (None, Some ("请求失败: " ++ err))
  | Body tickers =>
      let prices :=
        foldl (fun (prices : gmap string float64) ticker =>
                 match Sscanf_f (bin_Price ticker) with
                 | inl price => <[bin_Symbol ticker := price]> prices
                 | inr _ => prices
                 end) ∅ tickers in
      ret (Some prices, None)
  end.

(** [getPricesFromBybit]. *)
Definition getPricesFromBybit : M (GoMap float64 * option error) :=
  let* cfg := gets config in
  let* r := http_Get TBybitTickers (BybitURL (API cfg)) in
  match r with
  | Failed err => ret (None, Some ("请求失败: " ++ err))
  | Body result =>
      let prices :=
        foldl (fun (prices : gmap string float64) ticker =>
                 match Sscanf_f (byb_LastPrice ticker) with
                 | inl price => <[byb_Symbol ticker := price]> prices
                 | inr _ => prices
                 end) ∅ (byr_List result) in
      ret (Some prices, None)
  end.

(** The symbols of all rules, as the keys of the map [symbols] that three
    functions build, in the order a [range] over it visits them. *)
Definition monitoredSymbols (cfg : Config) : list string :=
  let symbols : gset string :=
    foldl (fun symbols rule => {[car_Symbol rule]} ∪ symbols)
      (foldl (fun symbols rule => {[par_Symbol rule]} ∪ symbols)
         ∅ (PriceAlertRules cfg))
      (ChangeAlertRules cfg) in
  range_order (elements symbols).

Definition noPriceData : error := "未获取到任何价格数据".

(** [getPricesFromCoinbase]. *)
Definition getPricesFromCoinbase : M (GoMap float64 * option error) :=
  let* cfg := gets config in
  let* prices :=
    forM (monitoredSymbols cfg)
      (fun symbol (prices : gmap string float64) =>
         let url := Sprintf_template (CoinbaseURLTemplate (API cfg)) symbol in
         let* r := http_Get TCoinbase url in
         match r with
         | Failed _ => ret prices
         | Body result =>
             match Sscanf_f (cb_Amount result) with
             | inl price => ret (<[symbol ++ "USDT" := price]> prices)
             | inr _ => ret prices
             end
         end) ∅ in
  if (size prices =? 0)%nat then ret (None, Some noPriceData)
  else ret (Some prices, None).

(** The map literal [symbolMap] of [getPricesFromKraken]. *)
Definition symbolMap : gmap string string :=
  <["BTC" := "XBTUSD"]> (<["ETH" := "ETHUSD"]> (<["SOL" := "SOLUSD"]> ∅)).

(** [getPricesFromKraken]; the inner loop over [result.Result] breaks
    after the first entry. *)
Definition getPricesFromKraken : M (GoMap float64 * option error) :=
  let* cfg := gets config in
  let* prices :=
    forM (monitoredSymbols cfg)
      (fun symbol (prices : gmap string float64) =>
         match symbolMap !! symbol with
         | None => ret prices
         | Some krakenSymbol =>
             let url := Sprintf_template (KrakenURLTemplate (API cfg)) krakenSymbol in
             let* r := http_Get TKraken url in
             match r with
             | Failed _ => ret prices
             | Body result =>
                 match kr_Result result with
                 | [] => ret prices
                 | (_, data) :: _ =>
                     match data with
                     | [] => ret prices
                     | c0 :: _ =>
                         match Sscanf_f c0 with
                         | inl price => ret (<[symbol ++ "USDT" := price]> prices)
                         | inr _ => ret prices
                         end
                     end
                 end
             end
         end) ∅ in
  if (size prices =? 0)%nat then ret (None, Some noPriceData)
  else ret (Some prices, None).

(** The slice [sources] of [getAllPrices]. *)
Definition priceSources : list (string * M (GoMap float64 * option error)) :=
  [("Binance", getPricesFromBinance);
   ("Bybit", getPricesFromBybit);
   ("Coinbase", getPricesFromCoinbase);
   ("Kraken", getPricesFromKraken)].

(** The loop of [getAllPrices] over the sources still to try. *)
Fixpoint tryPriceSources (sources : list (string * M (GoMap float64 * option error)))
  : M (GoMap float64 * string) :=
  match sources with
  | [] => ret (None, "")
  | (name, fn) :: rest =>
      let* (prices, err) := fn in
      match err with
      | None =>
          if (0 <? GoMap_len prices)%nat then ret (prices, name)
          else tryPriceSources rest
      | Some _ => tryPriceSources rest
      end
  end.

(** [getAllPrices]. *)
Definition getAllPrices : M (GoMap float64 * string) :=
  tryPriceSources priceSources.

(** ** Historical prices from candles *)

(** [getDailyOpenPriceFromBinance]. *)
Definition getDailyOpenPriceFromBinance (symbol : string) : M (float64 * option error) :=
  let* cfg := gets config in
  let url := BinanceKlineURL (API cfg) ++ "?symbol=" ++ symbol ++ "&interval=1d&limit=1" in
  let* r := http_Get TBinanceKlines url in
  match r with
  | Failed err => ret (0%float, Some ("获取日K线失败: " ++ err))
  | Body klines =>
      if (length klines =? 0)%nat then ret (0%float, Some "没有K线数据")
      else
        let* kline := index klines 0 in
        let* field := index kline 1 in
        match field with
        | IString openPriceStr =>
            match Sscanf_f openPriceStr with
            | inl openPrice => ret (openPrice, None)
            | inr err => ret (0%float, Some ("解析开盘价失败: " ++ err))
            end
        | _ => ret (0%float, Some "开盘价格式错误")
        end
  end.

(** [getDailyOpenPriceFromBybit]. *)
Definition getDailyOpenPriceFromBybit (symbol : string) : M (float64 * option error) :=
  let* cfg := gets config in
  let url := BybitKlineURL (API cfg) ++ "?category=spot&symbol=" ++ symbol
             ++ "&interval=D&limit=1" in
  let* r := http_Get TBybitKlines url in
  match r with
  | Failed err => ret (0%float, Some ("获取日K线失败: " ++ err))
  | Body result =>
      if negb (bkr_RetCode result =? 0) then
        ret (0%float, Some ("API返回错误: " ++ bkr_RetMsg result))
      else if (length (bkr_List result) =? 0)%nat then
        ret (0%float, Some "没有K线数据")
      else
        let* kline := index (bkr_List result) 0 in
        let* openPriceStr := index kline 1 in
        match Sscanf_f openPriceStr with
        | inl openPrice => ret (openPrice, None)
        | inr err => ret (0%float, Some ("解析开盘价失败: " ++ err))
        end
  end.

(** [get15mAgoPriceFromBinance]. *)
Definition get15mAgoPriceFromBinance (symbol : string) : M (float64 * option error) :=
  let* cfg := gets config in
  let url := BinanceKlineURL (API cfg) ++ "?symbol=" ++ symbol ++ "&interval=15m&limit=2" in
  let* r := http_Get TBinanceKlines url in
  match r with
  | Failed err => ret (0%float, Some ("获取15分钟K线失败: " ++ err))
  | Body klines =>
      if (length klines <? 2)%nat then ret (0%float, Some "K线数据不足")
      else
        let* kline := index klines 1 in
        let* field := index kline 4 in
        match field with
        | IString closePriceStr =>
            match Sscanf_f closePriceStr with
            | inl closePrice => ret (closePrice, None)
            | inr err => ret (0%float, Some ("解析收盘价失败: " ++ err))
            end
        | _ => ret (0%float, Some "收盘价格式错误")
        end
  end.

(** [get15mAgoPriceFromBybit]. *)
Definition get15mAgoPriceFromBybit (symbol : string) : M (float64 * option error) :=
  let* cfg := gets config in
  let url := BybitKlineURL (API cfg) ++ "?category=spot&symbol=" ++ symbol
             ++ "&interval=15&limit=2" in
  let* r := http_Get TBybitKlines url in
  match r with
  | Failed err => ret (0%float, Some ("获取15分钟K线失败: " ++ err))
  | Body result =>
      if negb (bkr_RetCode result =? 0) then
        ret (0%float, Some ("API返回错误: " ++ bkr_RetMsg result))
      else if (length (bkr_List result) <? 2)%nat then
        ret (0%float, Some "K线数据不足")
      else
        let* kline := index (bkr_List result) 1 in
        let* closePriceStr := index kline 4 in
        match Sscanf_f closePriceStr with
        | inl closePrice => ret (closePrice, None)
        | inr err => ret (0%float, Some ("解析收盘价失败: " ++ err))
        end
  end.

(** [getHistoricalPriceFromBinance]. *)
Definition getHistoricalPriceFromBinance (symbol period : string)
  : M (float64 * option error) :=
  if (period =? "daily")%string then getDailyOpenPriceFromBinance symbol
  else if (period =? "15m")%string then get15mAgoPriceFromBinance symbol
  else ret (0%float, Some ("未知的时间周期: " ++ period)).

(** [getHistoricalPriceFromBybit]. *)
Definition getHistoricalPriceFromBybit (symbol period : string)
  : M (float64 * option error) :=
  if (period =? "daily")%string then getDailyOpenPriceFromBybit symbol
  else if (period =? "15m")%string then get15mAgoPriceFromBybit symbol
  else ret (0%float, Some ("未知的时间周期: " ++ period)).

(** The slice [sources] of [getHistoricalPrice]. *)
Definition historicalSources
  : list (string * (string -> string -> M (float64 * option error))) :=
  [("Binance", getHistoricalPriceFromBinance);
   ("Bybit", getHistoricalPriceFromBybit)].

(** The error of [getHistoricalPrice] when no source is left. *)
Definition noHistoricalPrice (symbol period : string) : error :=
  "所有数据源均无法获取 " ++ symbol ++ " " ++ period ++ " 历史价格".

(** The loop of [getHistoricalPrice] over the sources still to try. *)
Fixpoint tryHistoricalSources
  (sources : list (string * (string -> string -> M (float64 * option error))))
  (symbolKey symbol period : string) : M (float64 * option error) :=
  match sources with
  | [] => ret (0%float, Some (noHistoricalPrice symbol period))
  | (name, fn) :: rest =>
      let* (price, err) := fn symbolKey period in
      match err with
      | None =>
          if (0 <? price)%float then ret (price, None)
          else tryHistoricalSources rest symbolKey symbol period
      | Some _ => tryHistoricalSources rest symbolKey symbol period
      end
  end.

(** [getHistoricalPrice]. *)
Definition getHistoricalPrice (symbol period : string) : M (float64 * option error) :=
  let symbolKey := symbol ++ "USDT" in
  tryHistoricalSources historicalSources symbolKey symbol period.

(** ** Alert rules *)

(** The body of the loop of [checkPriceAlerts], for one rule. *)
Definition checkPriceRule (prices : GoMap float64) (rule : PriceAlertRule)
  (triggered : list AlertInfo) : M (list AlertInfo) :=
  let symbolKey := par_Symbol rule ++ "USDT" in
  match GoMap_index prices symbolKey with
  | None => ret triggered
  | Some price =>
      let message :=
        if (par_Comparison rule =? Below)%string
           && (price <? par_Threshold rule)%float
        then "跌破 $" ++ Sprintf_2f (par_Threshold rule)
        else if (par_Comparison rule =? Above)%string
                && (par_Threshold rule <? price)%float
        then "突破 $" ++ Sprintf_2f (par_Threshold rule)
        else "" in
      if negb (message =? "")%string then
        ret (triggered ++ [{| Symbol := par_Symbol rule;
                              AlertType := "price";
                              CurrentPrice := price;
                              Message := message |}])%list
      else ret triggered
  end.

(** [checkPriceAlerts]. *)
Definition checkPriceAlerts (prices : GoMap float64) : M (list AlertInfo) :=
  let* cfg := gets config in
  forM (PriceAlertRules cfg) (checkPriceRule prices) [].

(** [abs]. *)
Definition abs (x : float64) : float64 :=
  if (x <? 0)%float then (- x)%float else x.

(** [lastAlertTime[alertKey] = value] on the map of [priceHistory]. *)
Definition setLastAlertTime (alertKey value : string) : M unit :=
  fun s =>
    (Returns tt,
     {| config := config s;
        priceHistory :=
          {| lastAlertTime := <[alertKey := value]> (lastAlertTime (priceHistory s));
             priceAlertTime := priceAlertTime (priceHistory s) |};
        env := env s;
        history := history s |}).

(** The body of the loop of [checkChangeAlerts], for one rule. *)
Definition checkChangeRule (prices : GoMap float64) (alertCooldown : Duration)
  (now : Time) (rule : ChangeAlertRule) (triggered : list AlertInfo)
  : M (list AlertInfo) :=
  let symbolKey := car_Symbol rule ++ "USDT" in
  match GoMap_index prices symbolKey with
  | None => ret triggered
  | Some currentPrice =>
      let* (basePrice, err) := getHistoricalPrice (car_Symbol rule) (car_Period rule) in
      match err with
      | Some _ => ret triggered
      | None =>
          let periodLabel :=
            if (car_Period rule =? "daily")%string then "当日"
            else if (car_Period rule =? "15m")%string then "15分钟"
            else car_Period rule in
          let changePercent := ((currentPrice - basePrice) / basePrice * 100)%float in
          if (car_ChangePercent rule <=? abs changePercent)%float then
            let alertKey := symbolKey ++ "_" ++ car_Period rule in
            let* cooldowns := gets (fun s => lastAlertTime (priceHistory s)) in
            let inCooldown :=
              match cooldowns !! alertKey with
              | Some lastAlertTimeStr =>
                  match Parse_RFC3339 lastAlertTimeStr with
                  | inl lastAlertTime => Time_Sub now lastAlertTime <? alertCooldown
                  | inr _ => false
                  end
              | None => false
              end in
            if inCooldown then ret triggered
            else
              let direction :=
                if (0 <? changePercent)%float then "上涨" else "下跌" in
              let message :=
                periodLabel ++ direction ++ " " ++ Sprintf_2f (abs changePercent)
                ++ "% (从 $" ++ Sprintf_2f basePrice ++ " 到 $"
                ++ Sprintf_2f currentPrice ++ ")" in
              let* _ := setLastAlertTime alertKey (Format_RFC3339 now) in
              ret (triggered ++ [{| Symbol := car_Symbol rule;
                                    AlertType := "change";
                                    CurrentPrice := currentPrice;
                                    Message := message |}])%list
          else ret triggered
      end
  end.

(** [checkChangeAlerts]. *)
Definition checkChangeAlerts (prices : GoMap float64) (alertCooldown : Duration)
  : M (list AlertInfo) :=
  let* now := time_Now in
  let* cfg := gets config in
  forM (ChangeAlertRules cfg) (checkChangeRule prices alertCooldown now) [].

(** ** Notification *)

Definition newline : string := String (Ascii.ascii_of_nat 10) EmptyString.

(** The text that [sendAlerts] posts for a batch of alerts. *)
Definition alertsMessage (triggered : list AlertInfo) : string :=
  let lines :=
    map (fun alert =>
           let emoji := if (AlertType alert =? "price")%string then "💰" else "📈" in
           emoji ++ " " ++ Symbol alert ++ " " ++ Message alert ++ newline
           ++ "当前: $" ++ Sprintf_2f (CurrentPrice alert)) triggered in
  "🚨 加密货币告警" ++ newline ++ newline
  ++ String.concat (newline ++ newline) lines.

(** [sendAlerts]. *)
Definition sendAlerts (triggered : list AlertInfo) : M (option error) :=
  if (length triggered =? 0)%nat then ret None
  else
    let message := alertsMessage triggered in
    let* cfg := gets config in
    let* err := http_Post (NtfyURL (Notify cfg)) message in
    match err with
    | Some e => ret (Some ("推送失败: " ++ e))
    | None => ret None
    end.

(** [logCurrentPrices], by the requests it makes: the summary line it
    prints is not modelled. *)
Definition logCurrentPrices (prices : GoMap float64) : M unit :=
  let* cfg := gets config in
  forM (monitoredSymbols cfg)
    (fun symbol (_ : unit) =>
       let symbolKey := symbol ++ "USDT" in
       match GoMap_index prices symbolKey with
       | Some price =>
           let* _ := getHistoricalPrice symbol "daily" in
           let* _ := getHistoricalPrice symbol "15m" in
           ret tt
       | None => ret tt
       end) tt.

(** ** The monitoring loop *)

(** [alertCooldown] of [monitorCryptoPrices]. *)
Definition alertCooldownOf (cfg : Config) : Duration :=
  int64_wrap (AlertCooldownMinutes (Monitor cfg) * Minute).

(** Step 4 of the loop body of [monitorCryptoPrices]: the price alerts,
    behind the shared cooldown of the local variable [lastAlertTime]; the
    result is that variable's new value. *)
Definition sendPriceAlerts (priceAlerts : list AlertInfo) (alertCooldown : Duration)
  (lastAlertTime : Time) : M Time :=
  if (0 <? length priceAlerts)%nat then
    let* since := time_Since lastAlertTime in
    if alertCooldown <? since then
      let* err := sendAlerts priceAlerts in
      match err with
      | Some _ => ret lastAlertTime
      | None => time_Now
      end
    else
      let* remaining := time_Since lastAlertTime in
      ret lastAlertTime
  else ret lastAlertTime.

(** Step 6 of the loop body: the change alerts, sent on their own. *)
Definition sendChangeAlerts (changeAlerts : list AlertInfo) : M unit :=
  if (0 <? length changeAlerts)%nat then
    let* err := sendAlerts changeAlerts in
    ret tt
  else ret tt.

(** One iteration of the loop [for range ticker.C] of
    [monitorCryptoPrices], from the value of its local variable
    [lastAlertTime] to the next one. *)
Definition monitorTick (lastAlertTime : Time) : M Time :=
  let* cfg := gets config in
  let alertCooldown := alertCooldownOf cfg in
  let* (prices, source) := getAllPrices in
  match prices with
  | None => ret lastAlertTime
  | Some _ =>
      let* priceAlerts := checkPriceAlerts prices in
      let* changeAlerts := checkChangeAlerts prices alertCooldown in
      let* lastAlertTime' := sendPriceAlerts priceAlerts alertCooldown lastAlertTime in
      let* _ := sendChangeAlerts changeAlerts in
      let* _ := logCurrentPrices prices in
      ret lastAlertTime'
  end.

(** The first [n] iterations of the loop. *)
Fixpoint monitorTicks (n : nat) (lastAlertTime : Time) : M Time :=
  match n with
  | O => ret lastAlertTime
  | S n' =>
      let* lastAlertTime' := monitorTick lastAlertTime in
      monitorTicks n' lastAlertTime'
  end.

End Program.

(** ** An executable runtime and scripted worlds, for the examples *)

(** Decimal digits. *)
Definition digitOf (c : Ascii.ascii) : option Z :=
  let n := Z.of_nat (Ascii.nat_of_ascii c) in
  if (48 <=? n) && (n <=? 57) then Some (n - 48) else None.

Fixpoint digitsFrom (acc : Z) (s : string) : option Z :=
  match s with
  | EmptyString => Some acc
  | String c rest =>
      match digitOf c with
      | Some d => digitsFrom (10 * acc + d) rest
      | None => None
      end
  end.

Definition digits (s : string) : option Z :=
  match s with
  | EmptyString => None
  | _ => digitsFrom 0 s
  end.

Fixpoint splitAtDot (s : string) : string * option string :=
  match s with
  | EmptyString => (EmptyString, None)
  | String c rest =>
      if Ascii.eqb c "."%char then (EmptyString, Some rest)
      else let '(a, b) := splitAtDot rest in (String c a, b)
  end.

(** An unsigned decimal number of at most 15 digits, [ddd] or [ddd.ddd]:
    both the digits read as an integer and the power of ten are binary64
    values, so the quotient is the nearest binary64 value of the number. *)
Definition demo_Sscanf_f (s : string) : float64 + error :=
  let '(whole, frac) := splitAtDot s in
  let fracStr := default EmptyString frac in
  match digits whole, digitsFrom 0 fracStr with
  | Some w, Some f =>
      if (15 <? String.length whole + String.length fracStr)%nat then
        inr "too many digits"
      else
        let scale := 10 ^ Z.of_nat (String.length fracStr) in
        inl (PrimFloat.of_uint63 (Uint63.of_Z (w * scale + f))
             / PrimFloat.of_uint63 (Uint63.of_Z scale))%float
  | _, _ => inr "expected a number"
  end.

(** The exact value [m * 2 ^ e] in hundredths, rounded half to even. *)
Definition hundredths (m : positive) (e : Z) : Z :=
  if 0 <=? e then Z.pos m * 2 ^ e * 100
  else
    let d := 2 ^ (- e) in
    let n := Z.pos m * 100 in
    let q := n / d in
    let r := n mod d in
    if 2 * r <? d then q
    else if d <? 2 * r then q + 1
    else if Z.even q then q else q + 1.

Definition pad2 (z : Z) : string :=
  if z <? 10 then "0" ++ pretty z else pretty z.

Definition demo_Sprintf_2f (x : float64) : string :=
  match Prim2SF x with
  | S754_zero sign => (if sign then "-" else "") ++ "0.00"
  | S754_infinity sign => if sign then "-Inf" else "+Inf"
  | S754_nan => "NaN"
  | S754_finite sign m e =>
      let c := hundredths m e in
      (if sign then "-" else "") ++ pretty (c / 100) ++ "." ++ pad2 (c mod 100)
  end.

(** The first [%s] of the template replaced by the argument. *)
Fixpoint demo_Sprintf_template (template arg : string) : string :=
  match template with
  | EmptyString => EmptyString
  | String c rest =>
      match rest with
      | String c' rest' =>
          if Ascii.eqb c "%"%char && Ascii.eqb c' "s"%char then arg ++ rest'
          else String c (demo_Sprintf_template rest arg)
      | EmptyString => String c EmptyString
      end
  end.

(** RFC 3339 in UTC, for years 0 to 9999: [2006-01-02T15:04:05Z]. *)
Definition civilFromDays (days : Z) : Z * Z * Z :=
  let z := days + 719468 in
  let era := z / 146097 in
  let doe := z mod 146097 in
  let yoe := (doe - doe / 1460 + doe / 36524 - doe / 146096) / 365 in
  let doy := doe - (365 * yoe + yoe / 4 - yoe / 100) in
  let mp := (5 * doy + 2) / 153 in
  let d := doy - (153 * mp + 2) / 5 + 1 in
  let m := if mp <? 10 then mp + 3 else mp - 9 in
  let y := yoe + era * 400 + (if m <=? 2 then 1 else 0) in
  (y, m, d).

Definition daysFromCivil (y m d : Z) : Z :=
  let y' := if m <=? 2 then y - 1 else y in
  let era := y' / 400 in
  let yoe := y' - era * 400 in
  let mp := if 2 <? m then m - 3 else m + 9 in
  let doy := (153 * mp + 2) / 5 + d - 1 in
  let doe := yoe * 365 + yoe / 4 - yoe / 100 + doy in
  era * 146097 + doe - 719468.

Definition pad4 (z : Z) : string :=
  (if z <? 10 then "000" else if z <? 100 then "00" else if z <? 1000 then "0" else "")
  ++ pretty z.

Definition demo_Format_RFC3339 (t : Time) : string :=
  let secs := t / Second in
  let '(y, m, d) := civilFromDays (secs / 86400) in
  let rem := secs mod 86400 in
  pad4 y ++ "-" ++ pad2 m ++ "-" ++ pad2 d ++ "T"
  ++ pad2 (rem / 3600) ++ ":" ++ pad2 (rem mod 3600 / 60) ++ ":" ++ pad2 (rem mod 60)
  ++ "Z".

Definition demo_Parse_RFC3339 (s : string) : Time + error :=
  let field i n := digits (String.substring i n s) in
  let sep i c := (String.substring i 1 s =? c)%string in
  match field 0%nat 4%nat, field 5%nat 2%nat, field 8%nat 2%nat,
        field 11%nat 2%nat, field 14%nat 2%nat, field 17%nat 2%nat with
  | Some y, Some m, Some d, Some hh, Some mm, Some ss =>
      if (String.length s =? 20)%nat
         && sep 4%nat "-" && sep 7%nat "-" && sep 10%nat "T"
         && sep 13%nat ":" && sep 16%nat ":" && sep 19%nat "Z"
         && (1 <=? m) && (m <=? 12) && (1 <=? d) && (d <=? 31)
         && (hh <? 24) && (mm <? 60) && (ss <? 60)
      then inl ((daysFromCivil y m d * 86400 + hh * 3600 + mm * 60 + ss) * Second)
      else inr "parsing time: out of range"
  | _, _, _, _, _, _ => inr "parsing time: cannot parse"
  end.

Definition demo_runtime : GoRuntime := {|
  Sscanf_f := demo_Sscanf_f;
  Sprintf_2f := demo_Sprintf_2f;
  Sprintf_template := demo_Sprintf_template;
  Format_RFC3339 := demo_Format_RFC3339;
  Parse_RFC3339 := demo_Parse_RFC3339;
  range_order := fun keys => keys
|}.

(** A world given by one answer per kind of request, and by the clock's
    successive readings. *)
Fixpoint countNow (h : list Event) : nat :=
  match h with
  | [] => 0%nat
  | EvNow :: rest => S (countNow rest)
  | _ :: rest => countNow rest
  end.

Fixpoint countPosts (h : list Event) : nat :=
  match h with
  | [] => 0%nat
  | EvPost _ _ :: rest => S (countPosts rest)
  | _ :: rest => countPosts rest
  end.

Definition demo_env
  (binanceTickers : reply (list BinanceResponse))
  (bybitTickers : reply BybitResponse)
  (binanceKlines : string -> reply (list BinanceKline))
  (bybitKlines : string -> reply BybitKlineResponse)
  (post : option error)
  (clock : nat -> Time) : Env := {|
  env_get t h url :=
    match t return reply (result_of t) with
    | TBinanceTickers => binanceTickers
    | TBybitTickers => bybitTickers
    | TCoinbase => Failed "connection refused"
    | TKraken => Failed "connection refused"
    | TBinanceKlines => binanceKlines url
    | TBybitKlines => bybitKlines url
    end;
  env_post h url body := post;
  env_now h := clock (countNow h)
|}.

Definition demo_api : ConfigAPI := {|
  BinanceURL := "https://binance/ticker";
  BinanceKlineURL := "https://binance/klines";
  BybitURL := "https://bybit/ticker";
  BybitKlineURL := "https://bybit/kline";
  CoinbaseURLTemplate := "https://coinbase/%s-USD/spot";
  KrakenURLTemplate := "https://kraken/Ticker?pair=%s"
|}.

Definition demo_config (cooldownMinutes : Z) (priceRules : list PriceAlertRule)
  (changeRules : list ChangeAlertRule) : Config := {|
  API := demo_api;
  Notify := {| NtfyTopic := "crypto"; NtfyURL := "https://ntfy/crypto" |};
  Monitor := {| CheckIntervalSeconds := 60; AlertCooldownMinutes := cooldownMinutes |};
  PriceAlertRules := priceRules;
  ChangeAlertRules := changeRules
|}.

(** The state [main] starts the loop in: an empty cooldown map. *)
Definition initialSys (cfg : Config) (e : Env) : Sys := {|
  config := cfg;
  priceHistory := {| lastAlertTime := ∅; priceAlertTime := zeroTime |};
  env := e;
  history := []
|}.

(** ** Specifications, in the words of the design *)

(** A fetch is accepted when it returned no error and a non-empty
    snapshot. *)
Definition accepted (r : GoMap float64 * option error) : Prop :=
  r.2 = None /\ (0 < GoMap_len r.1)%nat.

(** [tried sources s r s']: from state [s], trying [sources] in order ends
    in state [s'] with result [r]: the snapshot and name of the first
    source whose fetch is accepted, in the state that fetch left, or the
    nil snapshot and the empty name after every source was tried. *)
Inductive tried : list (string * M (GoMap float64 * option error)) ->
                  Sys -> GoMap float64 * string -> Sys -> Prop :=
| tried_all_failed s :
    tried [] s (None, "") s
| tried_accept name fn rest s r s' :
    fn s = (Returns r, s') -> accepted r ->
    tried ((name, fn) :: rest) s (r.1, name) s'
| tried_next name fn rest s r s' res s'' :
    fn s = (Returns r, s') -> ~ accepted r ->
    tried rest s' res s'' ->
    tried ((name, fn) :: rest) s res s''.

Section Specifications.
Context {rt : GoRuntime}.

(** [prices] is the snapshot of [records]: every entry is the parsed price
    of a record with that symbol; every record whose price parses has its
    symbol in the snapshot, with its own price unless a later record of
    the same symbol parses too. *)
Definition parsedSnapshot {A} (symbolOf priceOf : A -> string) (records : list A)
  (prices : gmap string float64) : Prop :=
  (forall k p, prices !! k = Some p ->
     exists x, x ∈ records /\ symbolOf x = k /\ Sscanf_f (priceOf x) = inl p) /\
  (forall x p, x ∈ records -> Sscanf_f (priceOf x) = inl p ->
     is_Some (prices !! symbolOf x)) /\
  (forall before x after p,
     records = (before ++ x :: after)%list ->
     Sscanf_f (priceOf x) = inl p ->
     (forall y, y ∈ after -> symbolOf y = symbolOf x ->
        exists e, Sscanf_f (priceOf y) = inr e) ->
     prices !! symbolOf x = Some p).

(** The percent change of the design: [(current - base) / base * 100]. *)
Definition changePercentOf (current base : float64) : float64 :=
  ((current - base) / base * 100)%float.

(** A change rule is triggered when the magnitude of the change reaches
    its threshold. *)
Definition changeTriggered (rule : ChangeAlertRule) (current base : float64) : bool :=
  (car_ChangePercent rule <=? abs (changePercentOf current base))%float.

(** The alert key of a change rule: symbol, ["USDT"], ["_"], period. *)
Definition alertKeyOf (rule : ChangeAlertRule) : string :=
  (car_Symbol rule ++ "USDT") ++ "_" ++ car_Period rule.

(** The entry of [key] is younger than the cooldown window at [now]. *)
Definition youngerThanCooldown (cooldowns : gmap string string) (key : string)
  (now : Time) (alertCooldown : Duration) : Prop :=
  exists str t,
    cooldowns !! key = Some str /\ Parse_RFC3339 str = inl t /\
    Time_Sub now t < alertCooldown.

(** There is no entry for [key], or it is at least as old as the window. *)
Definition absentOrExpired (cooldowns : gmap string string) (key : string)
  (now : Time) (alertCooldown : Duration) : Prop :=
  cooldowns !! key = None \/
  exists str t,
    cooldowns !! key = Some str /\ Parse_RFC3339 str = inl t /\
    alertCooldown <= Time_Sub now t.

(** The cooldown test of [checkChangeAlerts] on the entry of [key]. *)
Definition inCooldown (cooldowns : gmap string string) (key : string)
  (now : Time) (alertCooldown : Duration) : bool :=
  match cooldowns !! key with
  | Some str =>
      match Parse_RFC3339 str with
      | inl t => Time_Sub now t <? alertCooldown
      | inr _ => false
      end
  | None => false
  end.

(** The alert that a change rule emits. *)
Definition changeAlertOf (rule : ChangeAlertRule) (current base : float64) : AlertInfo :=
  {| Symbol := car_Symbol rule;
     AlertType := "change";
     CurrentPrice := current;
     Message :=
       (if (car_Period rule =? "daily")%string then "当日"
        else if (car_Period rule =? "15m")%string then "15分钟"
        else car_Period rule)
       ++ (if (0 <? changePercentOf current base)%float then "上涨" else "下跌")
       ++ " " ++ Sprintf_2f (abs (changePercentOf current base))
       ++ "% (从 $" ++ Sprintf_2f base ++ " 到 $" ++ Sprintf_2f current ++ ")" |}.

(** The cooldown map after the rules [fired] have fired at [now]. *)
Definition recordFired (now : Time) (fired : list ChangeAlertRule)
  (cooldowns : gmap string string) : gmap string string :=
  foldl (fun m rule => <[alertKeyOf rule := Format_RFC3339 now]> m) cooldowns fired.

(** [alert] is the alert of the change rule [rule]. *)
Definition alertOfRule (alert : AlertInfo) (rule : ChangeAlertRule) : Prop :=
  exists current base, alert = changeAlertOf rule current base.

(** The second most recent candle of a response: in a list that runs
    forward in time (oldest first, as Binance sends it) the last but one;
    in a list that runs backward (newest first, as Bybit sends it) the
    second. *)
Definition secondMostRecentForward {A} (candles : list A) : option A :=
  candles !! (length candles - 2)%nat.

Definition secondMostRecentBackward {A} (candles : list A) : option A :=
  candles !! 1%nat.

Definition mostRecentForward {A} (candles : list A) : option A :=
  last candles.

(** A threshold rule fires at [price]: below and strictly less, or above
    and strictly greater. *)
Definition priceRuleFires (rule : PriceAlertRule) (price : float64) : Prop :=
  (par_Comparison rule = Below /\ (price <? par_Threshold rule)%float = true) \/
  (par_Comparison rule = Above /\ (par_Threshold rule <? price)%float = true).

(** What one threshold rule contributes: nothing, or one alert. *)
Definition priceRuleOutcome (prices : GoMap float64) (rule : PriceAlertRule)
  (o : option AlertInfo) : Prop :=
  match GoMap_index prices (par_Symbol rule ++ "USDT") with
  | None => o = None
  | Some price =>
      (priceRuleFires rule price <->
       exists a, o = Some a /\ Symbol a = par_Symbol rule /\ AlertType a = "price"
                 /\ CurrentPrice a = price) /\
      (~ priceRuleFires rule price <-> o = None) /\
      ((price =? par_Threshold rule)%float = true -> o = None)
  end.

(** A resolver source succeeds when it returns no error and a price
    strictly greater than zero. *)
Definition positivePrice (r : float64 * option error) : Prop :=
  r.2 = None /\ (0 <? r.1)%float = true.

End Specifications.

(** The state with the cooldown entry of [key] set to [value]. *)
Definition withLastAlertTime (key value : string) (s : Sys) : Sys :=
  {| config := config s;
     priceHistory :=
       {| lastAlertTime := <[key := value]> (lastAlertTime (priceHistory s));
          priceAlertTime := priceAlertTime (priceHistory s) |};
     env := env s;
     history := history s |}.

(** The addresses of the 15 minute candle requests. *)
Definition binance15mURL (s : Sys) (symbol : string) : string :=
  BinanceKlineURL (API (config s)) ++ "?symbol=" ++ symbol ++ "&interval=15m&limit=2".

Definition bybit15mURL (s : Sys) (symbol : string) : string :=
  BybitKlineURL (API (config s)) ++ "?category=spot&symbol=" ++ symbol
  ++ "&interval=15&limit=2".

(** Kinds of events. *)
Definition isGet (e : Event) : Prop := exists url, e = EvGet url.
Definition notPost (e : Event) : Prop := forall url body, e <> EvPost url body.
Definition anyEvent (e : Event) : Prop := True.

(** [s'] comes from [s] by events of the [allowed] kind, with the same
    configuration and world. *)
Definition extends (allowed : Event -> Prop) (s s' : Sys) : Prop :=
  config s' = config s /\ env s' = env s /\
  exists evs, history s' = (history s ++ evs)%list /\ Forall allowed evs.

(** The same, and the cooldown state is untouched. *)
Definition quiet (allowed : Event -> Prop) (s s' : Sys) : Prop :=
  extends allowed s s' /\ priceHistory s' = priceHistory s.

(** [m] relates every state to the state it leaves, panic or not. *)
Definition preserves {A} (R : Sys -> Sys -> Prop) (m : M A) : Prop :=
  forall s, R s (m s).2.

(** ** Worlds for the examples *)

Definition length_of_outcome {A} (o : outcome (list A)) : option nat :=
  match o with
  | Returns l => Some (length l)
  | Panics _ => None
  end.

Definition offline {T} : reply T := Failed "connection refused".

Definition noKlines : string -> reply (list BinanceKline) := fun _ => offline.
Definition noBybitKlines : string -> reply BybitKlineResponse := fun _ => offline.

(** Binance is down and Bybit answers with one ticker. *)
Definition bybit_only : Sys :=
  initialSys (demo_config 5 [] [])
    (demo_env offline
       (Body {| byr_List := [{| byb_Symbol := "BTCUSDT"; byb_LastPrice := "65000" |}];
                byr_RetCode := 0; byr_RetMsg := "OK" |})
       noKlines noBybitKlines None (fun _ => 0)).

(** One daily candle of ETH that opened at 200. *)
Definition ethDailyCandle : BinanceKline :=
  [INumber 1699920000000; IString "200"; IString "215"; IString "195";
   IString "210"; IString "1000"].

Definition ethRule (percent : float64) : ChangeAlertRule :=
  {| car_Symbol := "ETH"; car_ChangePercent := percent; car_Period := "daily" |}.

Definition T0 : Time := 1700000000 * Second + Second / 2.

(** ETH at [price] on Binance, its daily candle, a clock that reads
    [clock], and a notifier that answers [post]. *)
Definition ethWorld (price : string) (post : option error) (clock : nat -> Time) : Sys :=
  initialSys (demo_config 5 [] [ethRule 5])
    (demo_env (Body [{| bin_Symbol := "ETHUSDT"; bin_Price := price |}]) offline
       (fun _ => Body [ethDailyCandle]) noBybitKlines post clock).

Definition ethSnapshot (price : float64) : GoMap float64 :=
  Some {["ETHUSDT" := price]}.

(** Three evaluations of the change rules in a row. *)
Definition threeEvaluations {rt : GoRuntime} (prices : GoMap float64)
  (alertCooldown : Duration) : M (list AlertInfo * list AlertInfo * list AlertInfo) :=
  let* first := checkChangeAlerts prices alertCooldown in
  let* second := checkChangeAlerts prices alertCooldown in
  let* third := checkChangeAlerts prices alertCooldown in
  ret (first, second, third).

Definition scenarioClock (n : nat) : Time :=
  nth n [T0; T0 + Second; T0 + 6 * Minute] 0.

(** Two candles of 15 minutes, as Binance lists them (oldest first) and as
    Bybit lists the same two (newest first). *)
Definition binanceCandles : list BinanceKline :=
  [[INumber 1700000000000; IString "36000"; IString "36100"; IString "35900";
    IString "36050"; IString "12"];
   [INumber 1700000900000; IString "36050"; IString "36500"; IString "36000";
    IString "36400"; IString "3"]].

Definition bybitCandles : list (list string) :=
  [["1700000900000"; "36050"; "36500"; "36000"; "36400"; "3"; "109200"];
   ["1700000000000"; "36000"; "36100"; "35900"; "36050"; "12"; "432600"]].

Definition candleWorld : Sys :=
  initialSys (demo_config 5 [] [])
    (demo_env offline offline
       (fun _ => Body binanceCandles)
       (fun _ => Body {| bkr_List := bybitCandles; bkr_RetCode := 0; bkr_RetMsg := "OK" |})
       None (fun _ => 0)).

(** A threshold rule on BTC and a snapshot with BTC at [price]. *)
Definition btcRule (threshold : float64) (comparison : ComparisonType) : PriceAlertRule :=
  {| par_Symbol := "BTC"; par_Threshold := threshold; par_Comparison := comparison |}.

Definition btcWorld (rules : list PriceAlertRule) (post : option error) : Sys :=
  initialSys (demo_config 5 rules [])
    (demo_env (Body [{| bin_Symbol := "BTCUSDT"; bin_Price := "59000" |}]) offline
       noKlines noBybitKlines post (fun n => T0 + Z.of_nat n * Second)).

Definition btcSnapshot (price : float64) : GoMap float64 :=
  Some {["BTCUSDT" := price]}.

Definition ethDailyURL : string :=
  "https://binance/klines?symbol=ETHUSDT&interval=1d&limit=1".

(** The state after the rule fired at [T0]. *)
Definition ethFired : Sys :=
  withLastAlertTime (alertKeyOf (ethRule 5)) (Format_RFC3339 (GoRuntime := demo_runtime) T0)
    (ethWorld "210" None scenarioClock).

(** The time at which a Binance candle opened. *)
Definition openTimeOf (kline : BinanceKline) : option float64 :=
  match kline !! 0%nat with
  | Some (INumber t) => Some t
  | _ => None
  end.

(** ** Further specifications *)

Section FurtherSpecifications.
Context {rt : GoRuntime}.

(** What a single-symbol adapter returns: the nil map with the error
    [noPriceData], or a map that is not empty with a nil error, each key
    of which is an [allowed] symbol followed by ["USDT"]. *)
Definition adapterResult (allowed : string -> Prop)
  (r : GoMap float64 * option error) : Prop :=
  r = (None, Some noPriceData) \/
  exists prices,
    r = (Some prices, None) /\ (0 < size prices)%nat /\
    forall k, is_Some (prices !! k) ->
      exists symbol, allowed symbol /\ k = symbol ++ "USDT".

(** The requests of [getPricesFromCoinbase]: one for each monitored
    symbol. *)
Definition coinbaseRequests (cfg : Config) : list Event :=
  map (fun symbol => EvGet (Sprintf_template (CoinbaseURLTemplate (API cfg)) symbol))
    (monitoredSymbols cfg).

(** The requests of [getPricesFromKraken]: one for each monitored symbol
    that [symbolMap] knows. *)
Definition krakenRequests (cfg : Config) : list Event :=
  map (fun krakenSymbol =>
         EvGet (Sprintf_template (KrakenURLTemplate (API cfg)) krakenSymbol))
    (omap (fun symbol => symbolMap !! symbol) (monitoredSymbols cfg)).

(** What the loop keeps, from a state [s] to a later state [s']: the
    configuration and the world; the requests already made; the field
    [priceAlertTime]; and every cooldown entry, unless it was written, with
    a formatted time, under the key of a configured change rule. *)
Definition monitorInvariant (s s' : Sys) : Prop :=
  config s' = config s /\ env s' = env s /\
  (exists evs, history s' = (history s ++ evs)%list) /\
  priceAlertTime (priceHistory s') = priceAlertTime (priceHistory s) /\
  forall k,
    lastAlertTime (priceHistory s') !! k = lastAlertTime (priceHistory s) !! k \/
    (k ∈ map alertKeyOf (ChangeAlertRules (config s)) /\
     exists t, lastAlertTime (priceHistory s') !! k = Some (Format_RFC3339 t)).

(** The symbols of all rules. *)
Definition ruleSymbols (cfg : Config) : list string :=
  (map par_Symbol (PriceAlertRules cfg) ++ map car_Symbol (ChangeAlertRules cfg))%list.

End FurtherSpecifications.

(** [v] is a reading of the clock taken right after a post that returned
    no error. *)
Definition readAfterSend (e : Env) (v : Time) : Prop :=
  exists h url body,
    env_post e h url body = None /\ v = env_now e (h ++ [EvPost url body])%list.

(** The address of the candle request of a source, by period. *)
Definition binanceKlineURL (s : Sys) (symbol period : string) : string :=
  BinanceKlineURL (API (config s)) ++ "?symbol=" ++ symbol
  ++ (if (period =? "daily")%string then "&interval=1d&limit=1"
      else "&interval=15m&limit=2").

Definition bybitKlineURL (s : Sys) (symbol period : string) : string :=
  BybitKlineURL (API (config s)) ++ "?category=spot&symbol=" ++ symbol
  ++ (if (period =? "daily")%string then "&interval=D&limit=1"
      else "&interval=15&limit=2").

(** The addresses of the daily candle requests. *)
Definition binanceDailyURL (s : Sys) (symbol : string) : string :=
  BinanceKlineURL (API (config s)) ++ "?symbol=" ++ symbol ++ "&interval=1d&limit=1".

Definition bybitDailyURL (s : Sys) (symbol : string) : string :=
  BybitKlineURL (API (config s)) ++ "?category=spot&symbol=" ++ symbol
  ++ "&interval=D&limit=1".

(** The panic of an index expression out of range. *)
Definition outOfRange {A} (s : Sys) : outcome A * Sys :=
  (Panics "index out of range", s).

(** ** Further worlds for the examples *)

(** A rule on ETH over 15 minutes, and a Binance whose second candle has
    two fields only. *)
Definition eth15mRule : ChangeAlertRule :=
  {| car_Symbol := "ETH"; car_ChangePercent := 5%float; car_Period := "15m" |}.

Definition shortCandles : list BinanceKline :=
  [ethDailyCandle; [INumber 1700000900000; IString "210"]].

Definition shortCandleWorld : Sys :=
  initialSys (demo_config 5 [] [eth15mRule])
    (demo_env (Body [{| bin_Symbol := "ETHUSDT"; bin_Price := "210" |}]) offline
       (fun _ => Body shortCandles) noBybitKlines None scenarioClock).

Definition ethAt210 : gmap string float64 := {["ETHUSDT" := 210%float]}.

(** No source answers. *)
Definition offlineWorld : Sys :=
  initialSys (demo_config 5 [btcRule 60000 Below] [ethRule 5])
    (demo_env offline offline noKlines noBybitKlines None scenarioClock).

(** A rule with a period that the program does not know. *)
Definition hourlyRule : ChangeAlertRule :=
  {| car_Symbol := "ETH"; car_ChangePercent := 5%float; car_Period := "1h" |}.

(** ** Proofs *)

Section Proofs.
Context {rt : GoRuntime}.

(** *** The monad *)

Lemma bind_Returns {A B} (m : M A) (f : A -> M B) s a s' :
  m s = (Returns a, s') -> bind m f s = f a s'.
Proof. intros H. unfold bind. rewrite H. reflexivity. Qed.

(** [m] always returns. *)
Definition total {A} (m : M A) : Prop :=
  forall s, exists a s', m s = (Returns a, s').

Lemma total_ret {A} (a : A) : total (ret a).
Proof. intros s. exists a, s. reflexivity. Qed.

Lemma total_bind {A B} (m : M A) (f : A -> M B) :
  total m -> (forall a, total (f a)) -> total (bind m f).
Proof.
  intros Hm Hf s. destruct (Hm s) as (a & s' & E).
  rewrite (bind_Returns _ _ _ _ _ E). apply Hf.
Qed.

Lemma total_gets {A} (f : Sys -> A) : total (gets f).
Proof. intros s. exists (f s), s. reflexivity. Qed.

Lemma total_http_Get t url : total (http_Get t url).
Proof. intros s. eexists _, _. reflexivity. Qed.

Lemma total_forM {A B} (l : list A) (body : A -> B -> M B) acc :
  (forall x b, total (body x b)) -> total (forM l body acc).
Proof.
  intros Hb. revert acc. induction l as [|x l IH]; intros acc; simpl.
  - apply total_ret.
  - apply total_bind; [apply Hb | intros b; apply IH].
Qed.

Ltac total_cases :=
  repeat first
    [ progress intros
    | apply total_ret | apply total_gets | apply total_http_Get
    | apply total_bind | apply total_forM
    | match goal with
      | |- total (match ?x with _ => _ end) => destruct x
      | |- total (if ?b then _ else _) => destruct b
      end ].

Lemma total_getPricesFromBinance : total getPricesFromBinance.
Proof. unfold getPricesFromBinance. total_cases. Qed.

Lemma total_getPricesFromBybit : total getPricesFromBybit.
Proof. unfold getPricesFromBybit. total_cases. Qed.

Lemma total_getPricesFromCoinbase : total getPricesFromCoinbase.
Proof. unfold getPricesFromCoinbase. total_cases. Qed.

Lemma total_getPricesFromKraken : total getPricesFromKraken.
Proof. unfold getPricesFromKraken. total_cases. Qed.

(** *** Comparisons of binary64 values *)

Lemma SFcompare_antisym x y :
  SFcompare y x = option_map CompOpp (SFcompare x y).
Proof.
  destruct x as [sx | sx | | sx mx ex], y as [sy | sy | | sy my ey]; simpl;
    try reflexivity; try (destruct sx; reflexivity); try (destruct sy; reflexivity);
    try (destruct sx, sy; reflexivity).
  destruct sx, sy; simpl; try reflexivity.
  - rewrite (Z.compare_antisym ey ex). destruct (ey ?= ex); simpl; try reflexivity.
    rewrite (Pos.compare_cont_antisym mx my Eq). simpl.
    destruct (Pos.compare_cont Eq mx my); reflexivity.
  - rewrite (Z.compare_antisym ey ex). destruct (ey ?= ex); simpl; try reflexivity.
    rewrite (Pos.compare_cont_antisym mx my Eq). reflexivity.
Qed.

(** Equal values are not strictly ordered, either way. *)
Lemma float_eqb_not_ltb (x y : float64) :
  (x =? y)%float = true -> (x <? y)%float = false /\ (y <? x)%float = false.
Proof.
  rewrite FloatAxioms.eqb_spec, !FloatAxioms.ltb_spec. unfold SFeqb, SFltb.
  rewrite (SFcompare_antisym (Prim2SF x) (Prim2SF y)).
  destruct (SFcompare (Prim2SF x) (Prim2SF y)) as [[| |]|]; simpl;
    intros; try discriminate; auto.
Qed.

(** Equal values are ordered by [<=]. *)
Lemma float_eqb_leb (x y : float64) :
  (x =? y)%float = true -> (y <=? x)%float = true.
Proof.
  rewrite FloatAxioms.eqb_spec, FloatAxioms.leb_spec. unfold SFeqb, SFleb.
  rewrite (SFcompare_antisym (Prim2SF x) (Prim2SF y)).
  destruct (SFcompare (Prim2SF x) (Prim2SF y)) as [[| |]|]; simpl;
    intros; try discriminate; auto.
Qed.

(** A value strictly above zero is not zero, and is a number. *)
Lemma float_pos_nonzero (p : float64) :
  (0 <? p)%float = true -> (p =? 0)%float = false /\ (p =? p)%float = true.
Proof.
  rewrite !FloatAxioms.eqb_spec, !FloatAxioms.ltb_spec. unfold SFeqb, SFltb.
  rewrite (SFcompare_antisym (Prim2SF 0) (Prim2SF p)).
  destruct (SFcompare (Prim2SF 0) (Prim2SF p)) as [[| |]|] eqn:E; simpl;
    intros; try discriminate.
  split; [reflexivity |].
  change (Prim2SF 0) with (S754_zero false) in E.
  destruct (Prim2SF p) as [sg | sg | | sg m e]; simpl in *; try discriminate.
  - destruct sg; [discriminate | reflexivity].
  - destruct sg; [discriminate |]. rewrite Z.compare_refl.
    rewrite Pos.compare_cont_refl. reflexivity.
Qed.

Lemma SFcompare_opp_zero x :
  SFcompare (SFopp x) (S754_zero false)
  = option_map CompOpp (SFcompare x (S754_zero false)).
Proof.
  destruct x as [sg | sg | | sg m e]; simpl; try reflexivity; destruct sg; reflexivity.
Qed.

Lemma abs_opp_compare thr (x : float64) :
  SFcompare thr (Prim2SF (abs (- x))) = SFcompare thr (Prim2SF (abs x)).
Proof.
  unfold abs. rewrite !FloatAxioms.ltb_spec. rewrite FloatAxioms.opp_spec.
  unfold SFltb. change (Prim2SF 0) with (S754_zero false).
  rewrite SFcompare_opp_zero.
  destruct (Prim2SF x) as [sg | sg | | sg m e] eqn:E; simpl.
  - rewrite FloatAxioms.opp_spec, E. simpl. destruct thr as [a | a | | a m e]; reflexivity.
  - destruct sg; simpl; rewrite ?FloatAxioms.opp_spec, ?E; simpl;
      rewrite ?FloatAxioms.opp_spec, ?E; reflexivity.
  - rewrite FloatAxioms.opp_spec, E. reflexivity.
  - destruct sg; simpl; rewrite ?FloatAxioms.opp_spec, ?E; simpl;
      rewrite ?FloatAxioms.opp_spec, ?E; reflexivity.
Qed.

(** Whether a magnitude reaches a threshold does not depend on the sign. *)
Lemma leb_abs_opp (thr x : float64) :
  (thr <=? abs (- x))%float = (thr <=? abs x)%float.
Proof.
  rewrite !FloatAxioms.leb_spec. unfold SFleb. rewrite abs_opp_compare. reflexivity.
Qed.

(** *** Frames *)

Lemma extends_refl allowed s : extends allowed s s.
Proof.
  repeat split. exists []. split; [symmetry; apply app_nil_r | constructor].
Qed.

Lemma extends_trans allowed s1 s2 s3 :
  extends allowed s1 s2 -> extends allowed s2 s3 -> extends allowed s1 s3.
Proof.
  intros (Hc1 & He1 & evs1 & Hh1 & Ha1) (Hc2 & He2 & evs2 & Hh2 & Ha2).
  split; [congruence |]. split; [congruence |].
  exists (evs1 ++ evs2)%list. split.
  - rewrite Hh2, Hh1. symmetry. apply app_assoc.
  - apply Forall_app. split; assumption.
Qed.

Lemma extends_weaken (allowed allowed' : Event -> Prop) s s' :
  (forall e, allowed e -> allowed' e) -> extends allowed s s' -> extends allowed' s s'.
Proof.
  intros Himp (Hc & He & evs & Hh & Ha). repeat split; try assumption.
  exists evs. split; [assumption |]. eapply Forall_impl; eassumption.
Qed.

Lemma quiet_refl allowed s : quiet allowed s s.
Proof. split; [apply extends_refl | reflexivity]. Qed.

Lemma quiet_trans allowed s1 s2 s3 :
  quiet allowed s1 s2 -> quiet allowed s2 s3 -> quiet allowed s1 s3.
Proof.
  intros [H1 P1] [H2 P2]. split; [eapply extends_trans; eassumption | congruence].
Qed.

Lemma quiet_weaken (allowed allowed' : Event -> Prop) s s' :
  (forall e, allowed e -> allowed' e) -> quiet allowed s s' -> quiet allowed' s s'.
Proof. intros Himp [H P]. split; [eapply extends_weaken; eassumption | exact P]. Qed.

Lemma isGet_notPost e : isGet e -> notPost e.
Proof. intros [url ->] u b. discriminate. Qed.

Section Preserves.
Variable R : Sys -> Sys -> Prop.
Hypothesis R_refl : forall s, R s s.
Hypothesis R_trans : forall s1 s2 s3, R s1 s2 -> R s2 s3 -> R s1 s3.

Lemma preserves_ret {A} (a : A) : preserves R (ret a).
Proof. intros s. apply R_refl. Qed.

Lemma preserves_panic {A} r : preserves R (@panic A r).
Proof. intros s. apply R_refl. Qed.

Lemma preserves_gets {A} (f : Sys -> A) : preserves R (gets f).
Proof. intros s. apply R_refl. Qed.

Lemma preserves_bind {A B} (m : M A) (f : A -> M B) :
  preserves R m -> (forall a, preserves R (f a)) -> preserves R (bind m f).
Proof.
  intros Hm Hf s. unfold bind. specialize (Hm s).
  destruct (m s) as [[a | r] s1]; simpl in *.
  - eapply R_trans; [exact Hm | apply Hf].
  - exact Hm.
Qed.

Lemma preserves_index {A} (l : list A) i : preserves R (index l i).
Proof. unfold index. destruct (l !! i); [apply preserves_ret | apply preserves_panic]. Qed.

Lemma preserves_forM {A B} (l : list A) (body : A -> B -> M B) acc :
  (forall x b, preserves R (body x b)) -> preserves R (forM l body acc).
Proof.
  intros Hb. revert acc. induction l as [|x l IH]; intros acc; simpl.
  - apply preserves_ret.
  - apply preserves_bind; [apply Hb | intros b; apply IH].
Qed.

End Preserves.

Ltac preserves_cases refl trans leaf :=
  repeat first
    [ progress intros
    | assumption
    | leaf
    | match goal with
      | |- preserves _ (ret _) => apply (preserves_ret _ refl)
      | |- preserves _ (gets _) => apply (preserves_gets _ refl)
      | |- preserves _ (panic _) => apply (preserves_panic _ refl)
      | |- preserves _ (index _ _) => apply (preserves_index _ refl)
      | |- preserves _ (bind _ _) => apply (preserves_bind _ trans)
      | |- preserves _ (forM _ _ _) => apply (preserves_forM _ refl trans)
      | |- preserves _ (match ?x with _ => _ end) => destruct x
      | |- preserves _ (if ?b then _ else _) => destruct b
      end ].

Lemma quiet_http_Get t url : preserves (quiet isGet) (http_Get t url).
Proof.
  intros s. simpl. split; [| reflexivity]. repeat split.
  exists [EvGet url]. split; [reflexivity |]. repeat constructor. exists url. reflexivity.
Qed.

Ltac quiet_gets leaf :=
  preserves_cases (quiet_refl isGet) (quiet_trans isGet)
    ltac:(first [apply quiet_http_Get | leaf]).

Lemma quiet_getPricesFromBinance : preserves (quiet isGet) getPricesFromBinance.
Proof. unfold getPricesFromBinance. quiet_gets fail. Qed.

Lemma quiet_getPricesFromBybit : preserves (quiet isGet) getPricesFromBybit.
Proof. unfold getPricesFromBybit. quiet_gets fail. Qed.

Lemma quiet_getPricesFromCoinbase : preserves (quiet isGet) getPricesFromCoinbase.
Proof. unfold getPricesFromCoinbase. quiet_gets fail. Qed.

Lemma quiet_getPricesFromKraken : preserves (quiet isGet) getPricesFromKraken.
Proof. unfold getPricesFromKraken. quiet_gets fail. Qed.

Lemma quiet_tryPriceSources sources :
  Forall (fun src => preserves (quiet isGet) src.2) sources ->
  preserves (quiet isGet) (tryPriceSources sources).
Proof.
  induction 1 as [|[name fn] rest Hfn _ IH]; simpl; quiet_gets fail.
Qed.

Lemma quiet_getAllPrices : preserves (quiet isGet) getAllPrices.
Proof.
  apply quiet_tryPriceSources. unfold priceSources.
  apply Forall_cons; split; [apply quiet_getPricesFromBinance |].
  apply Forall_cons; split; [apply quiet_getPricesFromBybit |].
  apply Forall_cons; split; [apply quiet_getPricesFromCoinbase |].
  apply Forall_cons; split; [apply quiet_getPricesFromKraken |].
  apply Forall_nil_2.
Qed.

Lemma quiet_getHistoricalPriceFromBinance symbol period :
  preserves (quiet isGet) (getHistoricalPriceFromBinance symbol period).
Proof.
  unfold getHistoricalPriceFromBinance, getDailyOpenPriceFromBinance,
    get15mAgoPriceFromBinance.
  quiet_gets fail.
Qed.

Lemma quiet_getHistoricalPriceFromBybit symbol period :
  preserves (quiet isGet) (getHistoricalPriceFromBybit symbol period).
Proof.
  unfold getHistoricalPriceFromBybit, getDailyOpenPriceFromBybit,
    get15mAgoPriceFromBybit.
  quiet_gets fail.
Qed.

Lemma quiet_getHistoricalPrice symbol period :
  preserves (quiet isGet) (getHistoricalPrice symbol period).
Proof.
  unfold getHistoricalPrice, historicalSources, tryHistoricalSources.
  quiet_gets ltac:(first [apply quiet_getHistoricalPriceFromBinance
                         | apply quiet_getHistoricalPriceFromBybit]).
Qed.

Lemma quiet_logCurrentPrices prices :
  preserves (quiet isGet) (logCurrentPrices prices).
Proof.
  unfold logCurrentPrices.
  quiet_gets ltac:(apply quiet_getHistoricalPrice).
Qed.

(** *** The aggregator *)

Lemma accepted_dec r : {accepted r} + {~ accepted r}.
Proof.
  destruct r as [prices [e|]]; unfold accepted; simpl.
  - right. intros [H _]. discriminate.
  - destruct (GoMap_len prices) eqn:E.
    + right. intros [_ H]. lia.
    + left. split; [reflexivity | lia].
Qed.

Lemma tryPriceSources_tried sources :
  Forall (fun src => total src.2) sources ->
  forall s, exists r s', tryPriceSources sources s = (Returns r, s') /\ tried sources s r s'.
Proof.
  induction 1 as [|[name fn] rest Hfn _ IH]; intros s; simpl.
  - exists (None, ""), s. split; [reflexivity | constructor].
  - destruct (Hfn s) as ([prices err] & s1 & E). simpl in E.
    rewrite (bind_Returns _ _ _ _ _ E).
    destruct (accepted_dec (prices, err)) as [Ha | Hn].
    + destruct Ha as [He Hl]. simpl in He, Hl. subst err.
      exists (prices, name), s1. split.
      * destruct (Nat.ltb_spec 0 (GoMap_len prices)); [reflexivity | lia].
      * apply (tried_accept name fn rest s (prices, None) s1 E).
        split; [reflexivity | exact Hl].
    + destruct (IH s1) as (r & s2 & Er & Ht).
      exists r, s2. split.
      * destruct err as [e|]; [exact Er |].
        destruct (Nat.ltb_spec 0 (GoMap_len prices)) as [Hl | Hl]; [| exact Er].
        exfalso. apply Hn. split; [reflexivity | exact Hl].
      * eapply tried_next; eauto.
Qed.

(** The result and final state of [tried] are unique. *)
Lemma tried_functional sources s r1 s1 r2 s2 :
  tried sources s r1 s1 -> tried sources s r2 s2 -> r1 = r2 /\ s1 = s2.
Proof.
  intros H1. revert r2 s2.
  induction H1 as [s | name fn rest s r s' E Ha | name fn rest s r s' res s'' E Hn _ IH];
    intros r2 s2 H2; inversion H2; subst.
  - split; reflexivity.
  - rewrite E in *. simplify_eq. split; reflexivity.
  - rewrite E in *. simplify_eq. contradiction.
  - rewrite E in *. simplify_eq. contradiction.
  - rewrite E in *. simplify_eq. apply IH. assumption.
Qed.

(** C1. [getAllPrices] tries Binance, Bybit, Coinbase and Kraken in this
    order and returns the snapshot and the name of the first source whose
    fetch returns no error and a non-empty map, in the state that this
    fetch left: no later source has been called.  When no source passes, it
    returns the nil map and the empty name. *)
Theorem C1_getAllPrices_first_accepted_source (s : Sys) :
  map fst priceSources = ["Binance"; "Bybit"; "Coinbase"; "Kraken"] /\
  map snd priceSources
  = [getPricesFromBinance; getPricesFromBybit; getPricesFromCoinbase; getPricesFromKraken] /\
  (exists r s',
     getAllPrices s = (Returns r, s') /\
     tried priceSources s r s' /\
     (forall r2 s2, tried priceSources s r2 s2 -> r2 = r /\ s2 = s')) /\
  (forall r1 s1,
     getPricesFromBinance s = (Returns r1, s1) -> accepted r1 ->
     getAllPrices s = (Returns (r1.1, "Binance"), s1)) /\
  (forall r1 s1 r2 s2,
     getPricesFromBinance s = (Returns r1, s1) -> ~ accepted r1 ->
     getPricesFromBybit s1 = (Returns r2, s2) -> accepted r2 ->
     getAllPrices s = (Returns (r2.1, "Bybit"), s2)) /\
  (forall r1 s1 r2 s2 r3 s3 r4 s4,
     getPricesFromBinance s = (Returns r1, s1) -> ~ accepted r1 ->
     getPricesFromBybit s1 = (Returns r2, s2) -> ~ accepted r2 ->
     getPricesFromCoinbase s2 = (Returns r3, s3) -> ~ accepted r3 ->
     getPricesFromKraken s3 = (Returns r4, s4) -> ~ accepted r4 ->
     getAllPrices s = (Returns (None, ""), s4)).
Proof.
  split; [reflexivity |]. split; [reflexivity |].
  destruct (tryPriceSources_tried priceSources) with (s := s) as (r & s' & E & Ht).
  { repeat constructor; simpl.
    - apply total_getPricesFromBinance.
    - apply total_getPricesFromBybit.
    - apply total_getPricesFromCoinbase.
    - apply total_getPricesFromKraken. }
  assert (forall r2 s2, tried priceSources s r2 s2 -> getAllPrices s = (Returns r2, s2))
    as Huniq.
  { intros r2 s2 H2. destruct (tried_functional _ _ _ _ _ _ Ht H2) as [-> ->]. exact E. }
  split; [| split; [| split]].
  - exists r, s'. split; [exact E |]. split; [exact Ht |].
    intros r2 s2 H2. destruct (tried_functional _ _ _ _ _ _ Ht H2). auto.
  - intros r1 s1 E1 A1. apply Huniq. eapply tried_accept; eassumption.
  - intros r1 s1 r2 s2 E1 N1 E2 A2. apply Huniq.
    eapply tried_next; [eassumption | assumption |].
    eapply tried_accept; eassumption.
  - intros r1 s1 r2 s2 r3 s3 r4 s4 E1 N1 E2 N2 E3 N3 E4 N4. apply Huniq.
    eapply tried_next; [eassumption | assumption |].
    eapply tried_next; [eassumption | assumption |].
    eapply tried_next; [eassumption | assumption |].
    eapply tried_next; [eassumption | assumption |].
    apply tried_all_failed.
Qed.

(** *** The bulk adapters *)

Lemma collect_sound {A} (symbolOf : A -> string) (priceOf : A -> string) records :
  forall (m0 : gmap string float64) k p,
    foldl (fun (prices : gmap string float64) x =>
             match Sscanf_f (priceOf x) with
             | inl price => <[symbolOf x := price]> prices
             | inr _ => prices
             end) m0 records !! k = Some p ->
    m0 !! k = Some p \/
    exists x, x ∈ records /\ symbolOf x = k /\ Sscanf_f (priceOf x) = inl p.
Proof.
  induction records as [|x l IH]; intros m0 k p H; simpl in H.
  - left. exact H.
  - apply IH in H. destruct H as [H | (y & Hy & Hk & Hp)].
    + destruct (Sscanf_f (priceOf x)) as [price|e] eqn:E.
      * destruct (decide (symbolOf x = k)) as [Heq | Hne].
        -- subst k. rewrite lookup_insert_eq in H. simplify_eq.
           right. exists x. split; [left | auto].
        -- rewrite lookup_insert_ne in H by exact Hne. left. exact H.
      * left. exact H.
    + right. exists y. split; [right; exact Hy | auto].
Qed.

Lemma collect_unparsed {A} (symbolOf : A -> string) (priceOf : A -> string) records :
  forall (m0 : gmap string float64) k,
    (forall y, y ∈ records -> symbolOf y = k -> exists e, Sscanf_f (priceOf y) = inr e) ->
    foldl (fun (prices : gmap string float64) x =>
             match Sscanf_f (priceOf x) with
             | inl price => <[symbolOf x := price]> prices
             | inr _ => prices
             end) m0 records !! k = m0 !! k.
Proof.
  induction records as [|x l IH]; intros m0 k H; simpl.
  - reflexivity.
  - rewrite IH by (intros y Hy; apply H; right; exact Hy).
    destruct (Sscanf_f (priceOf x)) as [price|e] eqn:E; [| reflexivity].
    destruct (decide (symbolOf x = k)) as [Heq | Hne].
    + destruct (H x) as [e He]; [left | exact Heq |]. congruence.
    + apply lookup_insert_ne. exact Hne.
Qed.

Lemma collect_last {A} (symbolOf : A -> string) (priceOf : A -> string) before :
  forall (m0 : gmap string float64) x after p,
    Sscanf_f (priceOf x) = inl p ->
    (forall y, y ∈ after -> symbolOf y = symbolOf x ->
       exists e, Sscanf_f (priceOf y) = inr e) ->
    foldl (fun (prices : gmap string float64) x =>
             match Sscanf_f (priceOf x) with
             | inl price => <[symbolOf x := price]> prices
             | inr _ => prices
             end) m0 (before ++ x :: after) !! symbolOf x = Some p.
Proof.
  intros m0 x after p Hp Hafter. rewrite foldl_app. simpl. rewrite Hp.
  rewrite collect_unparsed by exact Hafter. apply lookup_insert_eq.
Qed.

Lemma collect_kept {A} (symbolOf : A -> string) (priceOf : A -> string) records :
  forall (m0 : gmap string float64) k,
    is_Some (m0 !! k) \/
    (exists x p, x ∈ records /\ symbolOf x = k /\ Sscanf_f (priceOf x) = inl p) ->
    is_Some (foldl (fun (prices : gmap string float64) x =>
                      match Sscanf_f (priceOf x) with
                      | inl price => <[symbolOf x := price]> prices
                      | inr _ => prices
                      end) m0 records !! k).
Proof.
  induction records as [|y l IH]; intros m0 k H; simpl.
  - destruct H as [H | (x & p & Hin & _)]; [exact H | inversion Hin].
  - apply IH. destruct H as [H | (x & p & Hin & Hk & Hp)].
    + left. destruct (Sscanf_f (priceOf y)) as [price|e]; [| exact H].
      destruct (decide (symbolOf y = k)) as [-> | Hne].
      * rewrite lookup_insert_eq. eauto.
      * rewrite lookup_insert_ne by exact Hne. exact H.
    + apply elem_of_cons in Hin as [-> | Hin].
      * left. rewrite Hp, Hk. rewrite lookup_insert_eq. eauto.
      * right. eauto.
Qed.

Lemma collect_parsedSnapshot {A} (symbolOf : A -> string) (priceOf : A -> string) records :
  parsedSnapshot symbolOf priceOf records
    (foldl (fun (prices : gmap string float64) x =>
              match Sscanf_f (priceOf x) with
              | inl price => <[symbolOf x := price]> prices
              | inr _ => prices
              end) ∅ records).
Proof.
  split; [| split].
  - intros k p H. apply collect_sound in H as [H | H]; [| exact H].
    rewrite lookup_empty in H. discriminate.
  - intros x p Hin Hp. apply collect_kept. right. eauto.
  - intros before x after p -> Hp Hafter. apply collect_last; assumption.
Qed.

(** C9. In [getPricesFromBinance] and [getPricesFromBybit], a ticker whose
    price string does not parse is left out of the snapshot, the tickers
    that parse are kept, and the function returns a nil error whenever the
    request itself did not fail. *)
Theorem C9_bulk_adapters_skip_unparsable_prices (s : Sys) :
  match env_get (env s) TBinanceTickers (history s) (BinanceURL (API (config s))) with
  | Body tickers =>
      exists prices,
        getPricesFromBinance s
        = (Returns (Some prices, None), record (EvGet (BinanceURL (API (config s)))) s) /\
        parsedSnapshot bin_Symbol bin_Price tickers prices
  | Failed err =>
      getPricesFromBinance s
      = (Returns (None, Some ("请求失败: " ++ err)),
         record (EvGet (BinanceURL (API (config s)))) s)
  end /\
  match env_get (env s) TBybitTickers (history s) (BybitURL (API (config s))) with
  | Body result =>
      exists prices,
        getPricesFromBybit s
        = (Returns (Some prices, None), record (EvGet (BybitURL (API (config s)))) s) /\
        parsedSnapshot byb_Symbol byb_LastPrice (byr_List result) prices
  | Failed err =>
      getPricesFromBybit s
      = (Returns (None, Some ("请求失败: " ++ err)),
         record (EvGet (BybitURL (API (config s)))) s)
  end.
Proof.
  split.
  - unfold getPricesFromBinance, bind, gets, http_Get, ret. simpl.
    destruct (env_get _ _ _ _) as [tickers | err]; [| reflexivity].
    eexists. split; [reflexivity |]. apply collect_parsedSnapshot.
  - unfold getPricesFromBybit, bind, gets, http_Get, ret. simpl.
    destruct (env_get _ _ _ _) as [result | err]; [| reflexivity].
    eexists. split; [reflexivity |].
    apply (collect_parsedSnapshot byb_Symbol byb_LastPrice).
Qed.

(** *** Threshold rules *)

Lemma priceRuleFires_bool rule price :
  priceRuleFires rule price <->
  (par_Comparison rule =? Below)%string && (price <? par_Threshold rule)%float
  || (par_Comparison rule =? Above)%string && (par_Threshold rule <? price)%float = true.
Proof.
  unfold priceRuleFires.
  rewrite orb_true_iff, !andb_true_iff, !String.eqb_eq. reflexivity.
Qed.

Lemma priceRule_equal_threshold rule price :
  (price =? par_Threshold rule)%float = true -> ~ priceRuleFires rule price.
Proof.
  intros Heq. apply float_eqb_not_ltb in Heq as [H1 H2].
  intros [[_ H] | [_ H]]; congruence.
Qed.

Lemma checkPriceRule_outcome prices rule (triggered : list AlertInfo) s :
  exists o,
    priceRuleOutcome prices rule o /\
    checkPriceRule prices rule triggered s
    = (Returns (triggered ++ option_list o)%list, s).
Proof.
  unfold priceRuleOutcome, checkPriceRule. cbv zeta.
  destruct (GoMap_index prices (par_Symbol rule ++ "USDT")) as [price|].
  2: { exists None. split; [reflexivity |]. simpl. rewrite app_nil_r. reflexivity. }
  pose proof (priceRuleFires_bool rule price) as Hf.
  pose proof (priceRule_equal_threshold rule price) as Heq.
  destruct ((par_Comparison rule =? Below)%string
            && (price <? par_Threshold rule)%float) eqn:E1;
    [| destruct ((par_Comparison rule =? Above)%string
                 && (par_Threshold rule <? price)%float) eqn:E2]; simpl in *.
  - eexists (Some _). split; [| reflexivity].
    assert (priceRuleFires rule price) as Hfires by (apply Hf; reflexivity).
    split; [| split].
    + split; [intros _; eexists; repeat split | intros _; exact Hfires].
    + split; [intros H; contradiction | discriminate].
    + intros H. apply Heq in H. contradiction.
  - eexists (Some _). split; [| reflexivity].
    assert (priceRuleFires rule price) as Hfires by (apply Hf; reflexivity).
    split; [| split].
    + split; [intros _; eexists; repeat split | intros _; exact Hfires].
    + split; [intros H; contradiction | discriminate].
    + intros H. apply Heq in H. contradiction.
  - exists None. split; [| simpl; rewrite app_nil_r; reflexivity].
    assert (~ priceRuleFires rule price) as Hno by (rewrite Hf; discriminate).
    split; [| split].
    + split; [intros H; contradiction | intros (a & Ha & _); discriminate].
    + split; [reflexivity | intros _; exact Hno].
    + reflexivity.
Qed.

(** The loop of [checkPriceAlerts], from any accumulator. *)
Lemma checkPriceAlerts_loop prices rules :
  forall (triggered : list AlertInfo) s,
  exists perRule,
    Forall2 (priceRuleOutcome prices) rules perRule /\
    forM rules (checkPriceRule prices) triggered s
    = (Returns (triggered ++ concat (map option_list perRule))%list, s).
Proof.
  induction rules as [|rule rules IH]; intros triggered s.
  - exists []. split; [constructor |]. simpl. rewrite app_nil_r. reflexivity.
  - destruct (checkPriceRule_outcome prices rule triggered s) as (o & Ho & E).
    destruct (IH (triggered ++ option_list o)%list s) as (perRule & Hall & E').
    exists (o :: perRule). split; [constructor; assumption |].
    cbn [forM]. rewrite (bind_Returns _ _ _ _ _ E). rewrite E'.
    cbn [map concat]. rewrite app_assoc. reflexivity.
Qed.

(** C4. For every threshold rule, [checkPriceAlerts] looks up the symbol
    with ["USDT"] appended: when the snapshot has no such key the rule
    gives no alert; when it has, the rule gives one alert exactly when the
    comparison is ["<"] and the price is strictly less than the threshold,
    or the comparison is [">"] and the price is strictly greater; a price
    equal to the threshold gives none.  The result lists these alerts in
    the order of the rules. *)
Theorem C4_checkPriceAlerts_strict_threshold (prices : GoMap float64) (s : Sys) :
  exists perRule,
    Forall2 (priceRuleOutcome prices) (PriceAlertRules (config s)) perRule /\
    checkPriceAlerts prices s = (Returns (concat (map option_list perRule)), s).
Proof.
  destruct (checkPriceAlerts_loop prices (PriceAlertRules (config s)) [] s)
    as (perRule & Hall & E).
  exists perRule. split; [exact Hall |].
  unfold checkPriceAlerts. unfold bind at 1. unfold gets. exact E.
Qed.

(** *** The historical price resolver *)

Lemma positivePrice_bool (r : float64 * option error) :
  positivePrice r <->
  match r.2 with None => (0 <? r.1)%float | Some _ => false end = true.
Proof.
  unfold positivePrice. destruct r as [p [e|]]; simpl.
  - split; [intros [H _]; discriminate | discriminate].
  - split; [intros [_ H]; exact H | intros H; split; [reflexivity | exact H]].
Qed.

(** The two sources of [getHistoricalPrice], tried in order. *)
Lemma getHistoricalPrice_unfold symbol period s :
  getHistoricalPrice symbol period s =
  match getHistoricalPriceFromBinance (symbol ++ "USDT") period s with
  | (Panics r, s1) => (Panics r, s1)
  | (Returns r1, s1) =>
      if match r1.2 with None => (0 <? r1.1)%float | Some _ => false end
      then (Returns (r1.1, None), s1)
      else
        match getHistoricalPriceFromBybit (symbol ++ "USDT") period s1 with
        | (Panics r, s2) => (Panics r, s2)
        | (Returns r2, s2) =>
            if match r2.2 with None => (0 <? r2.1)%float | Some _ => false end
            then (Returns (r2.1, None), s2)
            else (Returns (0%float, Some (noHistoricalPrice symbol period)), s2)
        end
  end.
Proof.
  unfold getHistoricalPrice, historicalSources. cbn [tryHistoricalSources].
  unfold bind at 1.
  destruct (getHistoricalPriceFromBinance (symbol ++ "USDT") period s)
    as [[[p1 [e1|]] | r] s1]; cbn [fst snd]; try reflexivity.
  - unfold bind at 1.
    destruct (getHistoricalPriceFromBybit (symbol ++ "USDT") period s1)
      as [[[p2 [e2|]] | r] s2]; cbn [fst snd]; try reflexivity.
    destruct (0 <? p2)%float; reflexivity.
  - destruct (0 <? p1)%float; [reflexivity |].
    unfold bind at 1.
    destruct (getHistoricalPriceFromBybit (symbol ++ "USDT") period s1)
      as [[[p2 [e2|]] | r] s2]; cbn [fst snd]; try reflexivity.
    destruct (0 <? p2)%float; reflexivity.
Qed.

(** A price that [getHistoricalPrice] returns without error is strictly
    positive, and is the one of the first source that succeeded. *)
Lemma getHistoricalPrice_positive symbol period s p s' :
  getHistoricalPrice symbol period s = (Returns (p, None), s') ->
  (0 <? p)%float = true /\
  (getHistoricalPriceFromBinance (symbol ++ "USDT") period s = (Returns (p, None), s') \/
   exists r1 s1,
     getHistoricalPriceFromBinance (symbol ++ "USDT") period s = (Returns r1, s1) /\
     ~ positivePrice r1 /\
     getHistoricalPriceFromBybit (symbol ++ "USDT") period s1 = (Returns (p, None), s')).
Proof.
  rewrite getHistoricalPrice_unfold.
  destruct (getHistoricalPriceFromBinance (symbol ++ "USDT") period s)
    as [[r1 | r] s1]; [| discriminate].
  pose proof (positivePrice_bool r1) as H1.
  destruct (match r1.2 with None => (0 <? r1.1)%float | Some _ => false end) eqn:E1.
  - intros H. injection H as <- <-. destruct r1 as [p1 [e1|]]; simpl in *; [discriminate |].
    split; [exact E1 | left; reflexivity].
  - destruct (getHistoricalPriceFromBybit (symbol ++ "USDT") period s1)
      as [[r2 | r] s2] eqn:E; [| discriminate].
    destruct (match r2.2 with None => (0 <? r2.1)%float | Some _ => false end) eqn:E2;
      [| discriminate].
    intros H. injection H as <- <-. destruct r2 as [p2 [e2|]]; simpl in *; [discriminate |].
    split; [exact E2 |]. right. exists r1, s1. split; [reflexivity |].
    split; [| exact E]. rewrite H1. discriminate.
Qed.

(** *** Change rules *)

(** The outcomes of the loop body of [checkChangeAlerts]. *)
Lemma checkChangeRule_cases prices alertCooldown now rule triggered s :
  checkChangeRule prices alertCooldown now rule triggered s =
  match GoMap_index prices (car_Symbol rule ++ "USDT") with
  | None => (Returns triggered, s)
  | Some currentPrice =>
      match getHistoricalPrice (car_Symbol rule) (car_Period rule) s with
      | (Panics r, s1) => (Panics r, s1)
      | (Returns (basePrice, Some _), s1) => (Returns triggered, s1)
      | (Returns (basePrice, None), s1) =>
          if changeTriggered rule currentPrice basePrice then
            if inCooldown (lastAlertTime (priceHistory s1)) (alertKeyOf rule)
                 now alertCooldown
            then (Returns triggered, s1)
            else
              (Returns (triggered ++ [changeAlertOf rule currentPrice basePrice])%list,
               withLastAlertTime (alertKeyOf rule) (Format_RFC3339 now) s1)
          else (Returns triggered, s1)
      end
  end.
Proof.
  unfold checkChangeRule.
  destruct (GoMap_index prices (car_Symbol rule ++ "USDT")) as [currentPrice|];
    [| reflexivity].
  unfold bind at 1.
  destruct (getHistoricalPrice (car_Symbol rule) (car_Period rule) s)
    as [[[basePrice [e|]] | r] s1]; try reflexivity.
  unfold changeTriggered, changePercentOf, alertKeyOf, inCooldown, changeAlertOf.
  destruct (car_ChangePercent rule <=? _)%float; [| reflexivity].
  unfold bind at 1, gets at 1.
  destruct (match lastAlertTime (priceHistory s1) !! _ with Some _ => _ | None => _ end);
    reflexivity.
Qed.

Lemma inCooldown_younger cooldowns key now alertCooldown :
  youngerThanCooldown cooldowns key now alertCooldown ->
  inCooldown cooldowns key now alertCooldown = true.
Proof.
  intros (str & t & Hk & Hp & Hlt). unfold inCooldown. rewrite Hk, Hp.
  apply Z.ltb_lt. exact Hlt.
Qed.

Lemma inCooldown_absentOrExpired cooldowns key now alertCooldown :
  absentOrExpired cooldowns key now alertCooldown ->
  inCooldown cooldowns key now alertCooldown = false.
Proof.
  unfold inCooldown. intros [Hk | (str & t & Hk & Hp & Hle)]; rewrite Hk.
  - reflexivity.
  - rewrite Hp. apply Z.ltb_ge. exact Hle.
Qed.

Lemma inCooldown_true cooldowns key now alertCooldown :
  inCooldown cooldowns key now alertCooldown = true ->
  youngerThanCooldown cooldowns key now alertCooldown.
Proof.
  unfold inCooldown, youngerThanCooldown.
  destruct (cooldowns !! key) as [str|]; [| discriminate].
  destruct (Parse_RFC3339 str) as [t|e] eqn:Hp; [| discriminate].
  intros H. exists str, t. repeat split; [exact Hp | apply Z.ltb_lt; exact H].
Qed.

(** The resolver leaves the cooldown state as it is. *)
Lemma getHistoricalPrice_priceHistory symbol period s out s1 :
  getHistoricalPrice symbol period s = (out, s1) -> priceHistory s1 = priceHistory s.
Proof.
  intros E. pose proof (quiet_getHistoricalPrice symbol period s) as [_ H].
  rewrite E in H. exact H.
Qed.

Lemma Time_Sub_exact (t u : Time) :
  minDuration <= t - u <= maxDuration -> Time_Sub t u = t - u.
Proof.
  intros [H1 H2]. unfold Time_Sub.
  destruct (Z.ltb_spec (t - u) minDuration); [lia |].
  destruct (Z.ltb_spec maxDuration (t - u)); [lia | reflexivity].
Qed.

(** C3. For a rule whose symbol is in the snapshot and whose base price
    resolves without error, the loop body of [checkChangeAlerts] computes
    [(currentPrice - basePrice) / basePrice * 100] and goes on to the
    cooldown test exactly when the magnitude of this value is at least the
    rule's threshold, equality included; the sign of the value selects the
    word for the direction in the message and nothing else. *)
Theorem C3_change_rule_triggers_on_magnitude
  (prices : GoMap float64) (alertCooldown : Duration) (now : Time)
  (rule : ChangeAlertRule) (triggered : list AlertInfo) (s : Sys)
  (currentPrice basePrice : float64) (s1 : Sys) :
  GoMap_index prices (car_Symbol rule ++ "USDT") = Some currentPrice ->
  getHistoricalPrice (car_Symbol rule) (car_Period rule) s
  = (Returns (basePrice, None), s1) ->
  let changePercent := ((currentPrice - basePrice) / basePrice * 100)%float in
  ((car_ChangePercent rule <=? abs changePercent)%float = false ->
     checkChangeRule prices alertCooldown now rule triggered s = (Returns triggered, s1)) /\
  ((car_ChangePercent rule <=? abs changePercent)%float = true ->
     (youngerThanCooldown (lastAlertTime (priceHistory s)) (alertKeyOf rule)
        now alertCooldown /\
      checkChangeRule prices alertCooldown now rule triggered s = (Returns triggered, s1)) \/
     (exists alert label rest,
        checkChangeRule prices alertCooldown now rule triggered s
        = (Returns (triggered ++ [alert])%list,
           withLastAlertTime (alertKeyOf rule) (Format_RFC3339 now) s1) /\
        Symbol alert = car_Symbol rule /\ CurrentPrice alert = currentPrice /\
        Message alert
        = label ++ (if (0 <? changePercent)%float then "上涨" else "下跌") ++ rest)) /\
  ((car_ChangePercent rule <=? abs changePercent)%float = true ->
     lastAlertTime (priceHistory s) !! alertKeyOf rule = None ->
     exists alert,
       checkChangeRule prices alertCooldown now rule triggered s
       = (Returns (triggered ++ [alert])%list,
          withLastAlertTime (alertKeyOf rule) (Format_RFC3339 now) s1)) /\
  ((abs changePercent =? car_ChangePercent rule)%float = true ->
     (car_ChangePercent rule <=? abs changePercent)%float = true) /\
  (car_ChangePercent rule <=? abs (- changePercent))%float
  = (car_ChangePercent rule <=? abs changePercent)%float.
Proof.
  intros Hcur Hbase changePercent.
  pose proof (getHistoricalPrice_priceHistory _ _ _ _ _ Hbase) as Hph.
  pose proof (checkChangeRule_cases prices alertCooldown now rule triggered s) as Hcases.
  rewrite Hcur, Hbase in Hcases. unfold changeTriggered, changePercentOf in Hcases.
  fold changePercent in Hcases. rewrite Hph in Hcases.
  split; [| split; [| split; [| split]]].
  - intros Hlow. rewrite Hlow in Hcases. exact Hcases.
  - intros Hhigh. rewrite Hhigh in Hcases.
    destruct (inCooldown _ _ _ _) eqn:Hcd.
    + left. split; [apply inCooldown_true; exact Hcd | exact Hcases].
    + right. eexists _, _, _. split; [exact Hcases |].
      split; [reflexivity |]. split; [reflexivity |]. reflexivity.
  - intros Hhigh Hnone. rewrite Hhigh in Hcases.
    unfold inCooldown in Hcases. rewrite Hnone in Hcases.
    eexists. exact Hcases.
  - apply float_eqb_leb.
  - apply leb_abs_opp.
Qed.

(** C5. The base price that the loop body of [checkChangeAlerts] divides
    by is strictly positive, hence not zero: [getHistoricalPrice] returns
    without error only the price of the first of its two sources that
    returned no error and a price above zero; when neither does, it
    returns an error; and on an error of the resolver the rule is skipped,
    with no alert and no change of the cooldown state. *)
Theorem C5_division_by_positive_base
  (prices : GoMap float64) (alertCooldown : Duration) (now : Time)
  (rule : ChangeAlertRule) (triggered : list AlertInfo) (s : Sys) :
  (forall basePrice s1,
     getHistoricalPrice (car_Symbol rule) (car_Period rule) s
     = (Returns (basePrice, None), s1) ->
     (0 <? basePrice)%float = true /\ (basePrice =? 0)%float = false /\
     (getHistoricalPriceFromBinance (car_Symbol rule ++ "USDT") (car_Period rule) s
      = (Returns (basePrice, None), s1) \/
      exists r1 s',
        getHistoricalPriceFromBinance (car_Symbol rule ++ "USDT") (car_Period rule) s
        = (Returns r1, s') /\
        ~ positivePrice r1 /\
        getHistoricalPriceFromBybit (car_Symbol rule ++ "USDT") (car_Period rule) s'
        = (Returns (basePrice, None), s1))) /\
  (forall r1 s1 r2 s2,
     getHistoricalPriceFromBinance (car_Symbol rule ++ "USDT") (car_Period rule) s
     = (Returns r1, s1) ->
     ~ positivePrice r1 ->
     getHistoricalPriceFromBybit (car_Symbol rule ++ "USDT") (car_Period rule) s1
     = (Returns r2, s2) ->
     (positivePrice r2 ->
      getHistoricalPrice (car_Symbol rule) (car_Period rule) s
      = (Returns (r2.1, None), s2)) /\
     (~ positivePrice r2 ->
      getHistoricalPrice (car_Symbol rule) (car_Period rule) s
      = (Returns (0%float,
                  Some (noHistoricalPrice (car_Symbol rule) (car_Period rule))), s2))) /\
  (forall basePrice e s1,
     getHistoricalPrice (car_Symbol rule) (car_Period rule) s
     = (Returns (basePrice, Some e), s1) ->
     exists s',
       checkChangeRule prices alertCooldown now rule triggered s = (Returns triggered, s') /\
       priceHistory s' = priceHistory s) /\
  (forall alert s',
     checkChangeRule prices alertCooldown now rule triggered s
     = (Returns (triggered ++ [alert])%list, s') ->
     exists currentPrice basePrice,
       alert = changeAlertOf rule currentPrice basePrice /\
       (0 <? basePrice)%float = true /\ (basePrice =? 0)%float = false).
Proof.
  split; [| split; [| split]].
  - intros basePrice s1 H. apply getHistoricalPrice_positive in H as [Hpos Hfrom].
    split; [exact Hpos |]. split; [apply float_pos_nonzero; exact Hpos | exact Hfrom].
  - intros r1 s1 r2 s2 E1 Hn1 E2. rewrite getHistoricalPrice_unfold, E1.
    rewrite positivePrice_bool in Hn1.
    destruct (match r1.2 with None => (0 <? r1.1)%float | Some _ => false end);
      [contradiction |].
    rewrite E2. rewrite (positivePrice_bool r2).
    destruct (match r2.2 with None => (0 <? r2.1)%float | Some _ => false end).
    + split; [reflexivity | intros H; exfalso; apply H; reflexivity].
    + split; [discriminate | reflexivity].
  - intros basePrice e s1 H. rewrite checkChangeRule_cases.
    destruct (GoMap_index prices (car_Symbol rule ++ "USDT")).
    + rewrite H. exists s1. split; [reflexivity |].
      eapply getHistoricalPrice_priceHistory; eassumption.
    + exists s. split; reflexivity.
  - intros alert s'. rewrite checkChangeRule_cases.
    assert (forall a : AlertInfo, (triggered ++ [a])%list <> triggered) as Hne.
    { intros a H. apply (f_equal length) in H. rewrite length_app in H. simpl in H. lia. }
    destruct (GoMap_index prices (car_Symbol rule ++ "USDT")) as [currentPrice|].
    2: { intros H. injection H as H _. symmetry in H. apply Hne in H. contradiction. }
    destruct (getHistoricalPrice (car_Symbol rule) (car_Period rule) s)
      as [[[basePrice [e|]] | r] s1] eqn:E; try discriminate.
    { intros H. injection H as H _. symmetry in H. apply Hne in H. contradiction. }
    apply getHistoricalPrice_positive in E as [Hpos _].
    destruct (changeTriggered rule currentPrice basePrice).
    2: { intros H. injection H as H _. symmetry in H. apply Hne in H. contradiction. }
    destruct (inCooldown _ _ _ _).
    { intros H. injection H as H _. symmetry in H. apply Hne in H. contradiction. }
    intros H. injection H as H _. apply app_inv_head in H. injection H as <-.
    exists currentPrice, basePrice. split; [reflexivity |].
    split; [exact Hpos | apply float_pos_nonzero; exact Hpos].
Qed.

(** C6. For a triggered change rule: when the cooldown map has an entry
    for the rule's key whose time is younger than the window, the loop body
    of [checkChangeAlerts] emits nothing and leaves the cooldown state as
    it is; when there is no entry, or the entry is at least as old as the
    window, it emits the alert and records the current time under the key.
    With a window of five minutes, an entry written at [T] suppresses the
    rule one second later and no longer six minutes later. *)
Theorem C6_change_alert_cooldown
  (prices : GoMap float64) (alertCooldown : Duration) (now : Time)
  (rule : ChangeAlertRule) (triggered : list AlertInfo) (s : Sys)
  (currentPrice basePrice : float64) (s1 : Sys) :
  GoMap_index prices (car_Symbol rule ++ "USDT") = Some currentPrice ->
  getHistoricalPrice (car_Symbol rule) (car_Period rule) s
  = (Returns (basePrice, None), s1) ->
  changeTriggered rule currentPrice basePrice = true ->
  (youngerThanCooldown (lastAlertTime (priceHistory s)) (alertKeyOf rule)
     now alertCooldown ->
   checkChangeRule prices alertCooldown now rule triggered s = (Returns triggered, s1) /\
   priceHistory s1 = priceHistory s) /\
  (absentOrExpired (lastAlertTime (priceHistory s)) (alertKeyOf rule)
     now alertCooldown ->
   exists alert s2,
     checkChangeRule prices alertCooldown now rule triggered s
     = (Returns (triggered ++ [alert])%list, s2) /\
     Symbol alert = car_Symbol rule /\ AlertType alert = "change" /\
     lastAlertTime (priceHistory s2)
     = <[alertKeyOf rule := Format_RFC3339 now]> (lastAlertTime (priceHistory s)) /\
     lastAlertTime (priceHistory s2) !! alertKeyOf rule = Some (Format_RFC3339 now)) /\
  (forall T T' : Time,
     lastAlertTime (priceHistory s) !! alertKeyOf rule = Some (Format_RFC3339 T) ->
     Parse_RFC3339 (Format_RFC3339 T) = inl T' ->
     T' <= T < T' + Second ->
     alertCooldown = 5 * Minute ->
     (now = T + Second ->
      checkChangeRule prices alertCooldown now rule triggered s = (Returns triggered, s1)) /\
     (now = T + 6 * Minute ->
      exists alert s2,
        checkChangeRule prices alertCooldown now rule triggered s
        = (Returns (triggered ++ [alert])%list, s2))).
Proof.
  intros Hcur Hbase Htrig.
  pose proof (getHistoricalPrice_priceHistory _ _ _ _ _ Hbase) as Hph.
  pose proof (checkChangeRule_cases prices alertCooldown now rule triggered s) as Hcases.
  rewrite Hcur, Hbase, Htrig, Hph in Hcases.
  assert (youngerThanCooldown (lastAlertTime (priceHistory s)) (alertKeyOf rule)
            now alertCooldown ->
          checkChangeRule prices alertCooldown now rule triggered s
          = (Returns triggered, s1)) as Hyoung.
  { intros Hy. rewrite (inCooldown_younger _ _ _ _ Hy) in Hcases. exact Hcases. }
  assert (absentOrExpired (lastAlertTime (priceHistory s)) (alertKeyOf rule)
            now alertCooldown ->
          checkChangeRule prices alertCooldown now rule triggered s
          = (Returns (triggered ++ [changeAlertOf rule currentPrice basePrice])%list,
             withLastAlertTime (alertKeyOf rule) (Format_RFC3339 now) s1)) as Hold.
  { intros Ho. rewrite (inCooldown_absentOrExpired _ _ _ _ Ho) in Hcases. exact Hcases. }
  split; [| split].
  - intros Hy. split; [apply Hyoung; exact Hy | exact Hph].
  - intros Ho. eexists _, _. split; [apply Hold; exact Ho |].
    split; [reflexivity |]. split; [reflexivity |]. simpl. rewrite Hph.
    split; [reflexivity | apply lookup_insert_eq].
  - intros T T' Hentry Hparse Hsec ->. split; intros ->.
    + apply Hyoung. exists (Format_RFC3339 T), T'.
      split; [exact Hentry |]. split; [exact Hparse |].
      rewrite Time_Sub_exact; unfold minDuration, maxDuration, Minute, Second in *; lia.
    + eexists _, _. apply Hold. right. exists (Format_RFC3339 T), T'.
      split; [exact Hentry |]. split; [exact Hparse |].
      rewrite Time_Sub_exact; unfold minDuration, maxDuration, Minute, Second in *; lia.
Qed.

(** *** Frames of the alert functions *)

Lemma checkPriceAlerts_state prices s : (checkPriceAlerts prices s).2 = s.
Proof.
  destruct (checkPriceAlerts_loop prices (PriceAlertRules (config s)) [] s)
    as (perRule & _ & E).
  unfold checkPriceAlerts. unfold bind at 1. unfold gets. rewrite E. reflexivity.
Qed.

Lemma checkPriceRule_pure prices rule triggered :
  exists alerts, forall s, checkPriceRule prices rule triggered s = (Returns alerts, s).
Proof.
  unfold checkPriceRule.
  destruct (GoMap_index prices (par_Symbol rule ++ "USDT")) as [price|];
    [| eexists; reflexivity].
  cbv zeta. destruct (negb _); eexists; reflexivity.
Qed.

Lemma checkPriceRules_pure prices rules :
  forall triggered,
  exists alerts,
    forall s, forM rules (checkPriceRule prices) triggered s = (Returns alerts, s).
Proof.
  induction rules as [|rule rules IH]; intros triggered.
  - exists triggered. reflexivity.
  - destruct (checkPriceRule_pure prices rule triggered) as (t1 & E1).
    destruct (IH t1) as (alerts & E).
    exists alerts. intros s. cbn [forM].
    rewrite (bind_Returns _ _ _ _ _ (E1 s)). apply E.
Qed.

(** [checkPriceAlerts] is a function of the configuration and of the
    snapshot alone. *)
Lemma checkPriceAlerts_config_only prices s s' :
  config s = config s' -> (checkPriceAlerts prices s).1 = (checkPriceAlerts prices s').1.
Proof.
  intros Hc. unfold checkPriceAlerts, bind, gets. rewrite <- Hc.
  destruct (checkPriceRules_pure prices (PriceAlertRules (config s)) []) as (alerts & E).
  rewrite !E. reflexivity.
Qed.

(** One rule of [checkChangeAlerts]: requests only, and either no alert
    and the same cooldown state, or one alert and one entry written. *)
Lemma checkChangeRule_step prices alertCooldown now rule triggered s :
  let res := checkChangeRule prices alertCooldown now rule triggered s in
  extends isGet s res.2 /\
  ((priceHistory res.2 = priceHistory s /\
    forall alerts, res.1 = Returns alerts -> alerts = triggered) \/
   (exists alert,
      alertOfRule alert rule /\
      res.1 = Returns (triggered ++ [alert])%list /\
      lastAlertTime (priceHistory res.2)
      = <[alertKeyOf rule := Format_RFC3339 now]> (lastAlertTime (priceHistory s)) /\
      priceAlertTime (priceHistory res.2) = priceAlertTime (priceHistory s))).
Proof.
  cbv zeta. rewrite checkChangeRule_cases.
  destruct (GoMap_index prices (car_Symbol rule ++ "USDT")) as [currentPrice|].
  2: { split; [apply extends_refl |]. left. split; [reflexivity |].
       intros alerts H. simpl in H. congruence. }
  pose proof (quiet_getHistoricalPrice (car_Symbol rule) (car_Period rule) s) as [Hext Hph].
  destruct (getHistoricalPrice (car_Symbol rule) (car_Period rule) s)
    as [[[basePrice [e|]] | r] s1]; simpl in Hext, Hph.
  - split; [exact Hext |]. left. split; [exact Hph |]. simpl. congruence.
  - destruct (changeTriggered rule currentPrice basePrice).
    + destruct (inCooldown _ _ _ _).
      * split; [exact Hext |]. left. split; [exact Hph |]. simpl. congruence.
      * split; [exact Hext |]. right. eexists. split; [eexists _, _; reflexivity |].
        split; [reflexivity |]. simpl. rewrite Hph. split; reflexivity.
    + split; [exact Hext |]. left. split; [exact Hph |]. simpl. congruence.
  - split; [exact Hext |]. left. split; [exact Hph |]. simpl. discriminate.
Qed.

(** The loop of [checkChangeAlerts]: the rules that fired are a
    subsequence of the rules; the alerts are theirs, in order; the cooldown
    map is written at their keys and nowhere else; this also holds for the
    state at a panic. *)
Lemma checkChangeRules_loop prices alertCooldown now rules :
  forall triggered s,
  exists fired,
    sublist fired rules /\
    let res := forM rules (checkChangeRule prices alertCooldown now) triggered s in
    extends isGet s res.2 /\
    lastAlertTime (priceHistory res.2)
    = recordFired now fired (lastAlertTime (priceHistory s)) /\
    priceAlertTime (priceHistory res.2) = priceAlertTime (priceHistory s) /\
    forall alerts,
      res.1 = Returns alerts ->
      exists new, alerts = (triggered ++ new)%list /\ Forall2 alertOfRule new fired.
Proof.
  induction rules as [|rule rules IH]; intros triggered s.
  - exists []. split; [constructor |]. cbv zeta. simpl.
    split; [apply extends_refl |]. split; [reflexivity |]. split; [reflexivity |].
    intros alerts H. injection H as <-. exists []. split; [| constructor].
    symmetry. apply app_nil_r.
  - cbn [forM]. unfold bind.
    pose proof (checkChangeRule_step prices alertCooldown now rule triggered s) as Hstep.
    cbv zeta in Hstep.
    destruct (checkChangeRule prices alertCooldown now rule triggered s)
      as [[t1 | r] s1]; simpl in Hstep.
    + destruct Hstep as [Hext1 [[Hph Hsame] | (alert & Hof & Hres & Hmap1 & Htime1)]].
      * assert (t1 = triggered) as -> by (apply Hsame; reflexivity).
        destruct (IH triggered s1) as (fired & Hsub & Hloop). cbv zeta in Hloop.
        destruct Hloop as (Hext & Hmap & Htime & Halerts).
        exists fired. split; [apply sublist_cons; exact Hsub |]. cbv zeta.
        split; [eapply extends_trans; eassumption |].
        rewrite Hmap, Htime, Hph. split; [reflexivity |]. split; [reflexivity |].
        exact Halerts.
      * injection Hres as ->.
        destruct (IH (triggered ++ [alert])%list s1) as (fired & Hsub & Hloop).
        cbv zeta in Hloop. destruct Hloop as (Hext & Hmap & Htime & Halerts).
        exists (rule :: fired). split; [apply sublist_skip; exact Hsub |]. cbv zeta.
        split; [eapply extends_trans; eassumption |].
        rewrite Hmap, Htime, Hmap1, Htime1. split; [reflexivity |]. split; [reflexivity |].
        intros alerts Ha. destruct (Halerts alerts Ha) as (new & -> & Hall).
        exists (alert :: new). split.
        -- rewrite <- app_assoc. reflexivity.
        -- constructor; assumption.
    + destruct Hstep as [Hext1 [[Hph _] | (alert & _ & Hres & _)]]; [| discriminate].
      exists []. split; [apply sublist_nil_l |]. cbv zeta. simpl.
      split; [exact Hext1 |]. rewrite Hph. split; [reflexivity |]. split; [reflexivity |].
      discriminate.
Qed.

Lemma recordFired_other now fired cooldowns k :
  k ∉ map alertKeyOf fired -> recordFired now fired cooldowns !! k = cooldowns !! k.
Proof.
  revert cooldowns. induction fired as [|rule fired IH]; intros cooldowns Hk.
  - reflexivity.
  - simpl in *. apply not_elem_of_cons in Hk as [Hne Hk].
    unfold recordFired in *. simpl. rewrite IH by exact Hk.
    apply lookup_insert_ne. congruence.
Qed.

Lemma recordFired_fired now fired cooldowns k :
  k ∈ map alertKeyOf fired -> recordFired now fired cooldowns !! k = Some (Format_RFC3339 now).
Proof.
  revert cooldowns. induction fired as [|r fired IH]; intros cooldowns Hin.
  - inversion Hin.
  - unfold recordFired in *. simpl in *.
    destruct (decide (k ∈ map alertKeyOf fired)) as [Hlater | Hfresh].
    + apply IH. exact Hlater.
    + apply elem_of_cons in Hin as [-> | Hin]; [| contradiction].
      fold (recordFired now fired (<[alertKeyOf r := Format_RFC3339 now]> cooldowns)).
      rewrite recordFired_other by exact Hfresh. apply lookup_insert_eq.
Qed.

Lemma checkPriceAlerts_returns (prices : GoMap float64) (s : Sys) :
  exists alerts, checkPriceAlerts prices s = (Returns alerts, s).
Proof.
  destruct (checkPriceAlerts_loop prices (PriceAlertRules (config s)) [] s)
    as (perRule & _ & E).
  eexists. unfold checkPriceAlerts. unfold bind at 1. unfold gets. exact E.
Qed.

(** The rules that fire in [checkChangeAlerts], and the entries it writes. *)
Lemma checkChangeAlerts_fired (prices : GoMap float64) (alertCooldown : Duration)
  (s : Sys) :
  exists fired,
    sublist fired (ChangeAlertRules (config s)) /\
    (forall alerts,
       (checkChangeAlerts prices alertCooldown s).1 = Returns alerts ->
       Forall2 alertOfRule alerts fired) /\
    forall k, k ∈ map alertKeyOf fired ->
      lastAlertTime (priceHistory (checkChangeAlerts prices alertCooldown s).2) !! k
      = Some (Format_RFC3339 (env_now (env s) (history s))).
Proof.
  unfold checkChangeAlerts, bind, time_Now, gets. cbn [fst snd].
  destruct (checkChangeRules_loop prices alertCooldown
              (env_now (env s) (history s)) (ChangeAlertRules (config s))
              [] (record EvNow s)) as (fired & Hsub & Hloop).
  cbv zeta in Hloop. destruct Hloop as (_ & Hmap & _ & Halerts).
  exists fired. split; [exact Hsub |].
  change (config (record EvNow s)) with (config s).
  split.
  - intros alerts Ha. destruct (Halerts alerts Ha) as (new & -> & Hall). exact Hall.
  - intros k Hk. rewrite Hmap. apply recordFired_fired. exact Hk.
Qed.

(** C10. [checkPriceAlerts] leaves the whole state as it is and its
    result depends on the configuration and the snapshot only, so it neither
    reads nor writes the cooldown map; the shared time of the price alerts
    is a local variable of the loop, which it is not given.
    [checkChangeAlerts] writes the cooldown map only at the keys of the
    rules whose alerts it emits: every other key keeps its value, and a
    rule that emits no alert (symbol absent, base price unresolved, change
    below the threshold, or suppressed by the cooldown) changes nothing. *)
Theorem C10_cooldown_state_frame
  (prices : GoMap float64) (alertCooldown : Duration) (s : Sys) :
  (checkPriceAlerts prices s).2 = s /\
  (forall s', config s' = config s ->
     (checkPriceAlerts prices s').1 = (checkPriceAlerts prices s).1) /\
  (exists fired,
     sublist fired (ChangeAlertRules (config s)) /\
     let res := checkChangeAlerts prices alertCooldown s in
     let now := env_now (env s) (history s) in
     (forall alerts, res.1 = Returns alerts -> Forall2 alertOfRule alerts fired) /\
     lastAlertTime (priceHistory res.2)
     = recordFired now fired (lastAlertTime (priceHistory s)) /\
     (forall k, k ∉ map alertKeyOf fired ->
        lastAlertTime (priceHistory res.2) !! k = lastAlertTime (priceHistory s) !! k) /\
     (forall k, k ∈ map alertKeyOf fired ->
        lastAlertTime (priceHistory res.2) !! k = Some (Format_RFC3339 now)) /\
     priceAlertTime (priceHistory res.2) = priceAlertTime (priceHistory s)) /\
  (forall now rule triggered out s',
     checkChangeRule prices alertCooldown now rule triggered s = (out, s') ->
     (forall alert, out <> Returns (triggered ++ [alert])%list) ->
     priceHistory s' = priceHistory s).
Proof.
  split; [apply checkPriceAlerts_state |].
  split; [intros s' Hc; apply checkPriceAlerts_config_only; exact Hc |].
  split.
  - unfold checkChangeAlerts, bind, time_Now, gets. cbn [fst snd].
    destruct (checkChangeRules_loop prices alertCooldown
                (env_now (env s) (history s)) (ChangeAlertRules (config s))
                [] (record EvNow s)) as (fired & Hsub & Hloop).
    cbv zeta in Hloop. destruct Hloop as (_ & Hmap & Htime & Halerts).
    exists fired. split; [exact Hsub |]. cbv zeta. simpl in Hmap, Htime.
    change (config (record EvNow s)) with (config s).
    split; [| split; [| split; [| split]]].
    + intros alerts Ha. destruct (Halerts alerts Ha) as (new & -> & Hall). exact Hall.
    + exact Hmap.
    + intros k Hk. rewrite Hmap. apply recordFired_other. exact Hk.
    + intros k Hk. rewrite Hmap. apply recordFired_fired. exact Hk.
    + exact Htime.
  - intros now rule triggered out s' E Hnone.
    pose proof (checkChangeRule_step prices alertCooldown now rule triggered s) as Hstep.
    cbv zeta in Hstep. rewrite E in Hstep. simpl in Hstep.
    destruct Hstep as [_ [[Hph _] | (alert & _ & Hres & _)]]; [exact Hph |].
    exfalso. apply (Hnone alert). exact Hres.
Qed.

(** *** Notification and the loop *)

Lemma quiet_any_record e s : quiet anyEvent s (record e s).
Proof.
  split; [| reflexivity]. repeat split. exists [e]. split; [reflexivity |].
  repeat constructor.
Qed.

Lemma quiet_any_http_Post url body : preserves (quiet anyEvent) (http_Post url body).
Proof. intros s. apply quiet_any_record. Qed.

Lemma quiet_any_time_Now : preserves (quiet anyEvent) time_Now.
Proof. intros s. apply quiet_any_record. Qed.

Lemma quiet_any_of_gets {A} (m : M A) :
  preserves (quiet isGet) m -> preserves (quiet anyEvent) m.
Proof. intros H s. eapply quiet_weaken; [| apply H]. intros e _. exact I. Qed.

Ltac quiet_any leaf :=
  preserves_cases (quiet_refl anyEvent) (quiet_trans anyEvent)
    ltac:(first [apply quiet_any_http_Post | apply quiet_any_time_Now | leaf]).

Lemma quiet_sendAlerts triggered : preserves (quiet anyEvent) (sendAlerts triggered).
Proof. unfold sendAlerts. quiet_any fail. Qed.

Lemma quiet_sendPriceAlerts priceAlerts alertCooldown last :
  preserves (quiet anyEvent) (sendPriceAlerts priceAlerts alertCooldown last).
Proof.
  unfold sendPriceAlerts, time_Since. quiet_any ltac:(apply quiet_sendAlerts).
Qed.

Lemma quiet_sendChangeAlerts changeAlerts :
  preserves (quiet anyEvent) (sendChangeAlerts changeAlerts).
Proof. unfold sendChangeAlerts. quiet_any ltac:(apply quiet_sendAlerts). Qed.

(** The evaluation of the change rules sends nothing. *)
Lemma checkChangeAlerts_notPost prices alertCooldown s :
  extends notPost s (checkChangeAlerts prices alertCooldown s).2.
Proof.
  unfold checkChangeAlerts, bind, time_Now, gets. cbn [fst snd].
  destruct (checkChangeRules_loop prices alertCooldown
              (env_now (env s) (history s)) (config (record EvNow s)).(ChangeAlertRules)
              [] (record EvNow s)) as (fired & _ & Hloop).
  cbv zeta in Hloop. destruct Hloop as (Hext & _).
  apply extends_trans with (record EvNow s).
  - repeat split. exists [EvNow]. split; [reflexivity |].
    repeat constructor. intros url body. discriminate.
  - eapply extends_weaken; [| exact Hext]. apply isGet_notPost.
Qed.

(** C7. The cooldown entry of a fired change rule is written inside
    [checkChangeAlerts], which sends nothing, and in a tick nothing has
    been sent by the time it returns; [sendAlerts], whether the post fails
    or not, leaves the cooldown state as it is; so at the end of a tick the
    cooldown map is the one that [checkChangeAlerts] left, entry of every
    fired rule included, whatever became of the notification. *)
Theorem C7_cooldown_recorded_before_send (lastSent : Time) (s : Sys) :
  (forall triggered, priceHistory (sendAlerts triggered s).2 = priceHistory s) /\
  (forall prices alertCooldown,
     extends notPost s (checkChangeAlerts prices alertCooldown s).2) /\
  (forall prices source s1,
     getAllPrices s = (Returns (Some prices, source), s1) ->
     let evaluated :=
       checkChangeAlerts (Some prices) (alertCooldownOf (config s)) s1 in
     extends notPost s evaluated.2 /\
     priceHistory (monitorTick lastSent s).2 = priceHistory evaluated.2 /\
     exists fired,
       sublist fired (ChangeAlertRules (config s)) /\
       (forall alerts, evaluated.1 = Returns alerts -> Forall2 alertOfRule alerts fired) /\
       forall k, k ∈ map alertKeyOf fired ->
         lastAlertTime (priceHistory (monitorTick lastSent s).2) !! k
         = Some (Format_RFC3339 (env_now (env s1) (history s1)))).
Proof.
  split; [intros triggered; apply quiet_sendAlerts |].
  split; [intros prices alertCooldown; apply checkChangeAlerts_notPost |].
  intros prices source s1 E. cbv zeta.
  assert (config s1 = config s) as Hcfg.
  { pose proof (quiet_getAllPrices s) as Hq. rewrite E in Hq. apply Hq. }
  assert (priceHistory (monitorTick lastSent s).2
          = priceHistory (checkChangeAlerts (Some prices) (alertCooldownOf (config s)) s1).2)
    as Htick.
  { unfold monitorTick. unfold bind at 1. unfold gets at 1.
    rewrite (bind_Returns _ _ _ _ _ E).
    destruct (checkPriceAlerts_returns (Some prices) s1) as (alerts & Ea).
    rewrite (bind_Returns _ _ _ _ _ Ea).
    unfold bind at 1.
    destruct (checkChangeAlerts (Some prices) (alertCooldownOf (config s)) s1)
      as [[changeAlerts | r] s2]; [| reflexivity].
    cbn [snd].
    assert (preserves (quiet anyEvent)
              (let* lastAlertTime' :=
                 sendPriceAlerts alerts (alertCooldownOf (config s)) lastSent in
               let* _ := sendChangeAlerts changeAlerts in
               let* _ := logCurrentPrices (Some prices) in
               ret lastAlertTime')) as Hq.
    { quiet_any ltac:(first [ apply quiet_sendPriceAlerts
                            | apply quiet_sendChangeAlerts
                            | apply quiet_any_of_gets; apply quiet_logCurrentPrices ]). }
    apply Hq. }
  split.
  { apply extends_trans with s1; [| apply checkChangeAlerts_notPost].
    pose proof (quiet_getAllPrices s) as [Hq _]. rewrite E in Hq.
    eapply extends_weaken; [| exact Hq]. apply isGet_notPost. }
  split; [exact Htick |].
  destruct (checkChangeAlerts_fired (Some prices) (alertCooldownOf (config s)) s1)
    as (fired & Hsub & Halerts & Hfired).
  exists fired. split; [rewrite <- Hcfg; exact Hsub |]. split; [exact Halerts |].
  intros k Hk. rewrite Htick. apply Hfired. exact Hk.
Qed.

(** [sendAlerts] on a batch that is not empty: one post of the whole
    batch. *)
Lemma sendAlerts_cons alert rest s :
  sendAlerts (alert :: rest) s =
  (Returns
     match env_post (env s) (history s) (NtfyURL (Notify (config s)))
             (alertsMessage (alert :: rest)) with
     | Some e => Some ("推送失败: " ++ e)
     | None => None
     end,
   record (EvPost (NtfyURL (Notify (config s))) (alertsMessage (alert :: rest))) s).
Proof.
  unfold sendAlerts. cbn [length Nat.eqb]. unfold bind, gets, http_Post.
  destruct (env_post _ _ _ _); reflexivity.
Qed.

(** C8. The price alerts of a tick share one time, the loop's variable
    [lastAlertTime]: a batch that is not empty is posted, whole and in one
    message, only when the time since [lastAlertTime] exceeds the cooldown
    window, and is dropped otherwise; the variable becomes the current
    time only when the post returned no error, and keeps its value when
    the post failed or the batch was dropped. *)
Theorem C8_price_alert_batch_cooldown
  (alert : AlertInfo) (rest : list AlertInfo) (alertCooldown : Duration)
  (lastAlertTime : Time) (s : Sys) :
  let batch := alert :: rest in
  let elapsed := Time_Sub (env_now (env s) (history s)) lastAlertTime in
  let url := NtfyURL (Notify (config s)) in
  let posted := record (EvPost url (alertsMessage batch)) (record EvNow s) in
  (alertCooldown < elapsed ->
   match env_post (env s) (history (record EvNow s)) url (alertsMessage batch) with
   | None =>
       sendPriceAlerts batch alertCooldown lastAlertTime s
       = (Returns (env_now (env s) (history posted)), record EvNow posted)
   | Some _ =>
       sendPriceAlerts batch alertCooldown lastAlertTime s = (Returns lastAlertTime, posted)
   end) /\
  (elapsed <= alertCooldown ->
   sendPriceAlerts batch alertCooldown lastAlertTime s
   = (Returns lastAlertTime, record EvNow (record EvNow s))) /\
  sendPriceAlerts [] alertCooldown lastAlertTime s = (Returns lastAlertTime, s) /\
  (forall prices source s1 priceAlerts changeAlerts s2,
     getAllPrices s = (Returns (Some prices, source), s1) ->
     checkPriceAlerts (Some prices) s1 = (Returns priceAlerts, s1) ->
     checkChangeAlerts (Some prices) (alertCooldownOf (config s)) s1
     = (Returns changeAlerts, s2) ->
     exists lastAlertTime' s3 s4,
       sendPriceAlerts priceAlerts (alertCooldownOf (config s)) lastAlertTime s2
       = (Returns lastAlertTime', s3) /\
       sendChangeAlerts changeAlerts s3 = (Returns tt, s4) /\
       monitorTick lastAlertTime s
       = match logCurrentPrices (Some prices) s4 with
         | (Returns _, s5) => (Returns lastAlertTime', s5)
         | (Panics r, s5) => (Panics r, s5)
         end).
Proof.
  cbv zeta. split; [| split; [| split]].
  - intros Hgate. apply Z.ltb_lt in Hgate.
    unfold sendPriceAlerts, time_Since, bind, time_Now, ret.
    cbn [length Nat.ltb Nat.leb]. rewrite Hgate.
    rewrite sendAlerts_cons. cbn [env history config record].
    destruct (env_post _ _ _ _); reflexivity.
  - intros Hgate. apply Z.ltb_ge in Hgate.
    unfold sendPriceAlerts, time_Since, bind, time_Now, ret.
    cbn [length Nat.ltb Nat.leb]. rewrite Hgate. reflexivity.
  - reflexivity.
  - intros prices source s1 priceAlerts changeAlerts s2 E Ep Ec.
    assert (total (sendPriceAlerts priceAlerts (alertCooldownOf (config s)) lastAlertTime))
      as Htot.
    { unfold sendPriceAlerts, time_Since, sendAlerts, time_Now, http_Post.
      total_cases; intros s'; eexists _, _; reflexivity. }
    destruct (Htot s2) as (lastAlertTime' & s3 & Es).
    assert (total (sendChangeAlerts changeAlerts)) as Htot'.
    { unfold sendChangeAlerts, sendAlerts, http_Post.
      total_cases; intros s'; eexists _, _; reflexivity. }
    destruct (Htot' s3) as ([] & s4 & Ech).
    exists lastAlertTime', s3, s4. split; [exact Es |]. split; [exact Ech |].
    unfold monitorTick. unfold bind at 1. unfold gets at 1.
    rewrite (bind_Returns _ _ _ _ _ E).
    rewrite (bind_Returns _ _ _ _ _ Ep).
    rewrite (bind_Returns _ _ _ _ _ Ec).
    rewrite (bind_Returns _ _ _ _ _ Es).
    rewrite (bind_Returns _ _ _ _ _ Ech).
    unfold bind, ret.
    destruct (logCurrentPrices (Some prices) s4) as [[[] | r] s5]; reflexivity.
Qed.

(** *** The 15 minute candles *)

(** Fewer than two candles are an error, at both sources. *)
Lemma get15mAgoPrice_too_few symbol s :
  (forall klines,
     env_get (env s) TBinanceKlines (history s) (binance15mURL s symbol) = Body klines ->
     (length klines < 2)%nat ->
     get15mAgoPriceFromBinance symbol s
     = (Returns (0%float, Some "K线数据不足"), record (EvGet (binance15mURL s symbol)) s)) /\
  (forall result,
     env_get (env s) TBybitKlines (history s) (bybit15mURL s symbol) = Body result ->
     (length (bkr_List result) < 2)%nat ->
     exists e,
       get15mAgoPriceFromBybit symbol s
       = (Returns (0%float, Some e), record (EvGet (bybit15mURL s symbol)) s)).
Proof.
  split.
  - intros klines E Hlen.
    unfold get15mAgoPriceFromBinance, bind, gets, http_Get, ret. cbn [fst snd].
    unfold binance15mURL in E. rewrite E.
    destruct (Nat.ltb_spec (length klines) 2); [reflexivity | lia].
  - intros result E Hlen.
    unfold get15mAgoPriceFromBybit, bind, gets, http_Get, ret. cbn [fst snd].
    unfold bybit15mURL in E. rewrite E.
    destruct (negb (bkr_RetCode result =? 0)); [eexists; reflexivity |].
    destruct (Nat.ltb_spec (length (bkr_List result)) 2); [eexists; reflexivity | lia].
Qed.

(** Bybit lists the newest candle first, and [get15mAgoPriceFromBybit]
    returns the close of the second most recent candle. *)
Lemma get15mAgoPriceFromBybit_second_most_recent symbol s result candle close price :
  env_get (env s) TBybitKlines (history s) (bybit15mURL s symbol) = Body result ->
  bkr_RetCode result = 0 ->
  secondMostRecentBackward (bkr_List result) = Some candle ->
  candle !! 4%nat = Some close ->
  Sscanf_f close = inl price ->
  get15mAgoPriceFromBybit symbol s
  = (Returns (price, None), record (EvGet (bybit15mURL s symbol)) s).
Proof.
  intros E Hcode Hsecond Hclose Hparse.
  unfold get15mAgoPriceFromBybit, bind, gets, http_Get, ret, index. cbn [fst snd].
  unfold bybit15mURL in E. rewrite E. rewrite Hcode. cbn [Z.eqb negb].
  unfold secondMostRecentBackward in Hsecond.
  destruct (Nat.ltb_spec (length (bkr_List result)) 2) as [Hlt | _].
  { apply lookup_lt_Some in Hsecond. lia. }
  rewrite Hsecond. unfold ret. rewrite Hclose. unfold ret. rewrite Hparse. reflexivity.
Qed.

(** Binance lists the oldest candle first, and of two candles
    [get15mAgoPriceFromBinance] returns the close of the last one: the
    most recent candle, not the one before it. *)
Lemma get15mAgoPriceFromBinance_most_recent symbol s older newer close price :
  env_get (env s) TBinanceKlines (history s) (binance15mURL s symbol)
  = Body [older; newer] ->
  newer !! 4%nat = Some (IString close) ->
  Sscanf_f close = inl price ->
  mostRecentForward [older; newer] = Some newer /\
  secondMostRecentForward [older; newer] = Some older /\
  get15mAgoPriceFromBinance symbol s
  = (Returns (price, None), record (EvGet (binance15mURL s symbol)) s).
Proof.
  intros E Hclose Hparse. split; [reflexivity |]. split; [reflexivity |].
  unfold get15mAgoPriceFromBinance, bind, gets, http_Get, ret, index. cbn [fst snd].
  unfold binance15mURL in E. rewrite E. cbn [length Nat.ltb Nat.leb].
  change ([older; newer] !! 1%nat) with (Some newer). unfold ret. cbv iota beta.
  unfold BinanceKline in Hclose. rewrite Hclose. cbv iota beta. rewrite Hparse. reflexivity.
Qed.

(** *** The single-symbol adapters *)

(** A loop keeps what every turn of its body keeps. *)
Lemma forM_invariant {A B} (I : B -> Prop) (l : list A) (body : A -> B -> M B) :
  (forall x b s out s', x ∈ l -> I b -> body x b s = (Returns out, s') -> I out) ->
  forall acc s out s', I acc -> forM l body acc s = (Returns out, s') -> I out.
Proof.
  induction l as [|x l IH]; intros Hbody acc s out s' Hacc E.
  - simpl in E. injection E as <- _. exact Hacc.
  - cbn [forM] in E. unfold bind in E.
    destruct (body x acc s) as [[b | r] s1] eqn:Eb; [| discriminate].
    eapply IH; [| | exact E].
    + intros y b' s2 out' s2' Hy. apply Hbody. right. exact Hy.
    + eapply Hbody; [left | exact Hacc | exact Eb].
Qed.

(** The two adapters end in the same way: no price at all is an error
    with the nil map, and otherwise the map comes with a nil error. *)
Lemma nonempty_or_error (prices : gmap string float64) s :
  (if (size prices =? 0)%nat then ret (None, Some noPriceData)
   else ret (Some prices, None)) s
  = (Returns (if (size prices =? 0)%nat then (None, Some noPriceData)
              else (Some prices, None)), s).
Proof. destruct (size prices =? 0)%nat; reflexivity. Qed.

Lemma adapterResult_of_loop (allowed : string -> Prop) (prices : gmap string float64) :
  (forall k, is_Some (prices !! k) -> exists symbol, allowed symbol /\ k = symbol ++ "USDT") ->
  adapterResult allowed
    (if (size prices =? 0)%nat then (None, Some noPriceData) else (Some prices, None)).
Proof.
  intros Hkeys. destruct (Nat.eqb_spec (size prices) 0) as [Hz | Hnz].
  - left. reflexivity.
  - right. exists prices. split; [reflexivity |]. split; [lia | exact Hkeys].
Qed.

Lemma keys_insert (allowed : string -> Prop) (prices : gmap string float64) symbol price :
  allowed symbol ->
  (forall k, is_Some (prices !! k) -> exists sym, allowed sym /\ k = sym ++ "USDT") ->
  forall k, is_Some (<[symbol ++ "USDT" := price]> prices !! k) ->
    exists sym, allowed sym /\ k = sym ++ "USDT".
Proof.
  intros Hs Hkeys k Hk. destruct (decide (symbol ++ "USDT" = k)) as [<- | Hne].
  - exists symbol. split; [exact Hs | reflexivity].
  - rewrite lookup_insert_ne in Hk by exact Hne. apply Hkeys. exact Hk.
Qed.

(** X1. [getPricesFromCoinbase] and [getPricesFromKraken] always return,
    and never an empty map with a nil error: either the nil map with an
    error, or a map that is not empty with a nil error, whose keys are
    monitored symbols (for Kraken: monitored symbols that [symbolMap]
    knows) followed by ["USDT"]. *)
Theorem single_symbol_adapters_result (s : Sys) :
  (exists r s',
     getPricesFromCoinbase s = (Returns r, s') /\
     adapterResult (fun symbol => symbol ∈ monitoredSymbols (config s)) r) /\
  (exists r s',
     getPricesFromKraken s = (Returns r, s') /\
     adapterResult (fun symbol => symbol ∈ monitoredSymbols (config s)
                                  /\ is_Some (symbolMap !! symbol)) r).
Proof.
  split.
  - destruct (total_getPricesFromCoinbase s) as (r & s' & E).
    exists r, s'. split; [exact E |].
    unfold getPricesFromCoinbase in E. unfold bind at 1 in E. unfold gets at 1 in E.
    unfold bind at 1 in E.
    match type of E with
    | context [forM ?l ?body ?acc ?st] =>
        destruct (forM l body acc st) as [[prices | p] s1] eqn:Eloop; [| discriminate];
        pose proof (forM_invariant
          (fun m : gmap string float64 =>
             forall k, is_Some (m !! k) ->
               exists symbol, symbol ∈ monitoredSymbols (config s) /\ k = symbol ++ "USDT")
          l body) as Hinv
    end.
    rewrite nonempty_or_error in E. injection E as <- _.
    apply adapterResult_of_loop.
    eapply Hinv; [| | exact Eloop].
    + intros symbol b s2 out s2' Hin Hb Ebody. cbv zeta in Ebody.
      unfold bind, http_Get in Ebody.
      destruct (env_get _ _ _ _) as [result | err].
      * destruct (Sscanf_f (cb_Amount result)) as [price | e];
          injection Ebody as <- _; [| exact Hb].
        apply keys_insert; assumption.
      * injection Ebody as <- _. exact Hb.
    + intros k Hk. rewrite lookup_empty in Hk. destruct Hk as [? Hk]. discriminate.
  - destruct (total_getPricesFromKraken s) as (r & s' & E).
    exists r, s'. split; [exact E |].
    unfold getPricesFromKraken in E. unfold bind at 1 in E. unfold gets at 1 in E.
    unfold bind at 1 in E.
    match type of E with
    | context [forM ?l ?body ?acc ?st] =>
        destruct (forM l body acc st) as [[prices | p] s1] eqn:Eloop; [| discriminate];
        pose proof (forM_invariant
          (fun m : gmap string float64 =>
             forall k, is_Some (m !! k) ->
               exists symbol,
                 (symbol ∈ monitoredSymbols (config s) /\ is_Some (symbolMap !! symbol))
                 /\ k = symbol ++ "USDT")
          l body) as Hinv
    end.
    rewrite nonempty_or_error in E. injection E as <- _.
    apply adapterResult_of_loop.
    eapply Hinv; [| | exact Eloop].
    + intros symbol b s2 out s2' Hin Hb Ebody. cbv zeta in Ebody.
      destruct (symbolMap !! symbol) as [krakenSymbol|] eqn:Hmap.
      2: { injection Ebody as <- _. exact Hb. }
      unfold bind, http_Get in Ebody.
      destruct (env_get _ _ _ _) as [result | err].
      2: { injection Ebody as <- _. exact Hb. }
      destruct (kr_Result result) as [|[name data] others].
      { injection Ebody as <- _. exact Hb. }
      destruct data as [|c0 cs].
      { injection Ebody as <- _. exact Hb. }
      destruct (Sscanf_f c0) as [price | e]; injection Ebody as <- _; [| exact Hb].
      apply (keys_insert (fun symbol => symbol ∈ monitoredSymbols (config s)
                                         /\ is_Some (symbolMap !! symbol))).
      * split; [exact Hin | rewrite Hmap; eauto].
      * exact Hb.
    + intros k Hk. rewrite lookup_empty in Hk. destruct Hk as [? Hk]. discriminate.
Qed.

(** The requests of a loop whose body always returns are those of its
    turns, in order. *)
Lemma forM_history {A B} (l : list A) (body : A -> B -> M B) (requests : A -> list Event) :
  (forall x b s,
     exists out s', body x b s = (Returns out, s') /\
                    history s' = (history s ++ requests x)%list) ->
  forall acc s,
    history (forM l body acc s).2 = (history s ++ concat (map requests l))%list.
Proof.
  intros Hbody. induction l as [|x l IH]; intros acc s.
  - simpl. symmetry. apply app_nil_r.
  - cbn [forM map concat]. destruct (Hbody x acc s) as (out & s1 & E & Hh).
    rewrite (bind_Returns _ _ _ _ _ E). rewrite IH, Hh. symmetry. apply app_assoc.
Qed.

Lemma concat_map_option {A B} (f : B -> Event) (g : A -> option B) (l : list A) :
  concat (map (fun x => match g x with Some y => [f y] | None => [] end) l)
  = map f (omap g l).
Proof.
  induction l as [|x l IH]; [reflexivity |]. simpl.
  destruct (g x); simpl; rewrite IH; reflexivity.
Qed.

(** X2. [getPricesFromCoinbase] makes exactly one request for each
    monitored symbol, whatever the answers; [getPricesFromKraken] makes one
    for each monitored symbol that [symbolMap] knows, and none for the
    others. *)
Theorem single_symbol_adapters_requests (s : Sys) :
  history (getPricesFromCoinbase s).2 = (history s ++ coinbaseRequests (config s))%list /\
  history (getPricesFromKraken s).2 = (history s ++ krakenRequests (config s))%list.
Proof.
  split.
  - unfold getPricesFromCoinbase. unfold bind at 1. unfold gets at 1. unfold bind at 1.
    match goal with
    | |- context [forM ?l ?body ?acc ?st] =>
        pose proof (forM_history l body
          (fun symbol =>
             [EvGet (Sprintf_template (CoinbaseURLTemplate (API (config s))) symbol)])) as Hh;
        destruct (forM l body acc st) as [[prices | p] s1] eqn:Eloop
    end.
    + rewrite nonempty_or_error. cbn [snd].
      change s1 with (Returns prices, s1).2. rewrite <- Eloop. rewrite Hh.
      * unfold coinbaseRequests. f_equal. clear.
        induction (monitoredSymbols (config s)) as [|x l IH]; [reflexivity |].
        cbn [map concat]. rewrite IH. reflexivity.
      * intros symbol b s2. cbv zeta. unfold bind, http_Get.
        destruct (env_get _ _ _ _) as [result | err].
        -- destruct (Sscanf_f (cb_Amount result)); eexists _, _; split; reflexivity.
        -- eexists _, _. split; reflexivity.
    + cbn [snd]. change s1 with (@Panics (gmap string float64) p, s1).2.
      rewrite <- Eloop. rewrite Hh.
      * unfold coinbaseRequests. f_equal. clear.
        induction (monitoredSymbols (config s)) as [|x l IH]; [reflexivity |].
        cbn [map concat]. rewrite IH. reflexivity.
      * intros symbol b s2. cbv zeta. unfold bind, http_Get.
        destruct (env_get _ _ _ _) as [result | err].
        -- destruct (Sscanf_f (cb_Amount result)); eexists _, _; split; reflexivity.
        -- eexists _, _. split; reflexivity.
  - unfold getPricesFromKraken. unfold bind at 1. unfold gets at 1. unfold bind at 1.
    assert (forall l body acc st,
              (forall x b s0,
                 exists out s', body x b s0 = (Returns out, s') /\
                   history s' = (history s0 ++
                     match symbolMap !! x with
                     | Some k => [EvGet (Sprintf_template (KrakenURLTemplate (API (config s))) k)]
                     | None => []
                     end)%list) ->
              history (@forM string (gmap string float64) l body acc st).2
              = (history st ++ map (fun k => EvGet (Sprintf_template
                                                      (KrakenURLTemplate (API (config s))) k))
                                 (omap (fun symbol => symbolMap !! symbol) l))%list) as Hh.
    { intros l body acc st Hbody. rewrite (forM_history l body _ Hbody).
      f_equal. apply concat_map_option. }
    match goal with
    | |- context [forM ?l ?body ?acc ?st] =>
        specialize (Hh l body acc st);
        destruct (forM l body acc st) as [[prices | p] s1] eqn:Eloop
    end.
    + rewrite nonempty_or_error. cbn [snd] in *. apply Hh.
      intros symbol b s2. cbv zeta.
      destruct (symbolMap !! symbol) as [krakenSymbol|].
      2: { eexists _, _. split; [reflexivity |]. symmetry. apply app_nil_r. }
      unfold bind, http_Get.
      destruct (env_get _ _ _ _) as [result | err].
      2: { eexists _, _. split; reflexivity. }
      destruct (kr_Result result) as [|[name data] others].
      { eexists _, _. split; reflexivity. }
      destruct data as [|c0 cs].
      { eexists _, _. split; reflexivity. }
      destruct (Sscanf_f c0); eexists _, _; split; reflexivity.
    + cbn [snd] in *. apply Hh.
      intros symbol b s2. cbv zeta.
      destruct (symbolMap !! symbol) as [krakenSymbol|].
      2: { eexists _, _. split; [reflexivity |]. symmetry. apply app_nil_r. }
      unfold bind, http_Get.
      destruct (env_get _ _ _ _) as [result | err].
      2: { eexists _, _. split; reflexivity. }
      destruct (kr_Result result) as [|[name data] others].
      { eexists _, _. split; reflexivity. }
      destruct data as [|c0 cs].
      { eexists _, _. split; reflexivity. }
      destruct (Sscanf_f c0); eexists _, _; split; reflexivity.
Qed.

(** *** Periods, candles and panics *)

Lemma historical_sources_unknown_period symbol period s :
  period <> "daily" -> period <> "15m" ->
  getHistoricalPriceFromBinance symbol period s
  = (Returns (0%float, Some ("未知的时间周期: " ++ period)), s) /\
  getHistoricalPriceFromBybit symbol period s
  = (Returns (0%float, Some ("未知的时间周期: " ++ period)), s).
Proof.
  intros Hd Hm. apply String.eqb_neq in Hd, Hm.
  unfold getHistoricalPriceFromBinance, getHistoricalPriceFromBybit.
  rewrite Hd, Hm. split; reflexivity.
Qed.

Lemma getHistoricalPrice_unknown_period symbol period s :
  period <> "daily" -> period <> "15m" ->
  getHistoricalPrice symbol period s
  = (Returns (0%float, Some (noHistoricalPrice symbol period)), s).
Proof.
  intros Hd Hm. rewrite getHistoricalPrice_unfold.
  destruct (historical_sources_unknown_period (symbol ++ "USDT") period s Hd Hm)
    as [-> ->].
  reflexivity.
Qed.

(** X3. A period other than ["daily"] and ["15m"] resolves to an error
    without any request, at either source and in [getHistoricalPrice]; a
    change rule with such a period is skipped and the state is left as it
    is. *)
Theorem unknown_period_is_skipped
  (prices : GoMap float64) (alertCooldown : Duration) (now : Time)
  (rule : ChangeAlertRule) (triggered : list AlertInfo) (s : Sys) :
  car_Period rule <> "daily" -> car_Period rule <> "15m" ->
  (forall symbol,
     getHistoricalPriceFromBinance symbol (car_Period rule) s
     = (Returns (0%float, Some ("未知的时间周期: " ++ car_Period rule)), s) /\
     getHistoricalPriceFromBybit symbol (car_Period rule) s
     = (Returns (0%float, Some ("未知的时间周期: " ++ car_Period rule)), s)) /\
  getHistoricalPrice (car_Symbol rule) (car_Period rule) s
  = (Returns (0%float, Some (noHistoricalPrice (car_Symbol rule) (car_Period rule))), s) /\
  checkChangeRule prices alertCooldown now rule triggered s = (Returns triggered, s).
Proof.
  intros Hd Hm.
  pose proof (getHistoricalPrice_unknown_period (car_Symbol rule) (car_Period rule) s Hd Hm)
    as Hres.
  split; [intros symbol; apply historical_sources_unknown_period; assumption |].
  split; [exact Hres |].
  rewrite checkChangeRule_cases, Hres.
  destruct (GoMap_index prices (car_Symbol rule ++ "USDT")); reflexivity.
Qed.

(** X4. The period of a rule that emits an alert is ["daily"] or ["15m"],
    and the message starts with the label of that period: the third label
    of [checkChangeAlerts], the period itself, is never used. *)
Theorem change_alert_period_is_known
  (prices : GoMap float64) (alertCooldown : Duration) (now : Time)
  (rule : ChangeAlertRule) (triggered : list AlertInfo) (s : Sys)
  (alert : AlertInfo) (s' : Sys) :
  checkChangeRule prices alertCooldown now rule triggered s
  = (Returns (triggered ++ [alert])%list, s') ->
  (car_Period rule = "daily" /\ exists rest, Message alert = "当日" ++ rest) \/
  (car_Period rule = "15m" /\ exists rest, Message alert = "15分钟" ++ rest).
Proof.
  intros E.
  assert (forall a : AlertInfo, (triggered ++ [a])%list <> triggered) as Hne.
  { intros a H. apply (f_equal length) in H. rewrite length_app in H. simpl in H. lia. }
  destruct (String.eqb_spec (car_Period rule) "daily") as [Hd | Hd].
  - left. split; [exact Hd |].
    rewrite checkChangeRule_cases in E.
    destruct (GoMap_index prices (car_Symbol rule ++ "USDT")) as [currentPrice|].
    2: { injection E as E _. symmetry in E. apply Hne in E. contradiction. }
    destruct (getHistoricalPrice (car_Symbol rule) (car_Period rule) s)
      as [[[basePrice [e|]] | r] s1]; try discriminate.
    { injection E as E _. symmetry in E. apply Hne in E. contradiction. }
    destruct (changeTriggered rule currentPrice basePrice).
    2: { injection E as E _. symmetry in E. apply Hne in E. contradiction. }
    destruct (inCooldown _ _ _ _).
    { injection E as E _. symmetry in E. apply Hne in E. contradiction. }
    injection E as E _. apply app_inv_head in E. injection E as <-.
    unfold changeAlertOf. cbn [Message]. rewrite Hd. cbn [String.eqb Ascii.eqb Bool.eqb].
    eexists. reflexivity.
  - destruct (String.eqb_spec (car_Period rule) "15m") as [Hm | Hm].
    + right. split; [exact Hm |].
      rewrite checkChangeRule_cases in E.
      destruct (GoMap_index prices (car_Symbol rule ++ "USDT")) as [currentPrice|].
      2: { injection E as E _. symmetry in E. apply Hne in E. contradiction. }
      destruct (getHistoricalPrice (car_Symbol rule) (car_Period rule) s)
        as [[[basePrice [e|]] | r] s1]; try discriminate.
      { injection E as E _. symmetry in E. apply Hne in E. contradiction. }
      destruct (changeTriggered rule currentPrice basePrice).
      2: { injection E as E _. symmetry in E. apply Hne in E. contradiction. }
      destruct (inCooldown _ _ _ _).
      { injection E as E _. symmetry in E. apply Hne in E. contradiction. }
      injection E as E _. apply app_inv_head in E. injection E as <-.
      unfold changeAlertOf. cbn [Message]. rewrite Hm.
      cbn [String.eqb Ascii.eqb Bool.eqb]. eexists. reflexivity.
    + exfalso. rewrite checkChangeRule_cases in E.
      rewrite (getHistoricalPrice_unknown_period _ _ s Hd Hm) in E.
      destruct (GoMap_index prices (car_Symbol rule ++ "USDT"));
        injection E as E _; symmetry in E; apply Hne in E; contradiction.
Qed.

Lemma index_short {A} (l : list A) (i : nat) s :
  (length l <= i)%nat -> index l i s = (Panics "index out of range", s).
Proof.
  intros H. unfold index. rewrite (lookup_ge_None_2 l i H). reflexivity.
Qed.

(** X5. A candle with too few fields makes the candle functions panic:
    fewer than two fields in the first candle for the daily open, fewer
    than five in the second candle for the price of 15 minutes ago; at
    Bybit only when [RetCode] is zero, the code being checked first. *)
Theorem short_candle_panics (symbol : string) (s : Sys) :
  (forall klines (kline : list iface),
     env_get (env s) TBinanceKlines (history s) (binanceDailyURL s symbol) = Body klines ->
     klines !! 0%nat = Some kline -> (length kline <= 1)%nat ->
     getDailyOpenPriceFromBinance symbol s
     = outOfRange (record (EvGet (binanceDailyURL s symbol)) s)) /\
  (forall result kline,
     env_get (env s) TBybitKlines (history s) (bybitDailyURL s symbol) = Body result ->
     bkr_RetCode result = 0 ->
     bkr_List result !! 0%nat = Some kline -> (length kline <= 1)%nat ->
     getDailyOpenPriceFromBybit symbol s
     = outOfRange (record (EvGet (bybitDailyURL s symbol)) s)) /\
  (forall klines (kline : list iface),
     env_get (env s) TBinanceKlines (history s) (binance15mURL s symbol) = Body klines ->
     klines !! 1%nat = Some kline -> (length kline <= 4)%nat ->
     get15mAgoPriceFromBinance symbol s
     = outOfRange (record (EvGet (binance15mURL s symbol)) s)) /\
  (forall result kline,
     env_get (env s) TBybitKlines (history s) (bybit15mURL s symbol) = Body result ->
     bkr_RetCode result = 0 ->
     bkr_List result !! 1%nat = Some kline -> (length kline <= 4)%nat ->
     get15mAgoPriceFromBybit symbol s
     = outOfRange (record (EvGet (bybit15mURL s symbol)) s)).
Proof.
  unfold outOfRange. split; [| split; [| split]].
  - intros klines kline E Hk Hlen.
    unfold getDailyOpenPriceFromBinance, bind, gets, http_Get. cbn [fst snd].
    unfold binanceDailyURL in E. rewrite E.
    destruct klines as [|k0 ks]; [discriminate Hk |].
    simpl in Hk. injection Hk as ->. cbn [length Nat.eqb].
    unfold index at 1. cbn [lookup list_lookup]. unfold ret at 1.
    rewrite (index_short kline 1 _ Hlen). reflexivity.
  - intros result kline E Hcode Hk Hlen.
    unfold getDailyOpenPriceFromBybit, bind, gets, http_Get. cbn [fst snd].
    unfold bybitDailyURL in E. rewrite E, Hcode. cbn [Z.eqb negb].
    destruct (Nat.eqb_spec (length (bkr_List result)) 0) as [Hz | _].
    { apply lookup_lt_Some in Hk. lia. }
    unfold index at 1. rewrite Hk. unfold ret at 1.
    rewrite (index_short kline 1 _ Hlen). reflexivity.
  - intros klines kline E Hk Hlen.
    unfold get15mAgoPriceFromBinance, bind, gets, http_Get. cbn [fst snd].
    unfold binance15mURL in E. rewrite E.
    destruct klines as [|k0 [|k1 ks]]; [discriminate Hk | discriminate Hk |].
    simpl in Hk. injection Hk as ->. cbn [length Nat.ltb Nat.leb].
    unfold index at 1. change ((k0 :: kline :: ks) !! 1%nat) with (Some kline).
    unfold ret at 1. rewrite (index_short kline 4 _ Hlen). reflexivity.
  - intros result kline E Hcode Hk Hlen.
    unfold get15mAgoPriceFromBybit, bind, gets, http_Get. cbn [fst snd].
    unfold bybit15mURL in E. rewrite E, Hcode. cbn [Z.eqb negb].
    destruct (Nat.ltb_spec (length (bkr_List result)) 2) as [Hz | _].
    { apply lookup_lt_Some in Hk. lia. }
    unfold index at 1. rewrite Hk. unfold ret at 1.
    rewrite (index_short kline 4 _ Hlen). reflexivity.
Qed.

Lemma get15mAgoPriceFromBinance_short symbol s klines (kline : list iface) :
  env_get (env s) TBinanceKlines (history s) (binance15mURL s symbol) = Body klines ->
  klines !! 1%nat = Some kline -> (length kline <= 4)%nat ->
  get15mAgoPriceFromBinance symbol s
  = (Panics "index out of range", record (EvGet (binance15mURL s symbol)) s).
Proof.
  intros E Hk Hlen.
  unfold get15mAgoPriceFromBinance, bind, gets, http_Get. cbn [fst snd].
  unfold binance15mURL in E. rewrite E.
  destruct klines as [|k0 [|k1 ks]]; [discriminate Hk | discriminate Hk |].
  simpl in Hk. injection Hk as ->. cbn [length Nat.ltb Nat.leb].
  unfold index at 1. change ((k0 :: kline :: ks) !! 1%nat) with (Some kline).
  unfold ret at 1. rewrite (index_short kline 4 _ Hlen). reflexivity.
Qed.

(** X6. One candle with too few fields stops the loop: when the snapshot
    has the symbol of the first change rule, its period is ["15m"], and
    Binance answers with a second candle of fewer than five fields, the
    tick panics right after that request; Bybit is not asked, nothing is
    sent, and the cooldown state is as before the tick. *)
Theorem short_candle_stops_the_tick
  (lastSent : Time) (s : Sys) (prices : gmap string float64) (source : string)
  (s1 : Sys) (rule : ChangeAlertRule) (rest : list ChangeAlertRule)
  (currentPrice : float64) (klines : list BinanceKline) (kline : list iface) :
  getAllPrices s = (Returns (Some prices, source), s1) ->
  ChangeAlertRules (config s) = rule :: rest ->
  car_Period rule = "15m" ->
  prices !! (car_Symbol rule ++ "USDT") = Some currentPrice ->
  env_get (env s1) TBinanceKlines (history (record EvNow s1))
    (binance15mURL s1 (car_Symbol rule ++ "USDT")) = Body klines ->
  klines !! 1%nat = Some kline -> (length kline <= 4)%nat ->
  monitorTick lastSent s
  = (Panics "index out of range",
     record (EvGet (binance15mURL s1 (car_Symbol rule ++ "USDT"))) (record EvNow s1)) /\
  priceHistory (monitorTick lastSent s).2 = priceHistory s /\
  countPosts (history (monitorTick lastSent s).2) = countPosts (history s).
Proof.
  intros E Hrules Hperiod Hcur Henv Hk Hlen.
  pose proof (quiet_getAllPrices s) as Hq. rewrite E in Hq.
  destruct Hq as [(Hcfg & Henv1 & evs & Hhist & Hgets) Hph]. cbn [snd] in *.
  assert (monitorTick lastSent s
          = (Panics "index out of range",
             record (EvGet (binance15mURL s1 (car_Symbol rule ++ "USDT")))
               (record EvNow s1))) as Htick.
  { unfold monitorTick. unfold bind at 1. unfold gets at 1.
    rewrite (bind_Returns _ _ _ _ _ E).
    destruct (checkPriceAlerts_returns (Some prices) s1) as (alerts & Ea).
    rewrite (bind_Returns _ _ _ _ _ Ea).
    assert (checkChangeAlerts (Some prices) (alertCooldownOf (config s)) s1
            = (Panics "index out of range",
               record (EvGet (binance15mURL s1 (car_Symbol rule ++ "USDT")))
                 (record EvNow s1))) as Ec.
    { unfold checkChangeAlerts. unfold bind at 1. unfold time_Now at 1.
      unfold bind at 1. unfold gets at 1.
      change (config (record EvNow s1)) with (config s1). rewrite Hcfg, Hrules.
      cbn [forM]. unfold bind at 1. rewrite checkChangeRule_cases.
      cbn [GoMap_index]. rewrite Hcur.
      rewrite getHistoricalPrice_unfold. rewrite Hperiod.
      unfold getHistoricalPriceFromBinance. cbn [String.eqb Ascii.eqb Bool.eqb].
      rewrite (get15mAgoPriceFromBinance_short _ (record EvNow s1) klines kline Henv Hk Hlen).
      reflexivity. }
    unfold bind at 1. rewrite Ec. reflexivity. }
  split; [exact Htick |]. rewrite Htick. cbn [snd]. split; [exact Hph |].
  cbn [history record]. rewrite Hhist.
  assert (forall l1 l2, countPosts (l1 ++ l2)%list = (countPosts l1 + countPosts l2)%nat)
    as Happ.
  { induction l1 as [|[] l1 IH]; intros l2; simpl; rewrite ?IH; reflexivity. }
  rewrite !Happ. simpl.
  assert (countPosts evs = 0%nat) as ->.
  { clear -Hgets. induction Hgets as [|e l [url ->] _ IH]; [reflexivity | exact IH]. }
  lia.
Qed.

(** X7. The daily open price is the parsed second field of the first
    candle of the answer, returned as it is, zero or negative included; an
    empty answer is an error, and so is, at Binance, an open price that is
    not a string. *)
Theorem daily_open_price (symbol : string) (s : Sys) :
  (forall (kline : list iface) rest openPriceStr,
     env_get (env s) TBinanceKlines (history s) (binanceDailyURL s symbol)
     = Body (kline :: rest) ->
     kline !! 1%nat = Some (IString openPriceStr) ->
     getDailyOpenPriceFromBinance symbol s
     = (Returns match Sscanf_f openPriceStr with
                | inl openPrice => (openPrice, None)
                | inr err => (0%float, Some ("解析开盘价失败: " ++ err))
                end,
        record (EvGet (binanceDailyURL s symbol)) s)) /\
  (forall (kline : list iface) rest field,
     env_get (env s) TBinanceKlines (history s) (binanceDailyURL s symbol)
     = Body (kline :: rest) ->
     kline !! 1%nat = Some field ->
     (forall str, field <> IString str) ->
     getDailyOpenPriceFromBinance symbol s
     = (Returns (0%float, Some "开盘价格式错误"),
        record (EvGet (binanceDailyURL s symbol)) s)) /\
  (env_get (env s) TBinanceKlines (history s) (binanceDailyURL s symbol) = Body [] ->
   getDailyOpenPriceFromBinance symbol s
   = (Returns (0%float, Some "没有K线数据"), record (EvGet (binanceDailyURL s symbol)) s)) /\
  (forall result kline rest openPriceStr,
     env_get (env s) TBybitKlines (history s) (bybitDailyURL s symbol) = Body result ->
     bkr_RetCode result = 0 ->
     bkr_List result = kline :: rest ->
     kline !! 1%nat = Some openPriceStr ->
     getDailyOpenPriceFromBybit symbol s
     = (Returns match Sscanf_f openPriceStr with
                | inl openPrice => (openPrice, None)
                | inr err => (0%float, Some ("解析开盘价失败: " ++ err))
                end,
        record (EvGet (bybitDailyURL s symbol)) s)) /\
  (forall result,
     env_get (env s) TBybitKlines (history s) (bybitDailyURL s symbol) = Body result ->
     bkr_RetCode result = 0 ->
     bkr_List result = [] ->
     getDailyOpenPriceFromBybit symbol s
     = (Returns (0%float, Some "没有K线数据"), record (EvGet (bybitDailyURL s symbol)) s)).
Proof.
  split; [| split; [| split; [| split]]].
  - intros kline rest o E Hk.
    unfold getDailyOpenPriceFromBinance, bind, gets, http_Get. cbn [fst snd].
    unfold binanceDailyURL in E. rewrite E. cbn [length Nat.eqb].
    unfold index at 1. cbn [lookup list_lookup]. unfold ret at 1.
    unfold index. rewrite Hk. unfold ret at 1.
    destruct (Sscanf_f o); reflexivity.
  - intros kline rest field E Hk Hns.
    unfold getDailyOpenPriceFromBinance, bind, gets, http_Get. cbn [fst snd].
    unfold binanceDailyURL in E. rewrite E. cbn [length Nat.eqb].
    unfold index at 1. cbn [lookup list_lookup]. unfold ret at 1.
    unfold index. rewrite Hk. unfold ret at 1.
    destruct field; try reflexivity. exfalso. eapply Hns. reflexivity.
  - intros E.
    unfold getDailyOpenPriceFromBinance, bind, gets, http_Get. cbn [fst snd].
    unfold binanceDailyURL in E. rewrite E. reflexivity.
  - intros result kline rest o E Hcode Hl Hk.
    unfold getDailyOpenPriceFromBybit, bind, gets, http_Get. cbn [fst snd].
    unfold bybitDailyURL in E. rewrite E, Hcode, Hl. cbn [Z.eqb negb length Nat.eqb].
    unfold index at 1. cbn [lookup list_lookup]. unfold ret at 1.
    unfold index. rewrite Hk. unfold ret at 1.
    destruct (Sscanf_f o); reflexivity.
  - intros result E Hcode Hl.
    unfold getDailyOpenPriceFromBybit, bind, gets, http_Get. cbn [fst snd].
    unfold bybitDailyURL in E. rewrite E, Hcode, Hl. reflexivity.
Qed.

(** X8. The candle functions of Bybit return the error with [RetMsg]
    whenever [RetCode] is not zero, before they look at the list, so they
    cannot panic then; [getPricesFromBybit] does not read [RetCode] and
    returns a nil error all the same. *)
Theorem bybit_ret_code (symbol : string) (s : Sys) :
  (forall result,
     env_get (env s) TBybitKlines (history s) (bybitDailyURL s symbol) = Body result ->
     bkr_RetCode result <> 0 ->
     getDailyOpenPriceFromBybit symbol s
     = (Returns (0%float, Some ("API返回错误: " ++ bkr_RetMsg result)),
        record (EvGet (bybitDailyURL s symbol)) s)) /\
  (forall result,
     env_get (env s) TBybitKlines (history s) (bybit15mURL s symbol) = Body result ->
     bkr_RetCode result <> 0 ->
     get15mAgoPriceFromBybit symbol s
     = (Returns (0%float, Some ("API返回错误: " ++ bkr_RetMsg result)),
        record (EvGet (bybit15mURL s symbol)) s)) /\
  (forall tickers code code' msg msg',
     env_get (env s) TBybitTickers (history s) (BybitURL (API (config s)))
     = Body {| byr_List := tickers; byr_RetCode := code; byr_RetMsg := msg |} ->
     forall s',
       config s' = config s ->
       env_get (env s') TBybitTickers (history s') (BybitURL (API (config s')))
       = Body {| byr_List := tickers; byr_RetCode := code'; byr_RetMsg := msg' |} ->
       (getPricesFromBybit s').1 = (getPricesFromBybit s).1 /\
       exists prices, (getPricesFromBybit s).1 = Returns (Some prices, None)).
Proof.
  split; [| split].
  - intros result E Hcode.
    unfold getDailyOpenPriceFromBybit, bind, gets, http_Get. cbn [fst snd].
    unfold bybitDailyURL in E. rewrite E.
    destruct (Z.eqb_spec (bkr_RetCode result) 0); [contradiction | reflexivity].
  - intros result E Hcode.
    unfold get15mAgoPriceFromBybit, bind, gets, http_Get. cbn [fst snd].
    unfold bybit15mURL in E. rewrite E.
    destruct (Z.eqb_spec (bkr_RetCode result) 0); [contradiction | reflexivity].
  - intros tickers code code' msg msg' E s' Hc E'.
    unfold getPricesFromBybit, bind, gets, http_Get, ret. cbn [fst snd].
    rewrite E, E'. cbn [byr_List]. split; [reflexivity | eexists; reflexivity].
Qed.

(** *** The aggregator and the tick *)

Lemma tried_result sources s r s' :
  tried sources s r s' ->
  r = (None, "") \/
  exists prices, r.1 = Some prices /\ (0 < size prices)%nat /\ r.2 ∈ map fst sources.
Proof.
  induction 1 as [s | name fn rest s r s' E [He Hlen] | name fn rest s r s' res s'' E Hn _ IH].
  - left. reflexivity.
  - right. destruct r as [[prices|] err]; simpl in *; [| lia].
    exists prices. split; [reflexivity |]. split; [exact Hlen | left].
  - destruct IH as [-> | (prices & Hp & Hlen & Hin)]; [left; reflexivity |].
    right. exists prices. split; [exact Hp |]. split; [exact Hlen |]. simpl. right. exact Hin.
Qed.

(** X9. [getAllPrices] always returns, and returns either the nil map
    with the empty name, or a map that is not empty with the name of one
    of the four sources: never an empty map, and never a name without a
    map.  It makes GET requests only and leaves the cooldown state as it
    is. *)
Theorem getAllPrices_result (s : Sys) :
  exists prices name s',
    getAllPrices s = (Returns (prices, name), s') /\
    ((prices = None /\ name = "") \/
     (exists snapshot,
        prices = Some snapshot /\ (0 < size snapshot)%nat /\
        name ∈ ["Binance"; "Bybit"; "Coinbase"; "Kraken"])) /\
    quiet isGet s s'.
Proof.
  destruct (tryPriceSources_tried priceSources) with (s := s) as ([prices name] & s' & E & Ht).
  { unfold priceSources.
    apply Forall_cons; split; [apply total_getPricesFromBinance |].
    apply Forall_cons; split; [apply total_getPricesFromBybit |].
    apply Forall_cons; split; [apply total_getPricesFromCoinbase |].
    apply Forall_cons; split; [apply total_getPricesFromKraken |].
    apply Forall_nil_2. }
  exists prices, name, s'. split; [exact E |]. split.
  - apply tried_result in Ht as [H | (snapshot & Hp & Hlen & Hin)].
    + left. injection H as -> ->. split; reflexivity.
    + right. exists snapshot. simpl in *. split; [exact Hp |]. split; [exact Hlen | exact Hin].
  - pose proof (quiet_getAllPrices s) as Hq. unfold getAllPrices in E.
    unfold getAllPrices in Hq. rewrite E in Hq. exact Hq.
Qed.

(** X10. When [getAllPrices] returns the nil map, the tick ends there:
    no rule is evaluated, the clock is not read, nothing is sent, and
    [lastAlertTime] and the cooldown state are as before. *)
Theorem tick_without_prices (lastSent : Time) (s : Sys) (name : string) (s1 : Sys) :
  getAllPrices s = (Returns (None, name), s1) ->
  monitorTick lastSent s = (Returns lastSent, s1) /\
  quiet isGet s s1.
Proof.
  intros E. split.
  - unfold monitorTick. unfold bind at 1. unfold gets at 1.
    rewrite (bind_Returns _ _ _ _ _ E). reflexivity.
  - pose proof (quiet_getAllPrices s) as Hq. rewrite E in Hq. exact Hq.
Qed.

Lemma countPosts_app (l1 l2 : list Event) :
  countPosts (l1 ++ l2)%list = (countPosts l1 + countPosts l2)%nat.
Proof. induction l1 as [|[] l1 IH]; simpl; rewrite ?IH; reflexivity. Qed.

Lemma countPosts_notPost (evs : list Event) : Forall notPost evs -> countPosts evs = 0%nat.
Proof.
  induction 1 as [|e l He _ IH]; [reflexivity |].
  destruct e as [url | url body |]; simpl; try exact IH.
  exfalso. eapply He. reflexivity.
Qed.

Lemma extends_notPost_count s s' :
  extends notPost s s' -> countPosts (history s') = countPosts (history s).
Proof.
  intros (_ & _ & evs & -> & Hall). rewrite countPosts_app, (countPosts_notPost _ Hall). lia.
Qed.

Lemma quiet_isGet_count s s' :
  quiet isGet s s' -> countPosts (history s') = countPosts (history s).
Proof.
  intros [H _]. apply extends_notPost_count.
  eapply extends_weaken; [| exact H]. apply isGet_notPost.
Qed.

(** The posts of [sendAlerts]: none for the empty batch, one otherwise. *)
Lemma sendAlerts_count triggered s :
  countPosts (history (sendAlerts triggered s).2)
  = (countPosts (history s) + if (length triggered =? 0)%nat then 0 else 1)%nat.
Proof.
  destruct triggered as [|alert rest].
  - simpl. lia.
  - rewrite sendAlerts_cons. cbn [snd history record length Nat.eqb].
    rewrite countPosts_app. simpl. lia.
Qed.

Lemma sendPriceAlerts_count priceAlerts alertCooldown lastSent s :
  (countPosts (history s)
   <= countPosts (history (sendPriceAlerts priceAlerts alertCooldown lastSent s).2)
   <= countPosts (history s) + 1)%nat.
Proof.
  unfold sendPriceAlerts. destruct priceAlerts as [|alert rest].
  - simpl. lia.
  - cbn [length Nat.ltb Nat.leb]. unfold time_Since, bind, time_Now, ret.
    destruct (alertCooldown <? _).
    + rewrite sendAlerts_cons. unfold record. cbn [env history config].
      destruct (env_post _ _ _ _); cbn [snd history];
        rewrite ?countPosts_app; simpl; lia.
    + unfold record. cbn [snd history]. rewrite ?countPosts_app. simpl. lia.
Qed.

Lemma sendChangeAlerts_count changeAlerts s :
  (countPosts (history s)
   <= countPosts (history (sendChangeAlerts changeAlerts s).2)
   <= countPosts (history s) + 1)%nat.
Proof.
  unfold sendChangeAlerts. destruct changeAlerts as [|alert rest].
  - simpl. lia.
  - cbn [length Nat.ltb Nat.leb]. unfold bind. rewrite sendAlerts_cons.
    unfold ret, record. cbn [snd history]. rewrite countPosts_app. simpl. lia.
Qed.

(** X11. A tick sends at most two notifications, one for the batch of
    price alerts and one for the batch of change alerts, however many
    rules fire. *)
Theorem tick_sends_at_most_twice (lastSent : Time) (s : Sys) :
  (countPosts (history s)
   <= countPosts (history (monitorTick lastSent s).2)
   <= countPosts (history s) + 2)%nat.
Proof.
  remember (monitorTick lastSent s) as res eqn:E.
  unfold monitorTick in E. unfold bind at 1 in E. unfold gets at 1 in E.
  unfold bind at 1 in E.
  pose proof (quiet_isGet_count _ _ (quiet_getAllPrices s)) as H1.
  destruct (getAllPrices s) as [[[[prices|] source] | r] s1]; cbn [snd] in *;
    [| subst res; unfold ret; cbn [snd]; lia | subst res; cbn [snd]; lia].
  destruct (checkPriceAlerts_returns (Some prices) s1) as (priceAlerts & Ea).
  rewrite (bind_Returns _ _ _ _ _ Ea) in E. unfold bind at 1 in E.
  pose proof (extends_notPost_count _ _
                (checkChangeAlerts_notPost (Some prices) (alertCooldownOf (config s)) s1))
    as H2.
  destruct (checkChangeAlerts (Some prices) (alertCooldownOf (config s)) s1)
    as [[changeAlerts | r] s2]; cbn [snd] in *; [| subst res; cbn [snd]; lia].
  unfold bind at 1 in E.
  pose proof (sendPriceAlerts_count priceAlerts (alertCooldownOf (config s)) lastSent s2)
    as H3.
  destruct (sendPriceAlerts priceAlerts (alertCooldownOf (config s)) lastSent s2)
    as [[last' | r] s3]; cbn [snd] in *; [| subst res; cbn [snd]; lia].
  unfold bind at 1 in E.
  pose proof (sendChangeAlerts_count changeAlerts s3) as H4.
  destruct (sendChangeAlerts changeAlerts s3) as [[[] | r] s4]; cbn [snd] in *;
    [| subst res; cbn [snd]; lia].
  unfold bind at 1 in E.
  pose proof (quiet_isGet_count _ _ (quiet_logCurrentPrices (Some prices) s4)) as H5.
  destruct (logCurrentPrices (Some prices) s4) as [[[] | r] s5]; cbn [snd] in *;
    subst res; unfold ret; cbn [snd]; lia.
Qed.

(** *** The cooldown window *)

Lemma int64_wrap_range z : minDuration <= int64_wrap z <= maxDuration.
Proof.
  unfold int64_wrap, minDuration, maxDuration.
  pose proof (Z.mod_pos_bound (z + 2 ^ 63) (2 ^ 64) ltac:(lia)). lia.
Qed.

Lemma int64_wrap_exact z : minDuration <= z <= maxDuration -> int64_wrap z = z.
Proof.
  unfold int64_wrap, minDuration, maxDuration. intros H.
  rewrite Z.mod_small by lia. lia.
Qed.

(** The window is a whole number of minutes, modulo [2 ^ 64]: an even
    number, so never the largest duration. *)
Lemma alertCooldownOf_below_max cfg : alertCooldownOf cfg < maxDuration.
Proof.
  pose proof (int64_wrap_range (AlertCooldownMinutes (Monitor cfg) * Minute)) as [_ Hle].
  unfold alertCooldownOf. fold Duration in *.
  assert (int64_wrap (AlertCooldownMinutes (Monitor cfg) * Minute) <> maxDuration); [| lia].
  unfold int64_wrap, maxDuration, Minute, Second.
  pose proof (Z.div_mod (AlertCooldownMinutes (Monitor cfg) * (60 * 1000000000) + 2 ^ 63)
                (2 ^ 64) ltac:(lia)) as Hdm.
  remember ((AlertCooldownMinutes (Monitor cfg) * (60 * 1000000000) + 2 ^ 63) / 2 ^ 64) as q.
  remember ((AlertCooldownMinutes (Monitor cfg) * (60 * 1000000000) + 2 ^ 63) mod 2 ^ 64) as r.
  lia.
Qed.

(** X12. The window [alertCooldown] of [monitorCryptoPrices] is the
    configured number of minutes in nanoseconds as long as that number is
    between -153722867 and 153722867; in any case it is a 64-bit value
    below the largest duration. *)
Theorem alertCooldown_range (cfg : Config) :
  (-153722867 <= AlertCooldownMinutes (Monitor cfg) <= 153722867 ->
   alertCooldownOf cfg = AlertCooldownMinutes (Monitor cfg) * 60000000000) /\
  minDuration <= alertCooldownOf cfg < maxDuration /\
  (AlertCooldownMinutes (Monitor cfg) = 153722868 -> alertCooldownOf cfg < 0).
Proof.
  split; [| split].
  - intros H. unfold alertCooldownOf. rewrite int64_wrap_exact.
    + unfold Minute, Second. lia.
    + unfold minDuration, maxDuration, Minute, Second. lia.
  - split; [apply int64_wrap_range | apply alertCooldownOf_below_max].
  - intros H. unfold alertCooldownOf. rewrite H. vm_compute. reflexivity.
Qed.

(** X13. The first batch of price alerts is always sent: [lastAlertTime]
    starts as the zero time, the time since then saturates at the largest
    duration as soon as the clock reads 1970 or later, and no window is
    that large. *)
Theorem first_price_batch_is_sent (alert : AlertInfo) (rest : list AlertInfo) (s : Sys) :
  0 <= env_now (env s) (history s) ->
  exists out s' evs,
    sendPriceAlerts (alert :: rest) (alertCooldownOf (config s)) zeroTime s = (out, s') /\
    history s'
    = (history s
       ++ [EvNow; EvPost (NtfyURL (Notify (config s))) (alertsMessage (alert :: rest))]
       ++ evs)%list.
Proof.
  intros Hnow.
  assert (Time_Sub (env_now (env s) (history s)) zeroTime = maxDuration) as Hsat.
  { unfold Time_Sub, zeroTime, minDuration, maxDuration, Second in *.
    destruct (Z.ltb_spec (env_now (env s) (history s) - -62135596800 * 1000000000)
                (- 2 ^ 63)); [lia |].
    destruct (Z.ltb_spec (2 ^ 63 - 1)
                (env_now (env s) (history s) - -62135596800 * 1000000000));
      [reflexivity | lia]. }
  pose proof (alertCooldownOf_below_max (config s)) as Hlt.
  unfold sendPriceAlerts, time_Since, bind, time_Now, ret.
  cbn [length Nat.ltb Nat.leb]. rewrite Hsat.
  apply Z.ltb_lt in Hlt. rewrite Hlt. rewrite sendAlerts_cons.
  unfold record. cbn [env history config].
  destruct (env_post _ _ _ _).
  - eexists _, _, []. split; [reflexivity |]. cbn [history].
    rewrite <- app_assoc. reflexivity.
  - eexists _, _, [EvNow]. split; [reflexivity |]. cbn [history].
    rewrite <- !app_assoc. reflexivity.
Qed.

(** *** The magnitude *)

(** X14. [abs] never returns a value below zero; on a number its result
    is at least zero; and on a value that is not a number (a change
    computed from an infinite or missing price) no threshold is reached,
    so such a change never triggers a rule. *)
Theorem abs_is_a_magnitude (x : float64) :
  (abs x <? 0)%float = false /\
  ((x =? x)%float = true -> (0 <=? abs x)%float = true) /\
  ((x =? x)%float = false -> forall threshold, (threshold <=? abs x)%float = false).
Proof.
  unfold abs. rewrite !FloatAxioms.eqb_spec.
  rewrite (FloatAxioms.ltb_spec x 0).
  change (Prim2SF 0) with (S754_zero false).
  split; [| split].
  - destruct (SFltb (Prim2SF x) (S754_zero false)) eqn:E.
    + rewrite FloatAxioms.ltb_spec, FloatAxioms.opp_spec.
      change (Prim2SF 0) with (S754_zero false).
      destruct (Prim2SF x) as [sg | sg | | sg m e]; try discriminate;
        destruct sg; try discriminate; reflexivity.
    + rewrite FloatAxioms.ltb_spec. change (Prim2SF 0) with (S754_zero false). exact E.
  - intros Hnum.
    destruct (SFltb (Prim2SF x) (S754_zero false)) eqn:E.
    + rewrite FloatAxioms.leb_spec, FloatAxioms.opp_spec.
      change (Prim2SF 0) with (S754_zero false).
      destruct (Prim2SF x) as [sg | sg | | sg m e]; try discriminate;
        destruct sg; try discriminate; reflexivity.
    + rewrite FloatAxioms.leb_spec. change (Prim2SF 0) with (S754_zero false).
      destruct (Prim2SF x) as [sg | sg | | sg m e]; try discriminate;
        destruct sg; try discriminate; reflexivity.
  - intros Hnan threshold.
    assert (Prim2SF x = S754_nan) as Hx.
    { unfold SFeqb in Hnan.
      destruct (Prim2SF x) as [sg | sg | | sg m e]; try reflexivity; simpl in Hnan.
      - discriminate.
      - destruct sg; discriminate.
      - rewrite Z.compare_refl, Pos.compare_cont_refl in Hnan. destruct sg; discriminate. }
    rewrite Hx. cbn [SFltb SFcompare]. rewrite FloatAxioms.leb_spec, Hx.
    unfold SFleb. destruct (Prim2SF threshold); reflexivity.
Qed.

(** *** What the loop keeps *)

Lemma monitorInvariant_refl s : monitorInvariant s s.
Proof.
  split; [reflexivity |]. split; [reflexivity |].
  split; [exists []; symmetry; apply app_nil_r |]. split; [reflexivity |].
  intros k. left. reflexivity.
Qed.

Lemma monitorInvariant_trans s1 s2 s3 :
  monitorInvariant s1 s2 -> monitorInvariant s2 s3 -> monitorInvariant s1 s3.
Proof.
  intros (Hc1 & He1 & [evs1 Hh1] & Ht1 & Hk1) (Hc2 & He2 & [evs2 Hh2] & Ht2 & Hk2).
  split; [congruence |]. split; [congruence |].
  split; [exists (evs1 ++ evs2)%list; rewrite Hh2, Hh1; symmetry; apply app_assoc |].
  split; [congruence |].
  intros k. destruct (Hk2 k) as [Hsame | (Hin & t & Ht)].
  - rewrite Hsame. apply Hk1.
  - right. rewrite <- Hc1. split; [exact Hin | exists t; exact Ht].
Qed.

Lemma monitorInvariant_quiet allowed s s' : quiet allowed s s' -> monitorInvariant s s'.
Proof.
  intros [(Hc & He & evs & Hh & _) Hph].
  split; [exact Hc |]. split; [exact He |]. split; [exists evs; exact Hh |].
  rewrite Hph. split; [reflexivity |]. intros k. left. reflexivity.
Qed.

Lemma monitorInvariant_checkChangeAlerts prices alertCooldown :
  preserves monitorInvariant (checkChangeAlerts prices alertCooldown).
Proof.
  intros s. unfold checkChangeAlerts, bind, time_Now, gets. cbn [fst snd].
  destruct (checkChangeRules_loop prices alertCooldown
              (env_now (env s) (history s)) (ChangeAlertRules (config s))
              [] (record EvNow s)) as (fired & Hsub & Hloop).
  cbv zeta in Hloop. destruct Hloop as ((Hc & He & evs & Hh & _) & Hmap & Htime & _).
  change (config (record EvNow s)) with (config s).
  split; [exact Hc |]. split; [exact He |].
  split; [exists (EvNow :: evs); rewrite Hh; simpl; rewrite <- app_assoc; reflexivity |].
  split; [exact Htime |].
  intros k. rewrite Hmap. simpl.
  destruct (decide (k ∈ map alertKeyOf fired)) as [Hin | Hout].
  - right. split.
    + eapply elem_of_sublist; [exact Hin |]. apply fmap_sublist. exact Hsub.
    + eexists. apply recordFired_fired. exact Hin.
  - left. apply recordFired_other. exact Hout.
Qed.

Lemma monitorInvariant_monitorTick lastSent : preserves monitorInvariant (monitorTick lastSent).
Proof.
  unfold monitorTick.
  preserves_cases monitorInvariant_refl monitorInvariant_trans
    ltac:(first
            [ apply monitorInvariant_checkChangeAlerts
            | intros ?s; apply (monitorInvariant_quiet isGet); apply quiet_getAllPrices
            | intros ?s; rewrite checkPriceAlerts_state; apply monitorInvariant_refl
            | intros ?s; apply (monitorInvariant_quiet anyEvent); apply quiet_sendPriceAlerts
            | intros ?s; apply (monitorInvariant_quiet anyEvent); apply quiet_sendChangeAlerts
            | intros ?s; apply (monitorInvariant_quiet isGet); apply quiet_logCurrentPrices ]).
Qed.

(** X15. Over any number of ticks the loop keeps the configuration and
    the world, only adds to the requests made, never writes the field
    [priceAlertTime], and never deletes a cooldown entry: an entry changes
    only by being written, with a formatted time, under the key of a
    configured change rule. *)
Theorem monitor_keeps_its_state (n : nat) (lastSent : Time) (s : Sys) :
  monitorInvariant s (monitorTicks n lastSent s).2 /\
  (forall k, is_Some (lastAlertTime (priceHistory s) !! k) ->
             is_Some (lastAlertTime (priceHistory (monitorTicks n lastSent s).2) !! k)).
Proof.
  assert (monitorInvariant s (monitorTicks n lastSent s).2) as Hinv.
  { revert lastSent s. induction n as [|n IH]; intros lastSent s.
    - apply monitorInvariant_refl.
    - cbn [monitorTicks]. unfold bind.
      pose proof (monitorInvariant_monitorTick lastSent s) as H1.
      destruct (monitorTick lastSent s) as [[last' | r] s1]; cbn [snd] in *.
      + eapply monitorInvariant_trans; [exact H1 | apply IH].
      + exact H1. }
  split; [exact Hinv |].
  intros k Hk. destruct Hinv as (_ & _ & _ & _ & Hkeys).
  destruct (Hkeys k) as [-> | (_ & t & ->)]; [exact Hk | eauto].
Qed.

(** *** Cooldown keys *)

Lemma append_length (a b : string) :
  String.length (a ++ b) = (String.length a + String.length b)%nat.
Proof. induction a as [|c a IH]; simpl; [reflexivity | rewrite IH; reflexivity]. Qed.

Lemma append_inv_tail (a b t : string) : a ++ t = b ++ t -> a = b.
Proof.
  revert b. induction a as [|c a IH]; intros [|c' b] H; simpl in H.
  - reflexivity.
  - apply (f_equal String.length) in H. simpl in H. rewrite ?append_length in H.
    simpl in H. lia.
  - apply (f_equal String.length) in H. simpl in H. rewrite ?append_length in H.
    simpl in H. lia.
  - injection H as -> H. f_equal. apply IH. exact H.
Qed.

Lemma daily_key_is_no_15m_key (a b : string) : a ++ "_daily" <> b ++ "_15m".
Proof.
  intros H.
  pose proof (String.append_correct2 a "_daily" 5) as Ha.
  pose proof (String.append_correct2 b "_15m" 3) as Hb.
  assert (5 + String.length a = 3 + String.length b)%nat as Hlen.
  { apply (f_equal String.length) in H. rewrite !append_length in H. simpl in H. lia. }
  rewrite H, Hlen, <- Hb in Ha. simpl in Ha. discriminate.
Qed.

(** X16. Two change rules whose periods are ["daily"] or ["15m"], the
    only ones that can fire, have the same cooldown key only when they
    have the same symbol and the same period. *)
Theorem alert_keys_do_not_collide (rule1 rule2 : ChangeAlertRule) :
  car_Period rule1 = "daily" \/ car_Period rule1 = "15m" ->
  car_Period rule2 = "daily" \/ car_Period rule2 = "15m" ->
  alertKeyOf rule1 = alertKeyOf rule2 ->
  car_Symbol rule1 = car_Symbol rule2 /\ car_Period rule1 = car_Period rule2.
Proof.
  unfold alertKeyOf. intros [H1 | H1] [H2 | H2] Hkey; rewrite H1, H2 in *; simpl in Hkey.
  - apply append_inv_tail in Hkey. apply append_inv_tail in Hkey. auto.
  - exfalso. eapply daily_key_is_no_15m_key. exact Hkey.
  - exfalso. eapply daily_key_is_no_15m_key. symmetry. exact Hkey.
  - apply append_inv_tail in Hkey. apply append_inv_tail in Hkey. auto.
Qed.

(** *** Symbols that the snapshot lacks *)

(** X17. Rules whose symbol the snapshot lacks give no alert:
    [checkPriceAlerts] returns the empty list, and [checkChangeAlerts]
    returns it after reading the clock, without any request; so it is with
    the nil map. *)
Theorem absent_symbols_give_no_alert
  (prices : GoMap float64) (alertCooldown : Duration) (s : Sys) :
  (Forall (fun rule => GoMap_index prices (par_Symbol rule ++ "USDT") = None)
     (PriceAlertRules (config s)) ->
   checkPriceAlerts prices s = (Returns [], s)) /\
  (Forall (fun rule => GoMap_index prices (car_Symbol rule ++ "USDT") = None)
     (ChangeAlertRules (config s)) ->
   checkChangeAlerts prices alertCooldown s = (Returns [], record EvNow s)) /\
  checkPriceAlerts None s = (Returns [], s) /\
  checkChangeAlerts None alertCooldown s = (Returns [], record EvNow s).
Proof.
  assert (forall prices,
            Forall (fun rule => GoMap_index prices (par_Symbol rule ++ "USDT") = None)
              (PriceAlertRules (config s)) ->
            checkPriceAlerts prices s = (Returns [], s)) as Hprice.
  { intros p Hall. unfold checkPriceAlerts, bind, gets. cbn [fst snd].
    generalize (@nil AlertInfo).
    induction Hall as [|rule rules Hr _ IH]; intros triggered; [reflexivity |].
    cbn [forM]. unfold bind. unfold checkPriceRule at 1. rewrite Hr. unfold ret at 1.
    apply IH. }
  assert (forall prices,
            Forall (fun rule => GoMap_index prices (car_Symbol rule ++ "USDT") = None)
              (ChangeAlertRules (config s)) ->
            checkChangeAlerts prices alertCooldown s = (Returns [], record EvNow s)) as Hchange.
  { intros p Hall. unfold checkChangeAlerts, bind, time_Now, gets. cbn [fst snd].
    change (config (record EvNow s)) with (config s).
    generalize (record EvNow s). generalize (@nil AlertInfo).
    induction Hall as [|rule rules Hr _ IH]; intros triggered s0; [reflexivity |].
    cbn [forM]. unfold bind. rewrite checkChangeRule_cases, Hr. apply IH. }
  split; [apply Hprice |]. split; [apply Hchange |]. split.
  - apply Hprice. apply Forall_forall. intros rule _. reflexivity.
  - apply Hchange. apply Forall_forall. intros rule _. reflexivity.
Qed.

(** *** The time of the last send *)

Lemma sendPriceAlerts_value priceAlerts alertCooldown lastSent s v s' :
  sendPriceAlerts priceAlerts alertCooldown lastSent s = (Returns v, s') ->
  v = lastSent \/ readAfterSend (env s) v.
Proof.
  unfold sendPriceAlerts. destruct priceAlerts as [|alert rest].
  - intros H. injection H as <- _. left. reflexivity.
  - cbn [length Nat.ltb Nat.leb]. unfold time_Since, bind, time_Now, ret.
    destruct (alertCooldown <? _).
    + rewrite sendAlerts_cons. cbn [env history config record].
      destruct (env_post _ _ _ _) eqn:Epost; intros H; injection H as <- _.
      * left. reflexivity.
      * right. eexists _, _, _. split; [exact Epost | reflexivity].
    + intros H. injection H as <- _. left. reflexivity.
Qed.

Lemma monitorTick_value lastSent s v s' :
  monitorTick lastSent s = (Returns v, s') ->
  v = lastSent \/ readAfterSend (env s) v.
Proof.
  unfold monitorTick. unfold bind at 1. unfold gets at 1. unfold bind at 1.
  pose proof (quiet_getAllPrices s) as [(_ & He1 & _) _].
  destruct (getAllPrices s) as [[[[prices|] source] | r] s1]; cbn [snd] in *;
    [| intros H; injection H as <- _; left; reflexivity | discriminate].
  destruct (checkPriceAlerts_returns (Some prices) s1) as (priceAlerts & Ea).
  rewrite (bind_Returns _ _ _ _ _ Ea). unfold bind at 1.
  pose proof (monitorInvariant_checkChangeAlerts (Some prices)
                (alertCooldownOf (config s)) s1) as (_ & He2 & _).
  destruct (checkChangeAlerts (Some prices) (alertCooldownOf (config s)) s1)
    as [[changeAlerts | r] s2]; cbn [snd] in *; [| discriminate].
  unfold bind at 1.
  destruct (sendPriceAlerts priceAlerts (alertCooldownOf (config s)) lastSent s2)
    as [[last' | r] s3] eqn:Es; [| discriminate].
  apply sendPriceAlerts_value in Es. rewrite He2, He1 in Es.
  unfold bind, ret.
  destruct (sendChangeAlerts changeAlerts s3) as [[[] | r] s4]; [| discriminate].
  destruct (logCurrentPrices (Some prices) s4) as [[[] | r] s5]; [| discriminate].
  intros H. injection H as <- _. exact Es.
Qed.

(** X18. After any number of ticks the variable [lastAlertTime] of the
    loop holds its first value, or a reading of the clock taken right
    after a post that returned no error: it is never set to anything
    else. *)
Theorem lastAlertTime_is_a_send_time (n : nat) (lastSent : Time) (s : Sys)
  (v : Time) (s' : Sys) :
  monitorTicks n lastSent s = (Returns v, s') ->
  v = lastSent \/ readAfterSend (env s) v.
Proof.
  revert lastSent s. induction n as [|n IH]; intros lastSent s.
  - intros H. injection H as <- _. left. reflexivity.
  - cbn [monitorTicks]. unfold bind.
    pose proof (monitorInvariant_monitorTick lastSent s) as (_ & He & _).
    destruct (monitorTick lastSent s) as [[last1 | r] s1] eqn:E1; [| discriminate].
    cbn [snd] in He. intros H. apply IH in H. rewrite He in H.
    destruct H as [-> | H]; [| right; exact H].
    eapply monitorTick_value. exact E1.
Qed.

(** *** The requests of the resolver *)

Lemma getHistoricalPriceFromBinance_state symbol period s :
  period = "daily" \/ period = "15m" ->
  (getHistoricalPriceFromBinance symbol period s).2
  = record (EvGet (binanceKlineURL s symbol period)) s.
Proof.
  unfold getHistoricalPriceFromBinance, binanceKlineURL.
  intros [-> | ->]; cbn [String.eqb Ascii.eqb Bool.eqb].
  - unfold getDailyOpenPriceFromBinance, bind, gets, http_Get. cbn [fst snd].
    destruct (env_get _ _ _ _) as [klines | err]; [| reflexivity].
    destruct klines as [|kline rest]; [reflexivity |].
    cbn [length Nat.eqb]. unfold index, ret, panic. cbn [lookup list_lookup].
    unfold BinanceKline in *.
    destruct (kline !! 1%nat) as [[o | | | |]|]; try reflexivity.
    destruct (Sscanf_f o); reflexivity.
  - unfold get15mAgoPriceFromBinance, bind, gets, http_Get. cbn [fst snd].
    destruct (env_get _ _ _ _) as [klines | err]; [| reflexivity].
    destruct klines as [|k0 [|kline rest]]; [reflexivity | reflexivity |].
    cbn [length Nat.ltb Nat.leb]. unfold index, ret, panic.
    change ((k0 :: kline :: rest) !! 1%nat) with (Some kline). cbv iota beta.
    unfold BinanceKline in *.
    destruct (kline !! 4%nat) as [[o | | | |]|]; try reflexivity.
    destruct (Sscanf_f o); reflexivity.
Qed.

Lemma getHistoricalPriceFromBybit_state symbol period s :
  period = "daily" \/ period = "15m" ->
  (getHistoricalPriceFromBybit symbol period s).2
  = record (EvGet (bybitKlineURL s symbol period)) s.
Proof.
  unfold getHistoricalPriceFromBybit, bybitKlineURL.
  intros [-> | ->]; cbn [String.eqb Ascii.eqb Bool.eqb].
  - unfold getDailyOpenPriceFromBybit, bind, gets, http_Get. cbn [fst snd].
    destruct (env_get _ _ _ _) as [result | err]; [| reflexivity].
    destruct (negb _); [reflexivity |].
    destruct (bkr_List result) as [|kline rest]; [reflexivity |].
    cbn [length Nat.eqb]. unfold index, ret, panic. cbn [lookup list_lookup].
    destruct (kline !! 1%nat) as [o|]; [| reflexivity].
    destruct (Sscanf_f o); reflexivity.
  - unfold get15mAgoPriceFromBybit, bind, gets, http_Get. cbn [fst snd].
    destruct (env_get _ _ _ _) as [result | err]; [| reflexivity].
    destruct (negb _); [reflexivity |].
    destruct (bkr_List result) as [|k0 [|kline rest]]; [reflexivity | reflexivity |].
    cbn [length Nat.ltb Nat.leb]. unfold index, ret, panic.
    change ((k0 :: kline :: rest) !! 1%nat) with (Some kline). cbv iota beta.
    destruct (kline !! 4%nat) as [o|]; [| reflexivity].
    destruct (Sscanf_f o); reflexivity.
Qed.

(** X19. For the periods ["daily"] and ["15m"], [getHistoricalPrice]
    makes one request to Binance and then at most one to Bybit; Bybit is
    asked exactly when Binance returned, without panic, something other
    than a nil error with a price above zero. *)
Theorem getHistoricalPrice_requests (symbol period : string) (s : Sys) :
  period = "daily" \/ period = "15m" ->
  let asked := record (EvGet (binanceKlineURL s (symbol ++ "USDT") period)) s in
  let fallback := record (EvGet (bybitKlineURL s (symbol ++ "USDT") period)) asked in
  match (getHistoricalPriceFromBinance (symbol ++ "USDT") period s).1 with
  | Panics r => getHistoricalPrice symbol period s = (Panics r, asked)
  | Returns (price, None) =>
      if (0 <? price)%float
      then getHistoricalPrice symbol period s = (Returns (price, None), asked)
      else (getHistoricalPrice symbol period s).2 = fallback
  | Returns (_, Some _) => (getHistoricalPrice symbol period s).2 = fallback
  end.
Proof.
  intros Hp. cbv zeta. rewrite getHistoricalPrice_unfold.
  pose proof (getHistoricalPriceFromBinance_state (symbol ++ "USDT") period s Hp) as H1.
  destruct (getHistoricalPriceFromBinance (symbol ++ "USDT") period s)
    as [[[p1 [e1|]] | r] s1]; cbn [fst snd] in *; subst s1.
  - pose proof (getHistoricalPriceFromBybit_state (symbol ++ "USDT") period
                  (record (EvGet (binanceKlineURL s (symbol ++ "USDT") period)) s) Hp) as H2.
    destruct (getHistoricalPriceFromBybit _ _ _) as [[[p2 e2] | r] s2]; cbn [fst snd] in *.
    + destruct (match e2 with None => _ | Some _ => _ end); exact H2.
    + exact H2.
  - destruct (0 <? p1)%float; [reflexivity |].
    pose proof (getHistoricalPriceFromBybit_state (symbol ++ "USDT") period
                  (record (EvGet (binanceKlineURL s (symbol ++ "USDT") period)) s) Hp) as H2.
    destruct (getHistoricalPriceFromBybit _ _ _) as [[[p2 e2] | r] s2]; cbn [fst snd] in *.
    + destruct (match e2 with None => _ | Some _ => _ end); exact H2.
    + exact H2.
  - reflexivity.
Qed.

(** *** The monitored symbols and the log line *)

Lemma elem_of_collect {A} (f : A -> string) (l : list A) :
  forall (init : gset string) x,
    x ∈ foldl (fun symbols rule => {[f rule]} ∪ symbols) init l <-> x ∈ init \/ x ∈ map f l.
Proof.
  induction l as [|r l IH]; intros init x; simpl.
  - split; [auto | intros [H | H]; [exact H | inversion H]].
  - rewrite IH. rewrite elem_of_union, elem_of_singleton, elem_of_cons. tauto.
Qed.

(** X20. When a [range] over a map visits each key once, the monitored
    symbols are the symbols of the rules, each listed once: a symbol that
    several rules share is asked for once by [getPricesFromCoinbase],
    [getPricesFromKraken] and [logCurrentPrices]. *)
Theorem monitoredSymbols_are_the_rule_symbols (cfg : Config) :
  (forall keys, range_order keys ≡ₚ keys) ->
  NoDup (monitoredSymbols cfg) /\
  forall symbol, symbol ∈ monitoredSymbols cfg <-> symbol ∈ ruleSymbols cfg.
Proof.
  intros Hperm. unfold monitoredSymbols. split.
  - rewrite Hperm. apply NoDup_elements.
  - intros symbol. rewrite Hperm, elem_of_elements, !elem_of_collect.
    unfold ruleSymbols. rewrite elem_of_app, elem_of_empty. tauto.
Qed.

(** X21. [logCurrentPrices] makes GET requests only and leaves the
    cooldown state as it is; for a snapshot that has none of the monitored
    symbols, the nil map included, it does nothing at all. *)
Theorem logCurrentPrices_effects (prices : GoMap float64) (s : Sys) :
  quiet isGet s (logCurrentPrices prices s).2 /\
  (Forall (fun symbol => GoMap_index prices (symbol ++ "USDT") = None)
     (monitoredSymbols (config s)) ->
   logCurrentPrices prices s = (Returns tt, s)) /\
  logCurrentPrices None s = (Returns tt, s).
Proof.
  assert (forall prices,
            Forall (fun symbol => GoMap_index prices (symbol ++ "USDT") = None)
              (monitoredSymbols (config s)) ->
            logCurrentPrices prices s = (Returns tt, s)) as Hnone.
  { intros p Hall. unfold logCurrentPrices, bind, gets. cbn [fst snd].
    induction Hall as [|symbol symbols Hs _ IH]; [reflexivity |].
    cbn [forM]. unfold bind. rewrite Hs. unfold ret at 1. exact IH. }
  split; [apply quiet_logCurrentPrices |]. split; [apply Hnone |].
  apply Hnone. apply Forall_forall. intros symbol _. reflexivity.
Qed.

End Proofs.

(** ** Examples, on the executable runtime *)

#[local] Existing Instance demo_runtime.

(** Binance fails, Bybit answers: the snapshot and the name are Bybit's,
    and neither Coinbase nor Kraken has been asked. *)
Example getAllPrices_falls_back_to_Bybit :
  (getAllPrices (rt := demo_runtime) bybit_only).1
  = Returns (Some {["BTCUSDT" := 65000%float]}, "Bybit") /\
  history (getAllPrices (rt := demo_runtime) bybit_only).2
  = [EvGet "https://binance/ticker"; EvGet "https://bybit/ticker"].
Proof. split; vm_compute; reflexivity. Qed.

(** A ticker whose price does not parse is dropped, without error. *)
Example getPricesFromBinance_drops_unparsable :
  (getPricesFromBinance (rt := demo_runtime)
     (initialSys (demo_config 5 [] [])
        (demo_env
           (Body [{| bin_Symbol := "BTCUSDT"; bin_Price := "65000" |};
                  {| bin_Symbol := "ETHUSDT"; bin_Price := "n/a" |};
                  {| bin_Symbol := "SOLUSDT"; bin_Price := "150.5" |}])
           offline noKlines noBybitKlines None (fun _ => 0)))).1
  = Returns (Some (<["BTCUSDT" := 65000%float]> {["SOLUSDT" := 150.5%float]}), None).
Proof. vm_compute. reflexivity. Qed.

(** C2. On two 15 minute candles that Binance lists oldest first,
    [get15mAgoPriceFromBinance] returns 36400, the close of the most recent
    candle, and not 36050, the close of the second most recent one, which
    is what [get15mAgoPriceFromBybit] returns on the same two candles
    listed newest first. *)
Theorem C2_binance_15m_returns_latest_close :
  map openTimeOf binanceCandles = [Some 1700000000000%float; Some 1700000900000%float] /\
  (1700000000000 <? 1700000900000)%float = true /\
  (get15mAgoPriceFromBinance (rt := demo_runtime) "BTCUSDT" candleWorld).1
  = Returns (36400%float, None) /\
  mostRecentForward binanceCandles
  = Some [INumber 1700000900000; IString "36050"; IString "36500"; IString "36000";
          IString "36400"; IString "3"] /\
  secondMostRecentForward binanceCandles
  = Some [INumber 1700000000000; IString "36000"; IString "36100"; IString "35900";
          IString "36050"; IString "12"] /\
  secondMostRecentBackward bybitCandles
  = Some ["1700000000000"; "36000"; "36100"; "35900"; "36050"; "12"; "432600"] /\
  (get15mAgoPriceFromBybit (rt := demo_runtime) "BTCUSDT" candleWorld).1
  = Returns (36050%float, None).
Proof. repeat split; vm_compute; reflexivity. Qed.

(** One candle only is an error at both sources. *)
Example get15mAgoPrice_one_candle :
  let s :=
    initialSys (demo_config 5 [] [])
      (demo_env offline offline
         (fun _ => Body [ethDailyCandle])
         (fun _ => Body {| bkr_List := [["1700000900000"; "1"; "1"; "1"; "1"; "1"; "1"]];
                           bkr_RetCode := 0; bkr_RetMsg := "OK" |})
         None (fun _ => 0)) in
  (get15mAgoPriceFromBinance (rt := demo_runtime) "ETHUSDT" s).1
  = Returns (0%float, Some "K线数据不足") /\
  (get15mAgoPriceFromBybit (rt := demo_runtime) "ETHUSDT" s).1
  = Returns (0%float, Some "K线数据不足") /\
  (getHistoricalPrice (rt := demo_runtime) "ETH" "15m" s).1
  = Returns (0%float, Some (noHistoricalPrice "ETH" "15m")).
Proof. repeat split; vm_compute; reflexivity. Qed.

(** Threshold rules: strictly below, strictly above. *)
Example checkPriceAlerts_below_60000 :
  let fired price :=
    length_of_outcome
      (checkPriceAlerts (rt := demo_runtime) (btcSnapshot price)
         (btcWorld [btcRule 60000 Below] None)).1 in
  fired 59000%float = Some 1%nat /\ fired 60000%float = Some 0%nat
  /\ fired 61000%float = Some 0%nat.
Proof. repeat split; vm_compute; reflexivity. Qed.

Example checkPriceAlerts_above_70000 :
  let fired price :=
    length_of_outcome
      (checkPriceAlerts (rt := demo_runtime) (btcSnapshot price)
         (btcWorld [btcRule 70000 Above] None)).1 in
  fired 70001%float = Some 1%nat /\ fired 70000%float = Some 0%nat.
Proof. repeat split; vm_compute; reflexivity. Qed.

Example checkPriceAlerts_message :
  (checkPriceAlerts (rt := demo_runtime) (btcSnapshot 100)
     (btcWorld [btcRule 100 Below; btcRule 101 Below] None)).1
  = Returns [{| Symbol := "BTC"; AlertType := "price"; CurrentPrice := 100%float;
                Message := "跌破 $101.00" |}].
Proof. vm_compute. reflexivity. Qed.

(** The change rule of 5 percent on ETH, base 200: 210 fires, 209 does
    not. *)
Example checkChangeAlerts_five_percent :
  (checkChangeAlerts (rt := demo_runtime) (ethSnapshot 210) (5 * Minute)
     (ethWorld "210" None scenarioClock)).1
  = Returns [{| Symbol := "ETH"; AlertType := "change"; CurrentPrice := 210%float;
                Message := "当日上涨 5.00% (从 $200.00 到 $210.00)" |}] /\
  (checkChangeAlerts (rt := demo_runtime) (ethSnapshot 209) (5 * Minute)
     (ethWorld "209" None scenarioClock)).1
  = Returns [].
Proof. split; vm_compute; reflexivity. Qed.

(** The comparison is made on the binary64 value: from 100 to 129 the
    computed change is just below 29. *)
Example changePercent_is_rounded :
  (changePercentOf 129 100 <? 29)%float = true /\
  changeTriggered {| car_Symbol := "ETH"; car_ChangePercent := 29; car_Period := "daily" |}
    129 100 = false.
Proof. split; vm_compute; reflexivity. Qed.

(** The cooldown of five minutes: the rule fires at [T0], is suppressed one
    second later, and fires again six minutes after [T0]. *)
Example checkChangeAlerts_cooldown_scenario :
  let run :=
    threeEvaluations (rt := demo_runtime) (ethSnapshot 210) (5 * Minute)
      (ethWorld "210" None scenarioClock) in
  (exists a1 a3, run.1 = Returns ([a1], [], [a3])) /\
  lastAlertTime (priceHistory run.2) !! "ETHUSDT_daily" = Some "2023-11-14T22:19:20Z".
Proof. split; [eexists _, _ |]; vm_compute; reflexivity. Qed.

(** A tick whose notification fails keeps the cooldown entry. *)
Example monitorTick_failed_send_keeps_cooldown :
  let s := ethWorld "210" (Some "timeout") scenarioClock in
  let s' := (monitorTick (rt := demo_runtime) zeroTime s).2 in
  lastAlertTime (priceHistory s') !! "ETHUSDT_daily" = Some "2023-11-14T22:13:20Z" /\
  head (history s') = Some (EvGet "https://binance/ticker") /\
  history s' !! 1%nat = Some EvNow /\
  (exists body, history s' !! 3%nat = Some (EvPost "https://ntfy/crypto" body)).
Proof. split; [| split; [| split; [| eexists]]]; vm_compute; reflexivity. Qed.

(** A second tick one second later does not fire again, although the
    notification of the first tick failed. *)
Example monitorTicks_failed_send_still_suppresses :
  let run := monitorTicks (rt := demo_runtime) 2 zeroTime
               (ethWorld "210" (Some "timeout") scenarioClock) in
  run.1 = Returns zeroTime /\
  countPosts (history run.2) = 1%nat /\
  lastAlertTime (priceHistory run.2) !! "ETHUSDT_daily" = Some "2023-11-14T22:13:20Z".
Proof. repeat split; vm_compute; reflexivity. Qed.

(** Two ticks one after the other with BTC below its threshold: the batch
    is posted in the first, and dropped in the second. *)
Example monitorTicks_price_batch_cooldown :
  let run := monitorTicks (rt := demo_runtime) 2 zeroTime (btcWorld [btcRule 60000 Below] None) in
  run.1 = Returns (T0 + 2 * Second) /\
  countPosts (history run.2) = 1%nat.
Proof. split; vm_compute; reflexivity. Qed.

(** *** The theorems with hypotheses, at concrete inputs *)

(** ETH at 210 against a daily open of 200, threshold 5 percent, no
    cooldown entry: the rule fires. *)
Lemma C3_change_rule_triggers_on_magnitude_witness :
  exists alert,
    checkChangeRule (rt := demo_runtime) (ethSnapshot 210) (5 * Minute) T0 (ethRule 5) []
      (ethWorld "210" None scenarioClock)
    = (Returns ([] ++ [alert])%list,
       withLastAlertTime (alertKeyOf (ethRule 5)) (Format_RFC3339 T0)
         (record (EvGet ethDailyURL) (ethWorld "210" None scenarioClock))).
Proof.
  destruct (C3_change_rule_triggers_on_magnitude (rt := demo_runtime)
              (ethSnapshot 210) (5 * Minute) T0 (ethRule 5) []
              (ethWorld "210" None scenarioClock) 210%float 200%float
              (record (EvGet ethDailyURL) (ethWorld "210" None scenarioClock))
              ltac:(vm_compute; reflexivity) ltac:(vm_compute; reflexivity))
    as (_ & _ & H & _).
  apply H; vm_compute; reflexivity.
Defined.

(** The same rule one second after it fired at [T0], with a window of
    five minutes: it is suppressed. *)
Lemma C6_change_alert_cooldown_witness :
  checkChangeRule (rt := demo_runtime) (ethSnapshot 210) (5 * Minute) (T0 + Second)
    (ethRule 5) [] ethFired
  = (Returns [], record (EvGet ethDailyURL) ethFired).
Proof.
  destruct (C6_change_alert_cooldown (rt := demo_runtime)
              (ethSnapshot 210) (5 * Minute) (T0 + Second) (ethRule 5) []
              ethFired 210%float 200%float (record (EvGet ethDailyURL) ethFired)
              ltac:(vm_compute; reflexivity) ltac:(vm_compute; reflexivity)
              ltac:(vm_compute; reflexivity))
    as (_ & _ & H).
  destruct (H T0 (1700000000 * Second)
              ltac:(vm_compute; reflexivity) ltac:(vm_compute; reflexivity)
              ltac:(vm_compute; split; [discriminate | reflexivity]) eq_refl)
    as (Hsuppressed & _).
  apply Hsuppressed. reflexivity.
Defined.

(** *** Further properties with hypotheses, at concrete inputs *)

(** A rule over one hour is skipped. *)
Lemma unknown_period_is_skipped_witness :
  checkChangeRule (rt := demo_runtime) (ethSnapshot 210) (5 * Minute) T0 hourlyRule []
    (ethWorld "210" None scenarioClock)
  = (Returns [], ethWorld "210" None scenarioClock).
Proof.
  apply (unknown_period_is_skipped (rt := demo_runtime)
           (ethSnapshot 210) (5 * Minute) T0 hourlyRule []
           (ethWorld "210" None scenarioClock)
           ltac:(discriminate) ltac:(discriminate)).
Defined.

(** The alert of the daily rule on ETH starts with the daily label. *)
Lemma change_alert_period_is_known_witness :
  (car_Period (ethRule 5) = "daily" /\
   exists rest, Message (changeAlertOf (ethRule 5) 210 200) = "当日" ++ rest) \/
  (car_Period (ethRule 5) = "15m" /\
   exists rest, Message (changeAlertOf (ethRule 5) 210 200) = "15分钟" ++ rest).
Proof.
  apply (change_alert_period_is_known (rt := demo_runtime)
           (ethSnapshot 210) (5 * Minute) T0 (ethRule 5) []
           (ethWorld "210" None scenarioClock)
           (changeAlertOf (ethRule 5) 210 200)
           (withLastAlertTime (alertKeyOf (ethRule 5)) (Format_RFC3339 T0)
              (record (EvGet ethDailyURL) (ethWorld "210" None scenarioClock)))).
  vm_compute. reflexivity.
Defined.

(** The tick of the world with the short candle panics. *)
Lemma short_candle_stops_the_tick_witness :
  (monitorTick (rt := demo_runtime) zeroTime shortCandleWorld).1
  = Panics "index out of range".
Proof.
  destruct (short_candle_stops_the_tick (rt := demo_runtime) zeroTime shortCandleWorld
              ethAt210 "Binance"
              (record (EvGet "https://binance/ticker") shortCandleWorld)
              eth15mRule [] 210%float shortCandles
              [INumber 1700000900000; IString "210"]
              ltac:(vm_compute; reflexivity) ltac:(reflexivity) ltac:(reflexivity)
              ltac:(vm_compute; reflexivity) ltac:(reflexivity)
              ltac:(reflexivity) ltac:(simpl; lia))
    as (H & _).
  rewrite H. reflexivity.
Defined.

(** With every source down, the tick returns at once. *)
Lemma tick_without_prices_witness :
  exists s1, monitorTick (rt := demo_runtime) T0 offlineWorld = (Returns T0, s1).
Proof.
  eexists.
  apply (tick_without_prices (rt := demo_runtime) T0 offlineWorld ""
           (getAllPrices (rt := demo_runtime) offlineWorld).2
           ltac:(vm_compute; reflexivity)).
Defined.

(** The first batch of the world with BTC below its threshold. *)
Lemma first_price_batch_is_sent_witness :
  exists out s' evs,
    sendPriceAlerts (rt := demo_runtime)
      [{| Symbol := "BTC"; AlertType := "price"; CurrentPrice := 59000%float;
          Message := "跌破 $60000.00" |}]
      (alertCooldownOf (config (btcWorld [btcRule 60000 Below] None))) zeroTime
      (btcWorld [btcRule 60000 Below] None) = (out, s') /\
    history s'
    = (history (btcWorld [btcRule 60000 Below] None)
       ++ [EvNow;
           EvPost (NtfyURL (Notify (config (btcWorld [btcRule 60000 Below] None))))
             (alertsMessage
                [{| Symbol := "BTC"; AlertType := "price"; CurrentPrice := 59000%float;
                    Message := "跌破 $60000.00" |}])]
       ++ evs)%list.
Proof.
  apply (first_price_batch_is_sent (rt := demo_runtime)
           {| Symbol := "BTC"; AlertType := "price"; CurrentPrice := 59000%float;
              Message := "跌破 $60000.00" |} []
           (btcWorld [btcRule 60000 Below] None)).
  vm_compute. discriminate.
Defined.

(** Two daily rules on ETH with different thresholds share their key. *)
Lemma alert_keys_do_not_collide_witness :
  car_Symbol (ethRule 5) = car_Symbol (ethRule 7)
  /\ car_Period (ethRule 5) = car_Period (ethRule 7).
Proof.
  apply (alert_keys_do_not_collide (ethRule 5) (ethRule 7)
           (or_introl eq_refl) (or_introl eq_refl) eq_refl).
Defined.

(** After two ticks of the world with BTC below its threshold, the time
    of the last send is a reading of the clock. *)
Lemma lastAlertTime_is_a_send_time_witness :
  T0 + 2 * Second = zeroTime \/
  readAfterSend (env (btcWorld [btcRule 60000 Below] None)) (T0 + 2 * Second).
Proof.
  assert ((monitorTicks (rt := demo_runtime) 2 zeroTime
             (btcWorld [btcRule 60000 Below] None)).1 = Returns (T0 + 2 * Second)) as H
    by (vm_compute; reflexivity).
  pose proof (surjective_pairing
                (monitorTicks (rt := demo_runtime) 2 zeroTime
                   (btcWorld [btcRule 60000 Below] None))) as E.
  rewrite H in E.
  exact (lastAlertTime_is_a_send_time (rt := demo_runtime) 2 zeroTime
           (btcWorld [btcRule 60000 Below] None) (T0 + 2 * Second) _ E).
Defined.

(** The daily open of ETH comes from Binance; Bybit is not asked. *)
Lemma getHistoricalPrice_requests_witness :
  getHistoricalPrice (rt := demo_runtime) "ETH" "daily" (ethWorld "210" None scenarioClock)
  = (Returns (200%float, None),
     record (EvGet ethDailyURL) (ethWorld "210" None scenarioClock)).
Proof.
  generalize (getHistoricalPrice_requests (rt := demo_runtime) "ETH" "daily"
                (ethWorld "210" None scenarioClock) (or_introl eq_refl)).
  vm_compute. intros H. exact H.
Defined.

(** Two rules on BTC and one on ETH: two monitored symbols. *)
Lemma monitoredSymbols_are_the_rule_symbols_witness :
  NoDup (monitoredSymbols (rt := demo_runtime)
           (demo_config 5 [btcRule 60000 Below; btcRule 70000 Above] [ethRule 5])).
Proof.
  apply (monitoredSymbols_are_the_rule_symbols (rt := demo_runtime)
           (demo_config 5 [btcRule 60000 Below; btcRule 70000 Above] [ethRule 5])
           (fun keys => reflexivity keys)).
Defined.
